(** * guessing_game: the identity generator, the answer validator and the
    turn handler of [app.py], embedded in Rocq.

    Layout of the development:
    - Python values: [str] as a list of code points, with [strip], [in] and
      the pattern [JSON_RE];
    - [json.loads] (CPython 3.11's [json/decoder.py], [json/scanner.py] and
      [_json.c]), with the interpreter's limit on the digits of an integer
      and its recursion limit;
    - the Pydantic model [IdentityAnswer];
    - the effects of the script: the collaborator [chat], Streamlit's
      [session_state], exceptions, [st.stop] and [st.rerun];
    - [generate_identity], [ask_identity_ai], [reset_game], [setup_game],
      [init_state] and [main];
    - the properties of these functions. *)

From Stdlib Require Import List NArith ZArith QArith Bool String Ascii Lia.
From Stdlib Require Import DecimalString.
Import ListNotations.

Local Open Scope N_scope.

(* ===================================================================== *)
(** ** Python strings *)
(* ===================================================================== *)

(** A Python [str] is a sequence of Unicode code points. *)
Definition pystr : Type := list N.

(** An ASCII literal as a [str]. *)
Fixpoint py (s : string) : pystr :=
  match s with
  | EmptyString => []
  | String a r => N_of_ascii a :: py r
  end.

(** The same, with a backtick in the literal standing for the double quote
    (code point 34); none of the literals of [app.py] holds a backtick. *)
Fixpoint pyq (s : string) : pystr :=
  match s with
  | EmptyString => []
  | String a r =>
      (if N_of_ascii a =? 96 then 34 else N_of_ascii a) :: pyq r
  end.

(** Lines joined by a newline, for the triple-quoted literals. *)
Fixpoint join_lines (ls : list pystr) : pystr :=
  match ls with
  | [] => []
  | [l] => l
  | l :: rest => l ++ 10 :: join_lines rest
  end.

Fixpoint str_eqb (a b : pystr) : bool :=
  match a, b with
  | [], [] => true
  | x :: a', y :: b' => (x =? y) && str_eqb a' b'
  | _, _ => false
  end.

(** [x in [a, b, ...]] on a list of strings. *)
Definition str_in_list (x : pystr) (l : list pystr) : bool :=
  existsb (str_eqb x) l.

(** [str.isspace] on one code point (CPython's [_PyUnicode_IsWhitespace]). *)
Definition isspace (c : N) : bool :=
  ((9 <=? c) && (c <=? 13)) || ((28 <=? c) && (c <=? 32))
  || (c =? 133) || (c =? 160) || (c =? 5760)
  || ((8192 <=? c) && (c <=? 8202))
  || (c =? 8232) || (c =? 8233) || (c =? 8239) || (c =? 8287)
  || (c =? 12288).

Fixpoint str_lstrip (s : pystr) : pystr :=
  match s with
  | [] => []
  | c :: r => if isspace c then str_lstrip r else s
  end.

Definition str_rstrip (s : pystr) : pystr := rev (str_lstrip (rev s)).

(** [s.strip()] *)
Definition str_strip (s : pystr) : pystr := str_rstrip (str_lstrip s).

(** [s.startswith(p)] *)
Fixpoint startswith (p s : pystr) : bool :=
  match p, s with
  | [], _ => true
  | x :: p', y :: s' => (x =? y) && startswith p' s'
  | _ :: _, [] => false
  end.

(** [a in b] on strings: [a] occurs in [b] as a contiguous substring. *)
Fixpoint str_in (a b : pystr) : bool :=
  startswith a b ||
  match b with
  | [] => false
  | _ :: b' => str_in a b'
  end.

(** [str.lower] restricted to code points below U+0100: the ASCII capitals
    and the Latin-1 capitals U+00C0..U+00DE (without U+00D7) move up by 32.
    Used only to run the script on concrete inputs; the functions below take
    [str.lower] as a parameter. *)
Definition lower_latin1_char (c : N) : N :=
  if ((65 <=? c) && (c <=? 90))
     || ((192 <=? c) && (c <=? 222) && negb (c =? 215))
  then c + 32 else c.

Definition lower_latin1 (s : pystr) : pystr := map lower_latin1_char s.

(** [str(n)] for an [int]. *)
Definition digits_of_uint (u : Decimal.uint) : pystr :=
  py (NilEmpty.string_of_uint u).

Definition str_of_int (z : Z) : pystr :=
  match z with
  | Z0 => py "0"
  | Zpos p => digits_of_uint (Pos.to_uint p)
  | Zneg p => 45 :: digits_of_uint (Pos.to_uint p)
  end.

(* ===================================================================== *)
(** ** The pattern JSON_RE *)
(* ===================================================================== *)

(** The text up to and including the first occurrence of [c]. *)
Fixpoint through_first (c : N) (s : pystr) : option pystr :=
  match s with
  | [] => None
  | x :: r =>
      if x =? c then Some [x]
      else option_map (cons x) (through_first c r)
  end.

(** [JSON_RE = re.compile(r"\{.*?\}", re.S)] and [JSON_RE.search(s)],
    returning [m.group(0)]: with [re.S] the dot matches every character, so
    the leftmost match starts at the first open brace that has a closing
    brace after it, and the lazy star stops at the first closing brace. *)
Fixpoint JSON_RE_search (s : pystr) : option pystr :=
  match s with
  | [] => None
  | x :: r =>
      if x =? 123 then
        match through_first 125 r with
        | Some body => Some (x :: body)
        | None => JSON_RE_search r
        end
      else JSON_RE_search r
  end.

(* ===================================================================== *)
(** ** Exceptions *)
(* ===================================================================== *)

(** The exceptions the script can meet.  [StopException] and
    [RerunException] are what Streamlit's [st.stop()] and [st.rerun()]
    raise to end the current run of the script. *)
Inductive exn : Type :=
| JSONDecodeError
| ValidationError
| TypeError
| ValueError
| RecursionError
| AttributeError
| UnboundLocalError
| StopException
| RerunException.

(** A computation either returns a value or raises. *)
Inductive result (A : Type) : Type :=
| Ret (a : A)
| Raise (e : exn).
Arguments Ret {A} a.
Arguments Raise {A} e.

(* ===================================================================== *)
(** ** json.loads *)
(* ===================================================================== *)

(** A Python [float] that came out of the decoder: [FDec neg m e] is
    [float] of the decimal literal of value [m * 10^e] with its sign, that
    is, this value rounded to the nearest double. *)
Inductive pyfloat : Type :=
| FNaN
| FInf (neg : bool)
| FDec (neg : bool) (mant : N) (exp10 : Z).

(** The values [json.loads] returns: [None], [bool], [int], [float], [str],
    [list] and [dict].  A [dict] is kept as the pairs in the order of the
    text; [dict(pairs)] keeps the last value of a repeated key, which is
    what [dict_get] reads. *)
#[warnings="-register-all"] Inductive json : Type :=
| JNull
| JBool (b : bool)
| JInt (z : Z)
| JFloat (f : pyfloat)
| JStr (s : pystr)
| JArr (items : list json)
| JObj (pairs : list (pystr * json)).

Fixpoint dict_get (k : pystr) (pairs : list (pystr * json)) : option json :=
  match pairs with
  | [] => None
  | (k', v) :: rest =>
      match dict_get k rest with
      | Some later => Some later
      | None => if str_eqb k k' then Some v else None
      end
  end.

(** The outcome of a scanning function: a value and the text after it;
    [StopIteration], which the scanner raises where no value starts and
    [raw_decode] turns into [JSONDecodeError]; another exception, which
    ends the scan where it is raised; or the fuel of this model used
    up. *)
Inductive scan (A : Type) : Type :=
| Scanned (a : A) (rest : pystr)
| ScanStop
| ScanRaise (e : exn)
| OutOfFuel.
Arguments Scanned {A} a rest.
Arguments ScanStop {A}.
Arguments ScanRaise {A} e.
Arguments OutOfFuel {A}.

(** [WHITESPACE = re.compile(r'[ \t\n\r]*')]: the text after the match. *)
Definition json_ws (c : N) : bool :=
  (c =? 32) || (c =? 9) || (c =? 10) || (c =? 13).

Fixpoint skip_ws (s : pystr) : pystr :=
  match s with
  | [] => []
  | c :: r => if json_ws c then skip_ws r else s
  end.

Definition hex_digit (c : N) : option N :=
  if (48 <=? c) && (c <=? 57) then Some (c - 48)
  else if (97 <=? c) && (c <=? 102) then Some (c - 87)
  else if (65 <=? c) && (c <=? 70) then Some (c - 55)
  else None.

(** [_decode_uXXXX]: four hexadecimal digits. *)
Definition decode_uXXXX (a b c d : N) : option N :=
  match hex_digit a, hex_digit b, hex_digit c, hex_digit d with
  | Some x, Some y, Some z, Some w => Some (((x * 16 + y) * 16 + z) * 16 + w)
  | _, _, _, _ => None
  end.

(** [BACKSLASH]: the one-character escapes. *)
Definition BACKSLASH (esc : N) : option N :=
  if esc =? 34 then Some 34            (* quote *)
  else if esc =? 92 then Some 92       (* backslash *)
  else if esc =? 47 then Some 47       (* slash *)
  else if esc =? 98 then Some 8        (* b *)
  else if esc =? 102 then Some 12      (* f *)
  else if esc =? 110 then Some 10      (* n *)
  else if esc =? 114 then Some 13      (* r *)
  else if esc =? 116 then Some 9       (* t *)
  else None.

Definition scan_cons (c : N) (r : option (pystr * pystr))
  : option (pystr * pystr) :=
  match r with
  | Some (str, rest) => Some (c :: str, rest)
  | None => None
  end.

(** [scanstring(s, end, strict=True)]: [s] is the text after the opening
    quote; the result is the decoded string and the text after the closing
    quote, [None] for a [JSONDecodeError] (unterminated string, literal
    control character, invalid escape). *)
Fixpoint scanstring (s : pystr) : option (pystr * pystr) :=
  match s with
  | [] => None
  | c :: r =>
      if c =? 34 then Some ([], r)
      else if c =? 92 then
        match r with
        | [] => None
        | esc :: r1 =>
            if esc =? 117 then
              match r1 with
              | h1 :: h2 :: h3 :: h4 :: r2 =>
                  match decode_uXXXX h1 h2 h3 h4 with
                  | None => None
                  | Some uni =>
                      if (55296 <=? uni) && (uni <=? 56319) then
                        match r2 with
                        | b :: u :: g1 :: g2 :: g3 :: g4 :: r3 =>
                            if (b =? 92) && (u =? 117) then
                              match decode_uXXXX g1 g2 g3 g4 with
                              | None => None
                              | Some uni2 =>
                                  if (56320 <=? uni2) && (uni2 <=? 57343)
                                  then
                                    scan_cons
                                      (65536 + ((uni - 55296) * 1024
                                                + (uni2 - 56320)))
                                      (scanstring r3)
                                  else scan_cons uni (scanstring r2)
                              end
                            else scan_cons uni (scanstring r2)
                        | _ => scan_cons uni (scanstring r2)
                        end
                      else scan_cons uni (scanstring r2)
                  end
              | _ => None
              end
            else
              match BACKSLASH esc with
              | Some ch => scan_cons ch (scanstring r1)
              | None => None
              end
        end
      else if c <=? 31 then None
      else scan_cons c (scanstring r)
  end.

Definition is_digit (c : N) : bool := (48 <=? c) && (c <=? 57).

(** The longest run of ASCII digits at the head of [s], and the rest. *)
Fixpoint span_digits (s : pystr) : pystr * pystr :=
  match s with
  | [] => ([], [])
  | c :: r =>
      if is_digit c then
        let (ds, rest) := span_digits r in (c :: ds, rest)
      else ([], s)
  end.

(** [int] of a run of digits. *)
Definition digits_value (ds : pystr) : N :=
  fold_left (fun acc d => acc * 10 + (d - 48)) ds 0.

(** The first group of [NUMBER_RE]: an optional minus sign, then either a
    single 0 or a digit from 1 to 9 followed by any digits. *)
Definition match_integer (s : pystr) : option (bool * pystr * pystr) :=
  let (neg, r) :=
    match s with
    | c :: r' => if c =? 45 then (true, r') else (false, s)
    | [] => (false, s)
    end in
  match r with
  | c :: r' =>
      if c =? 48 then Some (neg, [c], r')
      else if is_digit c then
        let (ds, rest) := span_digits r in Some (neg, ds, rest)
      else None
  | [] => None
  end.

(** The second group: [(\.\d+)?]. *)
Definition match_frac (s : pystr) : pystr * pystr :=
  match s with
  | dot :: d :: _ =>
      if (dot =? 46) && is_digit d then span_digits (tl s) else ([], s)
  | _ => ([], s)
  end.

(** The third group: [([eE][-+]?\d+)?]; the exponent's value when the group
    matches. *)
Definition match_exp (s : pystr) : option Z * pystr :=
  match s with
  | e :: r =>
      if (e =? 101) || (e =? 69) then
        let (eneg, r1) :=
          match r with
          | sg :: r' =>
              if sg =? 45 then (true, r')
              else if sg =? 43 then (false, r')
              else (false, r)
          | [] => (false, r)
          end in
        match span_digits r1 with
        | ([], _) => (None, s)
        | (ds, rest) =>
            let v := Z.of_N (digits_value ds) in
            (Some (if eneg then (- v)%Z else v), rest)
        end
      else (None, s)
  | [] => (None, s)
  end.

(** What the decoder meets of the interpreter it runs in.
    [int_max_str_digits] is [sys.get_int_max_str_digits()]: [int] of a
    decimal text with more digits raises [ValueError]; 0 switches the limit
    off, which is also how an interpreter without the limit behaves.
    [recursion_room] is what is left of the recursion limit when
    [raw_decode] calls the scanner: [sys.getrecursionlimit()] less the
    levels in use there.  This is the number of arrays and objects, one inside
    the other, that the scanner can enter; with no level left the
    interpreter raises [RecursionError].  Only the decoder's use of the
    levels is followed: the calls of the script itself and of Pydantic are
    taken to fit. *)
Class interpreter : Type := {
  int_max_str_digits : nat;
  recursion_room : nat
}.

(** CPython 3.11 as it starts: 4300 digits, and a recursion limit of 1000,
    which leaves 993 levels when the script is run as a program, with
    [json.loads] called by [ask_identity_ai], called by [main], called by
    the module.  Under Streamlit the frames of its script runner leave
    fewer. *)
Definition cpython_defaults : interpreter :=
  {| int_max_str_digits := 4300; recursion_room := 993 |}.

(** Besides the arrays and objects, three things that the decoder does take
    levels of the recursion limit in CPython 3.11.  Raising
    [JSONDecodeError] from the scanner ([raise_errmsg] of [_json.c]) takes
    three: the call of the class, its [__init__], and a method call in
    there.  Raising it from [decoder.py] takes two.  The call of
    [parse_constant] for [NaN], [Infinity] and [-Infinity] takes one. *)
Definition levels_of_raise_errmsg : nat := 3.
Definition levels_of_raise : nat := 2.
Definition levels_of_parse_constant : nat := 1.

(** [raise_errmsg(msg, s, end)] with [room] levels left. *)
Definition raise_errmsg (room : nat) : scan json :=
  if (room <? levels_of_raise_errmsg)%nat then ScanRaise RecursionError
  else ScanRaise JSONDecodeError.

(** [_parse_constant] with [room] levels left. *)
Definition parse_constant (room : nat) (f : pyfloat) (rest : pystr)
  : scan json :=
  if (room <? levels_of_parse_constant)%nat then ScanRaise RecursionError
  else Scanned (JFloat f) rest.

Section Decoder.

Context {limits : interpreter}.

(** [parse_int], which is [int]: the value of the literal, or [ValueError]
    when the literal has more digits than the interpreter converts. *)
Definition parse_int (neg : bool) (ids : pystr) : result json :=
  if (negb (int_max_str_digits =? 0) &&
      (int_max_str_digits <? List.length ids))%nat
  then Raise ValueError
  else
    let v := Z.of_N (digits_value ids) in
    Ret (JInt (if neg then (- v)%Z else v)).

(** [NUMBER_RE.match] followed by [parse_int] or [parse_float]. *)
Definition match_number (s : pystr) : option (result json * pystr) :=
  match match_integer s with
  | None => None
  | Some (neg, ids, r1) =>
      let (fds, r2) := match_frac r1 in
      let (ex, r3) := match_exp r2 in
      match fds, ex with
      | [], None => Some (parse_int neg ids, r3)
      | _, _ =>
          let e := match ex with Some e => e | None => 0%Z end in
          Some (Ret (JFloat (FDec neg (digits_value (ids ++ fds))
                               (e - Z.of_nat (List.length fds))%Z)), r3)
      end
  end.

(** The [while True] loop of [JSONObject]; [s] is the text after the
    opening quote of a key, [pairs] the pairs read so far, [room] the
    levels left inside the object. *)
Fixpoint JSONObject_loop (scan_once : pystr -> scan json) (room fuel : nat)
    (s : pystr) (pairs : list (pystr * json)) : scan json :=
  match fuel with
  | O => OutOfFuel
  | S fuel' =>
      match scanstring s with
      | None => raise_errmsg room
      | Some (key, r) =>
          match skip_ws r with
          | colon :: r1 =>
              if colon =? 58 then
                match scan_once (skip_ws r1) with
                | Scanned value r2 =>
                    let pairs' := pairs ++ [(key, value)] in
                    match skip_ws r2 with
                    | nextchar :: r3 =>
                        if nextchar =? 125 then Scanned (JObj pairs') r3
                        else if nextchar =? 44 then
                          match skip_ws r3 with
                          | q :: r4 =>
                              if q =? 34
                              then JSONObject_loop scan_once room fuel' r4
                                     pairs'
                              else raise_errmsg room
                          | [] => raise_errmsg room
                          end
                        else raise_errmsg room
                    | [] => raise_errmsg room
                    end
                | ScanStop => ScanStop
                | ScanRaise e => ScanRaise e
                | OutOfFuel => OutOfFuel
                end
              else raise_errmsg room
          | [] => raise_errmsg room
          end
      end
  end.

(** [JSONObject((s, end), strict, scan_once, ...)]; [s] is the text after
    the open brace. *)
Definition JSONObject (scan_once : pystr -> scan json) (room fuel : nat)
    (s : pystr) : scan json :=
  match skip_ws s with
  | nextchar :: r =>
      if nextchar =? 125 then Scanned (JObj []) r
      else if nextchar =? 34 then JSONObject_loop scan_once room fuel r []
      else raise_errmsg room
  | [] => raise_errmsg room
  end.

(** The [while True] loop of [JSONArray]; [s] is the text at which the next
    value starts. *)
Fixpoint JSONArray_loop (scan_once : pystr -> scan json) (room fuel : nat)
    (s : pystr) (values : list json) : scan json :=
  match fuel with
  | O => OutOfFuel
  | S fuel' =>
      match scan_once s with
      | Scanned value r =>
          let values' := values ++ [value] in
          match skip_ws r with
          | nextchar :: r1 =>
              if nextchar =? 93 then Scanned (JArr values') r1
              else if nextchar =? 44
              then JSONArray_loop scan_once room fuel' (skip_ws r1) values'
              else raise_errmsg room
          | [] => raise_errmsg room
          end
      | ScanStop => ScanStop
      | ScanRaise e => ScanRaise e
      | OutOfFuel => OutOfFuel
      end
  end.

(** [JSONArray((s, end), scan_once)]; [s] is the text after the open
    bracket. *)
Definition JSONArray (scan_once : pystr -> scan json) (room fuel : nat)
    (s : pystr) : scan json :=
  match skip_ws s with
  | nextchar :: r =>
      if nextchar =? 93 then Scanned (JArr []) r
      else JSONArray_loop scan_once room fuel (skip_ws s) []
  | [] => ScanStop
  end.

(** [scan_once(string, idx)], with [room] levels left.  An array or an
    object takes one level: inside it the room is one less, and with no
    level left the interpreter raises [RecursionError] at the opening
    bracket.  Every nested call gets a text that is at least one character
    shorter, and [fuel] bounds the number of nested calls and loop
    iterations; [json_loads] passes more fuel than the text has
    characters. *)
Fixpoint scan_once (fuel : nat) (room : nat) (s : pystr) : scan json :=
  match fuel with
  | O => OutOfFuel
  | S fuel' =>
      match s with
      | [] => ScanStop
      | nextchar :: r =>
          if nextchar =? 34 then
            match scanstring r with
            | Some (str, rest) => Scanned (JStr str) rest
            | None => raise_errmsg room
            end
          else if nextchar =? 123 then
            match room with
            | O => ScanRaise RecursionError
            | S room' => JSONObject (scan_once fuel' room') room' fuel' r
            end
          else if nextchar =? 91 then
            match room with
            | O => ScanRaise RecursionError
            | S room' => JSONArray (scan_once fuel' room') room' fuel' r
            end
          else if startswith (py "null") s then Scanned JNull (skipn 4 s)
          else if startswith (py "true") s
          then Scanned (JBool true) (skipn 4 s)
          else if startswith (py "false") s
          then Scanned (JBool false) (skipn 5 s)
          else
            match match_number s with
            | Some (Ret v, rest) => Scanned v rest
            | Some (Raise e, _) => ScanRaise e
            | None =>
                if startswith (py "NaN") s
                then parse_constant room FNaN (skipn 3 s)
                else if startswith (py "Infinity") s
                then parse_constant room (FInf false) (skipn 8 s)
                else if startswith (py "-Infinity") s
                then parse_constant room (FInf true) (skipn 9 s)
                else ScanStop
            end
      end
  end.

(** A scanning function that finishes on every text shorter than [n] and
    consumes at least one character when it succeeds. *)
Definition finishes_below (n : nat) (scan_value : pystr -> scan json) : Prop :=
  forall s,
    (List.length s < n)%nat ->
    scan_value s <> OutOfFuel /\
    (forall v rest, scan_value s = Scanned v rest ->
                    (List.length rest < List.length s)%nat).

(** [raise JSONDecodeError(msg, s, pos)] in [decoder.py], in a frame that
    is [below] levels below the one of [raw_decode]. *)
Definition raise_JSONDecodeError (below : nat) : result json :=
  if (recursion_room + below <? levels_of_raise)%nat
  then Raise RecursionError
  else Raise JSONDecodeError.

(** [json.loads(s)] for a [str]: the byte order mark is refused; then
    [JSONDecoder.decode] skips white space, has [raw_decode] scan one
    value, which raises [JSONDecodeError] ("Expecting value") when the
    scanner stopped, skips white space and refuses any text left ("Extra
    data").  [loads] is two frames below [raw_decode] and [decode] is one.
    Whatever else the scan raises leaves [json.loads] as it is.  The fuel
    is more than the scan can use ([scan_once_finishes] below), so the
    last case never arises. *)
Definition json_loads (s : pystr) : result json :=
  if startswith [65279] s then raise_JSONDecodeError 2
  else
    match scan_once (S (List.length s)) recursion_room (skip_ws s) with
    | Scanned obj rest =>
        match skip_ws rest with
        | [] => Ret obj
        | _ :: _ => raise_JSONDecodeError 1
        end
    | ScanStop => raise_JSONDecodeError 0
    | ScanRaise e => Raise e
    | OutOfFuel => Raise RecursionError
    end.

(** The exceptions that the interpreter's limits make [json.loads] raise. *)
Definition limit_error (e : exn) : bool :=
  match e with
  | ValueError | RecursionError => true
  | _ => false
  end.

(* ===================================================================== *)
(** ** The Pydantic model *)
(* ===================================================================== *)

(** [class IdentityAnswer(BaseModel)] *)
Record IdentityAnswer : Type := {
  response : pystr;
  is_question : bool;
  is_correct_guess : bool
}.

(** Pydantic validates in its default (lax) mode: the model sets no
    [model_config] and the fields are plain [str] and [bool].  The rules
    below are those of Pydantic 2, which the [ollama] client whose
    responses are read as [.message.content] requires. *)

(** A [str] field takes a [str] and nothing else that [json.loads] can
    produce. *)
Definition validate_str (v : json) : option pystr :=
  match v with
  | JStr s => Some s
  | _ => None
  end.

Definition ascii_lower_char (c : N) : N :=
  if (65 <=? c) && (c <=? 90) then c + 32 else c.

(** Rust's [eq_ignore_ascii_case] against a lower-case word. *)
Definition eq_ignore_ascii_case (s : pystr) (word : string) : bool :=
  str_eqb (map ascii_lower_char s) (py word).

(** The strings a [bool] field takes. *)
Definition str_as_bool (s : pystr) : option bool :=
  if str_eqb s (py "0")
     || eq_ignore_ascii_case s "f" || eq_ignore_ascii_case s "n"
     || eq_ignore_ascii_case s "no" || eq_ignore_ascii_case s "off"
     || eq_ignore_ascii_case s "false"
  then Some false
  else if str_eqb s (py "1")
     || eq_ignore_ascii_case s "t" || eq_ignore_ascii_case s "y"
     || eq_ignore_ascii_case s "on" || eq_ignore_ascii_case s "yes"
     || eq_ignore_ascii_case s "true"
  then Some true
  else None.

(** [m * 10^e <= num / den] and [num / den <= m * 10^e], for [den > 0]. *)
Definition dec_le_frac (m : N) (e : Z) (num den : Z) : bool :=
  if (0 <=? e)%Z
  then (Z.of_N m * 10 ^ e * den <=? num)%Z
  else (Z.of_N m * den <=? num * 10 ^ (- e))%Z.

Definition frac_le_dec (num den : Z) (m : N) (e : Z) : bool :=
  if (0 <=? e)%Z
  then (num <=? Z.of_N m * 10 ^ e * den)%Z
  else (num * 10 ^ (- e) <=? Z.of_N m * den)%Z.

(** The float equals [0.0]: the decimal value rounds to zero, that is, its
    magnitude is at most [2^-1075] (half the least subnormal, the tie
    going to the even neighbour, zero). *)
Definition float_is_zero (f : pyfloat) : bool :=
  match f with
  | FDec _ m e => dec_le_frac m e 1 (2 ^ 1075)
  | _ => false
  end.

(** The float equals [1.0]: the decimal value lies between [1 - 2^-54] and
    [1 + 2^-53], the two ties included. *)
Definition float_is_one (f : pyfloat) : bool :=
  match f with
  | FDec false m e =>
      frac_le_dec (2 ^ 54 - 1) (2 ^ 54) m e
      && dec_le_frac m e (2 ^ 53 + 1) (2 ^ 53)
  | _ => false
  end.

(** A [bool] field takes a [bool], the strings of [str_as_bool], the
    integers 0 and 1 and the floats 0.0 and 1.0. *)
Definition validate_bool (v : json) : option bool :=
  match v with
  | JBool b => Some b
  | JStr s => str_as_bool s
  | JInt z =>
      if (z =? 0)%Z then Some false
      else if (z =? 1)%Z then Some true
      else None
  | JFloat f =>
      if float_is_zero f then Some false
      else if float_is_one f then Some true
      else None
  | _ => None
  end.

(** A required field: the key must be there and its value must validate. *)
Definition field {A : Type} (name : string) (validate : json -> option A)
    (kwargs : list (pystr * json)) : option A :=
  match dict_get (py name) kwargs with
  | Some v => validate v
  | None => None
  end.

(** The call of [IdentityAnswer] with [data] unpacked into keyword
    arguments: unpacking anything but a mapping is a [TypeError]; on a [dict] the three fields are required, other keys are
    ignored, and a missing or invalid field is a [ValidationError]. *)
Definition IdentityAnswer_init (data : json) : result IdentityAnswer :=
  match data with
  | JObj kwargs =>
      match field "response" validate_str kwargs,
            field "is_question" validate_bool kwargs,
            field "is_correct_guess" validate_bool kwargs with
      | Some r, Some q, Some g =>
          Ret {| response := r; is_question := q; is_correct_guess := g |}
      | _, _, _ => Raise ValidationError
      end
  | _ => Raise TypeError
  end.

(** [IdentityAnswer] called on the unpacked [json.loads(raw)]. *)
Definition decode_answer (raw : pystr) : result IdentityAnswer :=
  match json_loads raw with
  | Ret data => IdentityAnswer_init data
  | Raise e => Raise e
  end.

(** [except (json.JSONDecodeError, ValidationError)] *)
Definition caught (e : exn) : bool :=
  match e with
  | JSONDecodeError | ValidationError => true
  | _ => false
  end.

End Decoder.

(* ===================================================================== *)
(** ** The state of the script and its effects *)
(* ===================================================================== *)

(** The keyword arguments of one call of [ollama.chat]; [chat_messages] is
    the [messages] list of (role, content) pairs, [temperature] the entry
    of [options]. *)
Record request : Type := {
  model : pystr;
  chat_messages : list (pystr * pystr);
  format : option pystr;
  temperature : Q
}.

(** [st.session_state]: a key is either absent or holds a value. *)
Record session : Type := {
  identity_type : option pystr;
  custom_details : option pystr;
  identity : option pystr;
  question_count : option Z;
  game_over : option bool;
  setup_complete : option bool;
  messages : option (list (pystr * pystr));
  last_answer : option IdentityAnswer
}.

Definition empty_session : session :=
  {| identity_type := None; custom_details := None; identity := None;
     question_count := None; game_over := None; setup_complete := None;
     messages := None; last_answer := None |}.

Definition set_identity_type (v : pystr) (s : session) : session :=
  {| identity_type := Some v; custom_details := custom_details s;
     identity := identity s; question_count := question_count s;
     game_over := game_over s; setup_complete := setup_complete s;
     messages := messages s; last_answer := last_answer s |}.

Definition set_custom_details (v : pystr) (s : session) : session :=
  {| identity_type := identity_type s; custom_details := Some v;
     identity := identity s; question_count := question_count s;
     game_over := game_over s; setup_complete := setup_complete s;
     messages := messages s; last_answer := last_answer s |}.

Definition set_identity (v : pystr) (s : session) : session :=
  {| identity_type := identity_type s; custom_details := custom_details s;
     identity := Some v; question_count := question_count s;
     game_over := game_over s; setup_complete := setup_complete s;
     messages := messages s; last_answer := last_answer s |}.

Definition set_question_count (v : Z) (s : session) : session :=
  {| identity_type := identity_type s; custom_details := custom_details s;
     identity := identity s; question_count := Some v;
     game_over := game_over s; setup_complete := setup_complete s;
     messages := messages s; last_answer := last_answer s |}.

Definition set_game_over (v : bool) (s : session) : session :=
  {| identity_type := identity_type s; custom_details := custom_details s;
     identity := identity s; question_count := question_count s;
     game_over := Some v; setup_complete := setup_complete s;
     messages := messages s; last_answer := last_answer s |}.

Definition set_setup_complete (v : bool) (s : session) : session :=
  {| identity_type := identity_type s; custom_details := custom_details s;
     identity := identity s; question_count := question_count s;
     game_over := game_over s; setup_complete := Some v;
     messages := messages s; last_answer := last_answer s |}.

Definition set_messages (v : list (pystr * pystr)) (s : session) : session :=
  {| identity_type := identity_type s; custom_details := custom_details s;
     identity := identity s; question_count := question_count s;
     game_over := game_over s; setup_complete := setup_complete s;
     messages := Some v; last_answer := last_answer s |}.

Definition set_last_answer (v : IdentityAnswer) (s : session) : session :=
  {| identity_type := identity_type s; custom_details := custom_details s;
     identity := identity s; question_count := question_count s;
     game_over := game_over s; setup_complete := setup_complete s;
     messages := messages s; last_answer := Some v |}.

(** What a run of the script can change: the session state, and the calls
    made to the collaborator so far, oldest first. *)
Record world : Type := {
  session_state : session;
  chat_calls : list request
}.

(** The world after further calls to the collaborator. *)
Definition with_calls (w : world) (reqs : list request) : world :=
  {| session_state := session_state w;
     chat_calls := chat_calls w ++ reqs |}.

(** The world with another session state. *)
Definition with_session (w : world) (s : session) : world :=
  {| session_state := s; chat_calls := chat_calls w |}.

(** A computation of the script: it returns or raises, and leaves a world
    behind either way (an exception does not undo what was written). *)
Definition M (A : Type) : Type := world -> result A * world.

Definition ret {A : Type} (a : A) : M A := fun w => (Ret a, w).

Definition raise {A : Type} (e : exn) : M A := fun w => (Raise e, w).

Definition bind {A B : Type} (m : M A) (k : A -> M B) : M B :=
  fun w =>
    match m w with
    | (Ret a, w') => k a w'
    | (Raise e, w') => (Raise e, w')
    end.

Declare Scope script_scope.
Delimit Scope script_scope with script.
Notation "x <- c ;; k" := (bind c (fun x => k))
  (at level 61, c at next level, right associativity) : script_scope.
Notation "c ;; k" := (bind c (fun _ => k))
  (at level 61, right associativity) : script_scope.
Local Open Scope script_scope.

(** [st.session_state.key] read as an attribute: [AttributeError] when the
    key is absent. *)
Definition attr {A : Type} (key : session -> option A) : M A :=
  fun w =>
    match key (session_state w) with
    | Some v => (Ret v, w)
    | None => (Raise AttributeError, w)
    end.

(** [st.session_state.get(key, default)] *)
Definition session_get {A : Type} (key : session -> option A) (default : A)
  : M A :=
  fun w =>
    match key (session_state w) with
    | Some v => (Ret v, w)
    | None => (Ret default, w)
    end.

(** [key in st.session_state] *)
Definition session_has {A : Type} (key : session -> option A) : M bool :=
  fun w =>
    match key (session_state w) with
    | Some _ => (Ret true, w)
    | None => (Ret false, w)
    end.

(** [st.session_state.key = v] *)
Definition assign (update : session -> session) : M unit :=
  fun w =>
    (Ret tt, {| session_state := update (session_state w);
                chat_calls := chat_calls w |}).

(** [st.session_state.messages.append(entry)] *)
Definition messages_append (entry : pystr * pystr) : M unit :=
  ms <- attr messages ;;
  assign (set_messages (ms ++ [entry])).

Definition st_stop {A : Type} : M A := raise StopException.

Definition st_rerun {A : Type} : M A := raise RerunException.

(** [if c: body] for a body that may raise. *)
Definition when (c : bool) (body : M unit) : M unit :=
  if c then body else ret tt.

(* ===================================================================== *)
(** ** app.py *)
(* ===================================================================== *)

(** The script runs in one interpreter, whatever its limits. *)
Section Interpreter.

Context {limits : interpreter}.

Definition MODEL_NAME : pystr := py "llama3.1:8b".

(** The five entries of [identity_types]. *)
Definition identity_types : list pystr :=
  [ py "Random Character"; py "Historical Figure"; py "Fictional Character";
    py "Profession/Role"; py "Custom" ].

(** The [prompt] that [generate_identity] builds from the category, [None]
    for the [else] branch. *)
Definition identity_prompt (identity_type custom_details : pystr)
  : option pystr :=
  if str_eqb identity_type (py "Random Character") then
    Some (join_lines
      [ py "Generate a random identity for a guessing game. Include historical figures, fictional characters, ";
        py "celebrities, professionals, etc. The player will try to guess who this is through yes/no questions." ])
  else if str_eqb identity_type (py "Historical Figure") then
    Some (join_lines
      [ py "Generate a historical figure identity for a guessing game. Choose someone significant from ";
        py "any time period in history. The player will try to guess who this is through yes/no questions." ])
  else if str_eqb identity_type (py "Fictional Character") then
    Some (join_lines
      [ py "Generate a fictional character identity for a guessing game. This could be from literature, ";
        py "movies, TV shows, comics, etc. The player will try to guess who this is through yes/no questions." ])
  else if str_eqb identity_type (py "Profession/Role") then
    Some (join_lines
      [ py "Generate an identity based on a profession or role for a guessing game. ";
        py "This could be any occupation (doctor, astronaut, teacher, etc.) or role (parent, leader, student, etc.) ";
        py "The player will try to guess what this profession/role is through yes/no questions." ])
  else if str_eqb identity_type (py "Custom") then
    Some (py "Generate an identity for a guessing game based on these details: "
          ++ custom_details
          ++ join_lines
               [ py "";
                 py "The player will try to guess who/what this is through yes/no questions." ])
  else None.

(** The [system_prompt] of [generate_identity]. *)
Definition generator_system_prompt : pystr :=
  join_lines
    [ py "";
      py "You are an identity generator for a yes/no guessing game. Create a compelling identity that players can guess through yes/no questions.";
      py "";
      py "Your task is to:";
      py "- Create a specific identity (person, character, profession, or concept)";
      py "";
      py "**Your output must be just the name of the identity, no other text.**";
      py "    " ].

(** [SYSTEM_PROMPT.format(identity=identity)] *)
Definition SYSTEM_PROMPT (identity : pystr) : pystr :=
  join_lines [ py ""; py "You are identity: " ]
  ++ identity
  ++ join_lines
    [ py ".";
      py "";
      py "You are playing a guessing game with the user. They are trying to figure out who or what you are.";
      py "";
      py "Rules for you (the AI):";
      pyq "- For questions that gives clues about your identity, only respond with `yes` or `no`.";
      py "- If the question is ambiguous or unanswerable, ask the user to clarify to help you answer.";
      py "- If the user asks if you are " ]
  ++ identity
  ++ join_lines
    [ pyq ", congratulate them, set `is_correct_guess`: true and end the game.";
      py "- Keep answers short.";
      pyq "- If the user does not give a direct guess or asks a question that is not a yes/no question, encourage the user to ask a yes/no question and set `is_question`: false.";
      py "- Drive the conversation towards the game, do not talk about anything else.";
      py "";
      py "# Output format:";
      py "Respond **EXCLUSIVELY** with a single JSON object and *nothing* else. The JSON must match exactly:";
      py "{";
      pyq "  `response`: `string`,           # Your reply to the user";
      pyq "  `is_question`: true|false,      # True if the question is a part of the game (yes/no or identity guess). Else false.";
      pyq "  `is_correct_guess`: true|false  # True if the user correctly guessed your identity. Else false.";
      py "}";
      py "";
      py "NO markdown fences, headings, pre-ambles, or extra text before/after the JSON.";
      py "" ].

(** The request of [generate_identity]: [format=None], temperature 0.7. *)
Definition generate_request (prompt : pystr) : request :=
  {| model := MODEL_NAME;
     chat_messages := [ (py "system", generator_system_prompt);
                        (py "user", prompt) ];
     format := None;
     temperature := (7 # 10)%Q |}.

(** The request of [ask_identity_ai]: [format="json"]. *)
Definition ask_request (user_input identity : pystr) (temp : Q) : request :=
  {| model := MODEL_NAME;
     chat_messages := [ (py "system", SYSTEM_PROMPT identity);
                        (py "user", user_input) ];
     format := Some (py "json");
     temperature := temp |}.

(** The body of the loop of [ask_identity_ai] after the call, on the
    stripped text: the fast path, then the fallback on the first
    brace-delimited substring.  [Ret (Some a)] is [return a]; [Ret None]
    reaches the end of the body, so the loop goes on; [Raise e] is an
    exception that neither [except] clause catches. *)
Definition extract_answer (raw : pystr) : result (option IdentityAnswer) :=
  match decode_answer raw with
  | Ret a => Ret (Some a)
  | Raise e =>
      if caught e then
        match JSON_RE_search raw with
        | Some m =>
            match decode_answer m with
            | Ret a => Ret (Some a)
            | Raise e' => if caught e' then Ret None else Raise e'
            end
        | None => Ret None
        end
      else Raise e
  end.

(** The first message shown by [reset_game]. *)
Definition welcome_message : pystr :=
  py "Guess the secret identity using yes/no questions.  "
  ++ join_lines [ py ""; py "Try to guess in as few questions as possible!" ].

(** [err] of [main], code point by code point as the literal stands in the
    file. *)
Definition invalid_json_message : pystr :=
  [226; 353; 160; 239; 184] ++ py " AI returned invalid JSON. Try again.".

(** [end_message] of [main]. *)
Definition end_message (identity : pystr) (count : Z) : pystr :=
  [287; 376; 8240] ++ py " Correct! The identity was **" ++ identity
  ++ py "**. You solved it in **" ++ str_of_int count
  ++ py "** questions! " ++ [287; 376; 8240].

(** [give_up_message] of [main]. *)
Definition give_up_message (identity : pystr) : pystr :=
  py "You gave up. The identity was **" ++ identity ++ py "**.".

(** What the widgets return in one run of the script. *)
Record ui : Type := {
  selectbox_identity_type : pystr;
  text_area_custom_details : pystr;
  button_start_game : bool;
  button_give_up : bool;
  button_restart : bool;
  button_new_game_setup : bool;
  chat_input : option pystr
}.

Section App.

(** [str.lower]. *)
Variable str_lower : pystr -> pystr.

(** The collaborator: [collaborator n req] is the text
    [.message.content] of the answer to the call [chat(req)] made after
    [n] earlier calls.  Every call is taken to return such a text; a call
    that fails in transport is outside the model. *)
Variable collaborator : nat -> request -> pystr.

Definition chat (req : request) : M pystr :=
  fun w =>
    (Ret (collaborator (List.length (chat_calls w)) req),
     {| session_state := session_state w;
        chat_calls := chat_calls w ++ [req] |}).

(** [for _ in range(n): raw = chat(...).message.content.strip()];
    [raw] is [None] while the variable is unbound. *)
Fixpoint generate_loop (n : nat) (prompt : pystr) (raw : option pystr)
  : M (option pystr) :=
  match n with
  | O => ret raw
  | S n' =>
      content <- chat (generate_request prompt) ;;
      generate_loop n' prompt (Some (str_strip content))
  end.

(** [generate_identity(identity_type, custom_details)] *)
Definition generate_identity (identity_type custom_details : pystr)
  : M (option pystr) :=
  match identity_prompt identity_type custom_details with
  | None => ret None
  | Some prompt =>
      let max_retries := 3%Z in
      raw <- generate_loop (Z.to_nat max_retries) prompt None ;;
      match raw with
      | Some text => ret (Some text)
      | None => raise UnboundLocalError
      end
  end.

(** The [for] loop of [ask_identity_ai] with [n] iterations left. *)
Fixpoint ask_loop (n : nat) (req : request) : M (option IdentityAnswer) :=
  match n with
  | O => ret None
  | S n' =>
      content <- chat req ;;
      match extract_answer (str_strip content) with
      | Ret (Some a) => ret (Some a)
      | Ret None => ask_loop n' req
      | Raise e => raise e
      end
  end.

(** What the iteration number [i] (from 0) of a loop started in world
    [w] makes of the text it receives. *)
Definition attempt (w : world) (req : request) (i : nat)
  : result (option IdentityAnswer) :=
  extract_answer
    (str_strip (collaborator (List.length (chat_calls w) + i) req)).

(** [ask_identity_ai(user_input, identity, max_retries, temperature)] *)
Definition ask_identity_ai (user_input identity : pystr)
    (max_retries : Z) (temp : Q) : M (option IdentityAnswer) :=
  ask_loop (Z.to_nat max_retries) (ask_request user_input identity temp).

(** The defaults of [ask_identity_ai]. *)
Definition default_max_retries : Z := 3.
Definition default_temperature : Q := (2 # 10)%Q.

(** [reset_game()] *)
Definition reset_game : M unit :=
  identity_type <- session_get identity_type (py "Random Character") ;;
  custom_details <- session_get custom_details [] ;;
  new_identity <- generate_identity identity_type custom_details ;;
  match new_identity with
  | Some (c :: text) => assign (set_identity (c :: text))
  | Some [] | None => assign (set_identity (py "Albert Einstein"))
  end ;;
  assign (set_question_count 0) ;;
  assign (set_game_over false) ;;
  assign (set_setup_complete true) ;;
  assign (set_messages [ (py "System", welcome_message) ]).

(** [setup_game(identity_type, custom_details)] *)
Definition setup_game (identity_type custom_details : pystr) : M unit :=
  assign (set_identity_type identity_type) ;;
  assign (set_custom_details custom_details).

(** [init_state()] *)
Definition init_state : M unit :=
  has_setup <- session_has setup_complete ;;
  when (negb has_setup) (assign (set_setup_complete false)) ;;
  has_messages <- session_has messages ;;
  complete <- session_get setup_complete false ;;
  when (negb has_messages && complete) reset_game.

(** The two overrides that [main] applies to the answer of
    [ask_identity_ai], in the order of the script. *)
Definition override_yes_no (answer : option IdentityAnswer)
  : option IdentityAnswer :=
  match answer with
  | Some a =>
      if str_in_list (str_lower (response a)) [ py "yes"; py "no" ]
      then Some {| response := response a;
                   is_question := true;
                   is_correct_guess := is_correct_guess a |}
      else Some a
  | None => None
  end.

Definition override_identity (identity prompt : pystr)
    (answer : option IdentityAnswer) : option IdentityAnswer :=
  match answer with
  | Some a =>
      if str_in (str_lower identity) (str_lower prompt)
      then Some {| response := py "Yes!";
                   is_question := false;
                   is_correct_guess := true |}
      else Some a
  | None => None
  end.

Definition apply_overrides (identity prompt : pystr)
    (answer : option IdentityAnswer) : option IdentityAnswer :=
  override_identity identity prompt (override_yes_no answer).

(** The part of [main] that handles a non-empty [prompt]: from the
    comment "Echo user message" to the end of the function. *)
Definition play_turn (prompt : pystr) : M unit :=
  messages_append (py "You", prompt) ;;
  identity_now <- attr identity ;;
  answer <- ask_identity_ai prompt identity_now
              default_max_retries default_temperature ;;
  match apply_overrides identity_now prompt answer with
  | None =>
      messages_append (py "System", invalid_json_message) ;;
      st_stop
  | Some a =>
      messages_append (py "AI", response a) ;;
      when (is_correct_guess a)
        (count <- attr question_count ;;
         assign (set_question_count (count + 1)) ;;
         who <- attr identity ;;
         count' <- attr question_count ;;
         messages_append (py "System", end_message who count') ;;
         assign (set_game_over true)) ;;
      over <- attr game_over ;;
      when over st_rerun ;;
      when (is_question a)
        (count <- attr question_count ;;
         assign (set_question_count (count + 1)) ;;
         assign (set_last_answer a) ;;
         st_rerun)
  end.

(** [main()]; the calls that only draw on the page are left out. *)
Definition main (widgets : ui) : M unit :=
  init_state ;;
  complete <- session_get setup_complete false ;;
  when (negb complete)
    (let identity_type := selectbox_identity_type widgets in
     let custom_details :=
       if str_eqb identity_type (py "Custom")
       then text_area_custom_details widgets else [] in
     when (button_start_game widgets)
       (setup_game identity_type custom_details ;;
        reset_game ;;
        st_rerun) ;;
     st_stop) ;;
  _ <- attr question_count ;;
  when (button_give_up widgets)
    (who <- attr identity ;;
     messages_append (py "System", give_up_message who) ;;
     assign (set_game_over true) ;;
     st_rerun) ;;
  _ <- attr messages ;;
  over <- attr game_over ;;
  when over
    (_ <- attr question_count ;;
     when (button_restart widgets) (reset_game ;; st_rerun) ;;
     when (button_new_game_setup widgets)
       (assign (set_setup_complete false) ;; st_rerun)) ;;
  match chat_input widgets with
  | None | Some [] => st_stop
  | Some (c :: text) => play_turn (c :: text)
  end.

End App.

(* ===================================================================== *)
(** ** Collaborators and sessions to run the script on *)
(* ===================================================================== *)

(** A collaborator that answers the [n]-th call with the [n]-th text of a
    list, whatever the request, and with the empty text afterwards. *)
Definition replay (texts : list pystr) : nat -> request -> pystr :=
  fun n _ => nth n texts [].

(** A collaborator that always gives the same text. *)
Definition always (text : pystr) : nat -> request -> pystr :=
  fun _ _ => text.

(** A game under way: identity Albert Einstein, two questions asked, the
    given transcript. *)
Definition playing (over : bool) (transcript : list (pystr * pystr))
  : session :=
  {| identity_type := Some (py "Historical Figure");
     custom_details := Some [];
     identity := Some (py "Albert Einstein");
     question_count := Some 2%Z;
     game_over := Some over;
     setup_complete := Some true;
     messages := Some transcript;
     last_answer := None |}.

Definition world_of (s : session) : world :=
  {| session_state := s; chat_calls := [] |}.

(** The texts of the examples. *)
Definition answer_yes_text : pystr :=
  pyq "{`response`:`yes`,`is_question`:true,`is_correct_guess`:false}".

Definition answer_no_text : pystr :=
  pyq "{`response`:`no`,`is_question`:false,`is_correct_guess`:false}".

Definition wrapped_answer_text : pystr :=
  py "Sure! " ++ answer_yes_text ++ py " Hope that helps.".

Definition refusal_text : pystr := py "I cannot answer that.".

Definition quoted_refusal_text : pystr := pyq "`I cannot answer that.`".

Definition coerced_answer_text : pystr :=
  pyq "{`response`:`x`,`is_question`:1,`is_correct_guess`:`no`}".

Definition congratulation_text : pystr :=
  pyq "{`response`:`Yes, you got it!`,`is_question`:true,`is_correct_guess`:true}".

(** The answer inside a JSON array. *)
Definition listed_answer_text : pystr :=
  pyq "[{`response`:`yes`,`is_question`:true,`is_correct_guess`:false}]".

(** An integer literal of [n] digits, all of them 1. *)
Definition ones (n : nat) : pystr := repeat 49 n.

(** [n] open brackets, then [n] closing brackets: arrays nested [n]
    deep. *)
Definition nested_arrays (n : nat) : pystr := repeat 91 n ++ repeat 93 n.

(** An object whose only value is an integer of 4301 digits, and the same
    object after some words. *)
Definition long_integer_text : pystr :=
  pyq "{`response`:" ++ ones 4301 ++ py "}".

Definition wrapped_long_integer_text : pystr :=
  py "Sure! " ++ long_integer_text.

(* ===================================================================== *)
(** ** Runs of the script, and what they keep *)
(* ===================================================================== *)

(** Widgets that return nothing: no button pressed, no text typed. *)
Definition idle_widgets (selected details : pystr) : ui :=
  {| selectbox_identity_type := selected;
     text_area_custom_details := details;
     button_start_game := false;
     button_give_up := false;
     button_restart := false;
     button_new_game_setup := false;
     chat_input := None |}.

(** The entries of a transcript that the player sent. *)
Definition player_entries (transcript : list (pystr * pystr)) : nat :=
  List.length (filter (fun entry => str_eqb (fst entry) (py "You")) transcript).

(** The session of a game that has been set up at least once: the four
    keys that [main] reads as attributes are there, the identity is not
    empty, the transcript starts with the welcome message, and the
    counter lies between 0 and the number of player entries. *)
Definition game_started (s : session) : Prop :=
  exists who count over rest,
    identity s = Some who /\ who <> [] /\
    question_count s = Some count /\
    (0 <= count <= Z.of_nat (player_entries rest))%Z /\
    game_over s = Some over /\
    messages s = Some ((py "System", welcome_message) :: rest).

(** What every run of the script keeps: either no game was ever set up
    (no transcript), or the session is that of a started game. *)
Definition script_invariant (s : session) : Prop :=
  messages s = None \/ game_started s.

(** The ways a run of the script ends once a game was set up or is being
    set up: it returns, it is stopped or restarted by Streamlit, or one of
    the exceptions that [ask_identity_ai] does not catch gets through
    ([TypeError], [ValueError], [RecursionError]).  A run that ends in
    this way missed no key of the session state. *)
Definition run_ends_well (r : result unit) : Prop :=
  r = Ret tt \/ r = Raise StopException \/ r = Raise RerunException
  \/ r = Raise TypeError \/ r = Raise ValueError
  \/ r = Raise RecursionError.

(** No white space at either end of a text. *)
Definition stripped (s : pystr) : Prop :=
  match s with
  | [] => True
  | c :: _ => isspace c = false /\ isspace (last s c) = false
  end.

Section Script.

Variable str_lower : pystr -> pystr.
Variable collaborator : nat -> request -> pystr.

(** The script run once for each element of a list of widget values, each
    run starting in the world the run before it left. *)
Fixpoint run_script (inputs : list ui) (w : world) : world :=
  match inputs with
  | [] => w
  | widgets :: later =>
      run_script later (snd (main str_lower collaborator widgets w))
  end.

End Script.

(* ===================================================================== *)
(** * Properties *)
(* ===================================================================== *)

(* ===================================================================== *)
(** ** Tactics *)
(* ===================================================================== *)

(** Case analysis on the scrutinee of a [match] or [if] of a hypothesis. *)
Ltac break_hyp H :=
  match type of H with
  | context [match ?x with _ => _ end] => destruct x eqn:?
  end.

(* ===================================================================== *)
(** ** Strings *)
(* ===================================================================== *)

Lemma str_eqb_refl (a : pystr) : str_eqb a a = true.
Proof.
  induction a as [|x a IH]; simpl; [reflexivity|].
  now rewrite N.eqb_refl, IH.
Qed.

Lemma str_eqb_eq (a b : pystr) : str_eqb a b = true <-> a = b.
Proof.
  split.
  - revert b; induction a as [|x a IH]; intros [|y b] H; simpl in H;
      try discriminate; [reflexivity|].
    apply andb_true_iff in H as [Hxy Hab].
    apply N.eqb_eq in Hxy. apply IH in Hab. congruence.
  - intros ->. apply str_eqb_refl.
Qed.

Lemma str_eqb_neq (a b : pystr) : a <> b -> str_eqb a b = false.
Proof.
  intros H. destruct (str_eqb a b) eqn:E; [|reflexivity].
  apply str_eqb_eq in E. contradiction.
Qed.

(* ===================================================================== *)
(** ** The decoder: its fuel is enough, and what it raises *)
(* ===================================================================== *)

Lemma skip_ws_length (s : pystr) :
  (List.length (skip_ws s) <= List.length s)%nat.
Proof.
  induction s as [|c r IH]; simpl; [lia|].
  destruct (json_ws c); simpl; lia.
Qed.

Lemma scan_cons_Some c r str rest :
  scan_cons c r = Some (str, rest) ->
  exists str', r = Some (str', rest).
Proof.
  unfold scan_cons. destruct r as [[s' r']|]; [|discriminate].
  intros H. injection H as _ <-. now exists s'.
Qed.

Lemma scanstring_length :
  forall n s str rest,
    (List.length s <= n)%nat ->
    scanstring s = Some (str, rest) ->
    (List.length rest < List.length s)%nat.
Proof.
  induction n as [|n IH]; intros s str rest Hn H.
  - destruct s; [discriminate | simpl in Hn; lia].
  - destruct s as [|c r]; [discriminate|].
    simpl in Hn. cbn [scanstring] in H.
    repeat (break_hyp H; try discriminate);
      try (injection H as _ <-; simpl; lia);
      apply scan_cons_Some in H as [str' H];
      apply IH in H; subst; simpl in *; lia.
Qed.

Lemma span_digits_length (s : pystr) :
  (List.length (snd (span_digits s)) <= List.length s)%nat.
Proof.
  induction s as [|c r IH]; simpl; [lia|].
  destruct (is_digit c); [|simpl; lia].
  destruct (span_digits r); simpl in *; lia.
Qed.

Lemma match_integer_length s neg ds rest :
  match_integer s = Some (neg, ds, rest) ->
  (List.length rest < List.length s)%nat.
Proof.
  unfold match_integer. intros H.
  destruct s as [|c r]; [discriminate|].
  destruct (c =? 45).
  - destruct r as [|d r']; [discriminate|].
    destruct (d =? 48); [injection H as _ _ <-; simpl; lia|].
    destruct (is_digit d) eqn:Hd; [|discriminate].
    pose proof (span_digits_length (d :: r')) as L.
    destruct (span_digits (d :: r')) as [ds' rest'] eqn:E.
    injection H as _ _ <-.
    simpl in E. rewrite Hd in E. destruct (span_digits r') eqn:E'.
    injection E as _ <-. pose proof (span_digits_length r') as L'.
    rewrite E' in L'. simpl in *. lia.
  - destruct (c =? 48); [injection H as _ _ <-; simpl; lia|].
    destruct (is_digit c) eqn:Hd; [|discriminate].
    destruct (span_digits (c :: r)) as [ds' rest'] eqn:E.
    injection H as _ _ <-.
    simpl in E. rewrite Hd in E. destruct (span_digits r) eqn:E'.
    injection E as _ <-. pose proof (span_digits_length r) as L'.
    rewrite E' in L'. simpl in *. lia.
Qed.

Lemma match_frac_length (s : pystr) :
  (List.length (snd (match_frac s)) <= List.length s)%nat.
Proof.
  unfold match_frac. destruct s as [|dot [|d r]]; simpl; try lia.
  destruct ((dot =? 46) && is_digit d); [|simpl; lia].
  pose proof (span_digits_length (d :: r)). simpl in *. lia.
Qed.

Lemma match_exp_length (s : pystr) :
  (List.length (snd (match_exp s)) <= List.length s)%nat.
Proof.
  unfold match_exp. destruct s as [|e r]; simpl; [lia|].
  destruct ((e =? 101) || (e =? 69)); [|simpl; lia].
  destruct r as [|sg r'].
  - simpl. lia.
  - destruct (sg =? 45); [|destruct (sg =? 43)].
    + pose proof (span_digits_length r').
      destruct (span_digits r') as [[|d ds] rest]; simpl in *; lia.
    + pose proof (span_digits_length r').
      destruct (span_digits r') as [[|d ds] rest]; simpl in *; lia.
    + pose proof (span_digits_length (sg :: r')).
      destruct (span_digits (sg :: r')) as [[|d ds] rest]; simpl in *; lia.
Qed.

Lemma match_number_length s v rest :
  match_number s = Some (v, rest) ->
  (List.length rest < List.length s)%nat.
Proof.
  unfold match_number. intros H.
  destruct (match_integer s) as [[[neg ids] r1]|] eqn:E1; [|discriminate].
  apply match_integer_length in E1.
  pose proof (match_frac_length r1) as L2.
  destruct (match_frac r1) as [fds r2].
  pose proof (match_exp_length r2) as L3.
  destruct (match_exp r2) as [ex r3]. simpl in *.
  destruct fds, ex; injection H as _ <-; lia.
Qed.

Lemma raise_errmsg_cases room :
  raise_errmsg room = ScanRaise RecursionError
  \/ raise_errmsg room = ScanRaise JSONDecodeError.
Proof. unfold raise_errmsg. destruct (_ <? _)%nat; auto. Qed.

Lemma parse_constant_cases room f rest :
  parse_constant room f rest = ScanRaise RecursionError
  \/ parse_constant room f rest = Scanned (JFloat f) rest.
Proof. unfold parse_constant. destruct (_ <? _)%nat; auto. Qed.

(** A scan that has stopped or raised is finished and gives no value. *)
Ltac stopped :=
  split; [discriminate | intros ? ? ?; discriminate].

Ltac raised room :=
  destruct (raise_errmsg_cases room) as [-> | ->]; stopped.

Lemma JSONObject_loop_finishes n scan_value room :
  finishes_below n scan_value ->
  forall fuel s pairs,
    (List.length s < fuel)%nat -> (List.length s < n)%nat ->
    JSONObject_loop scan_value room fuel s pairs <> OutOfFuel /\
    (forall v rest,
        JSONObject_loop scan_value room fuel s pairs = Scanned v rest ->
        (List.length rest < List.length s)%nat).
Proof.
  intros Hscan. induction fuel as [|fuel IH]; intros s pairs Hf Hn; [lia|].
  cbn [JSONObject_loop].
  destruct (scanstring s) as [[key r]|] eqn:Ekey; [|raised room].
  apply (scanstring_length (List.length s)) in Ekey; [|lia].
  pose proof (skip_ws_length r) as Lr.
  destruct (skip_ws r) as [|colon r1]; [raised room|].
  destruct (colon =? 58); [|raised room].
  pose proof (skip_ws_length r1) as Lr1. simpl in Lr.
  destruct (Hscan (skip_ws r1)) as [Hnf Hlen]; [lia|].
  destruct (scan_value (skip_ws r1)) as [value r2| |e|];
    [| stopped | stopped | contradiction].
  specialize (Hlen _ _ eq_refl).
  pose proof (skip_ws_length r2) as Lr2.
  destruct (skip_ws r2) as [|nextchar r3]; [raised room|].
  simpl in Lr2.
  destruct (nextchar =? 125).
  { split; [discriminate|]. intros v rest H. injection H as _ <-. lia. }
  destruct (nextchar =? 44); [|raised room].
  pose proof (skip_ws_length r3) as Lr3.
  destruct (skip_ws r3) as [|q r4]; [raised room|].
  simpl in Lr3.
  destruct (q =? 34); [|raised room].
  destruct (IH r4 (pairs ++ [(key, value)])) as [Hnf' Hlen']; [lia | lia |].
  split; [exact Hnf'|].
  intros v rest H. apply Hlen' in H. lia.
Qed.

Lemma JSONObject_finishes n scan_value room :
  finishes_below n scan_value ->
  forall fuel s,
    (List.length s < fuel)%nat -> (List.length s < n)%nat ->
    JSONObject scan_value room fuel s <> OutOfFuel /\
    (forall v rest, JSONObject scan_value room fuel s = Scanned v rest ->
                    (List.length rest <= List.length s)%nat).
Proof.
  intros Hscan fuel s Hf Hn. unfold JSONObject.
  pose proof (skip_ws_length s) as L.
  destruct (skip_ws s) as [|nextchar r]; [raised room|].
  simpl in L.
  destruct (nextchar =? 125).
  { split; [discriminate|]. intros v rest H. injection H as _ <-. lia. }
  destruct (nextchar =? 34); [|raised room].
  destruct (JSONObject_loop_finishes n scan_value room Hscan fuel r [])
    as [Hnf Hlen]; [lia | lia |].
  split; [exact Hnf|]. intros v rest H. apply Hlen in H. lia.
Qed.

Lemma JSONArray_loop_finishes n scan_value room :
  finishes_below n scan_value ->
  forall fuel s values,
    (List.length s < fuel)%nat -> (List.length s < n)%nat ->
    JSONArray_loop scan_value room fuel s values <> OutOfFuel /\
    (forall v rest,
        JSONArray_loop scan_value room fuel s values = Scanned v rest ->
        (List.length rest < List.length s)%nat).
Proof.
  intros Hscan. induction fuel as [|fuel IH]; intros s values Hf Hn; [lia|].
  cbn [JSONArray_loop].
  destruct (Hscan s) as [Hnf Hlen]; [lia|].
  destruct (scan_value s) as [value r| |e|];
    [| stopped | stopped | contradiction].
  specialize (Hlen _ _ eq_refl).
  pose proof (skip_ws_length r) as Lr.
  destruct (skip_ws r) as [|nextchar r1]; [raised room|].
  simpl in Lr.
  destruct (nextchar =? 93).
  { split; [discriminate|]. intros v rest H. injection H as _ <-. lia. }
  destruct (nextchar =? 44); [|raised room].
  pose proof (skip_ws_length r1) as Lr1.
  destruct (IH (skip_ws r1) (values ++ [value])) as [Hnf' Hlen'];
    [lia | lia |].
  split; [exact Hnf'|].
  intros v rest H. apply Hlen' in H. lia.
Qed.

Lemma JSONArray_finishes n scan_value room :
  finishes_below n scan_value ->
  forall fuel s,
    (List.length s < fuel)%nat -> (List.length s < n)%nat ->
    JSONArray scan_value room fuel s <> OutOfFuel /\
    (forall v rest, JSONArray scan_value room fuel s = Scanned v rest ->
                    (List.length rest <= List.length s)%nat).
Proof.
  intros Hscan fuel s Hf Hn. unfold JSONArray.
  pose proof (skip_ws_length s) as L.
  destruct (skip_ws s) as [|nextchar r] eqn:E; [stopped|].
  simpl in L.
  destruct (nextchar =? 93).
  { split; [discriminate|]. intros v rest H. injection H as _ <-. lia. }
  destruct (JSONArray_loop_finishes n scan_value room Hscan fuel
              (nextchar :: r) [])
    as [Hnf Hlen]; [simpl; lia | simpl; lia |].
  split; [exact Hnf|]. intros v rest H. apply Hlen in H. simpl in H. lia.
Qed.

Lemma skipn_length_lt {A : Type} (k : nat) (s : list A) :
  (0 < k)%nat -> s <> [] -> (List.length (skipn k s) < List.length s)%nat.
Proof.
  intros Hk Hs. rewrite length_skipn.
  destruct s; [contradiction | cbn [List.length]; lia].
Qed.

Ltac finish_skip k :=
  split; [discriminate|];
  let v := fresh "v" in
  let rest := fresh "rest" in
  let H := fresh "H" in
  intros v rest H;
  match goal with
  | Hs : forall n : nat, _ |- (_ < List.length ?t)%nat =>
      replace rest with (skipn k t) by congruence; apply Hs; lia
  end.

Ltac finish_constant room k :=
  match goal with
  | |- context [parse_constant room ?f ?rest] =>
      destruct (parse_constant_cases room f rest) as [-> | ->];
      [stopped | finish_skip k]
  end.

Lemma scan_once_finishes (fuel room : nat) :
  finishes_below fuel (scan_once fuel room).
Proof.
  revert room.
  induction fuel as [|fuel IH]; intros room s Hlen; [lia|].
  cbn [scan_once].
  destruct s as [|nextchar r]; [stopped|].
  simpl in Hlen.
  destruct (nextchar =? 34).
  { destruct (scanstring r) as [[str rest]|] eqn:E; [|raised room].
    apply (scanstring_length (List.length r)) in E; [|lia].
    split; [discriminate|]. intros v rest' H. injection H as _ <-.
    simpl. lia. }
  destruct (nextchar =? 123).
  { destruct room as [|room]; [stopped|].
    destruct (JSONObject_finishes fuel (scan_once fuel room) room (IH room)
                fuel r)
      as [Hnf Hl]; [lia | lia |].
    split; [exact Hnf|]. intros v rest H. apply Hl in H. simpl. lia. }
  destruct (nextchar =? 91).
  { destruct room as [|room]; [stopped|].
    destruct (JSONArray_finishes fuel (scan_once fuel room) room (IH room)
                fuel r)
      as [Hnf Hl]; [lia | lia |].
    split; [exact Hnf|]. intros v rest H. apply Hl in H. simpl. lia. }
  assert (Hskip : forall k, (0 < k)%nat ->
            (List.length (skipn k (nextchar :: r))
             < List.length (nextchar :: r))%nat)
    by (intros k Hk; apply skipn_length_lt; [exact Hk | discriminate]).
  destruct (startswith (py "null") (nextchar :: r)); [finish_skip 4%nat|].
  destruct (startswith (py "true") (nextchar :: r)); [finish_skip 4%nat|].
  destruct (startswith (py "false") (nextchar :: r)); [finish_skip 5%nat|].
  destruct (match_number (nextchar :: r)) as [[[v|e] rest]|] eqn:E.
  { apply match_number_length in E.
    split; [discriminate|]. intros v' rest' H. injection H as _ <-.
    exact E. }
  { stopped. }
  destruct (startswith (py "NaN") (nextchar :: r));
    [finish_constant room 3%nat|].
  destruct (startswith (py "Infinity") (nextchar :: r));
    [finish_constant room 8%nat|].
  destruct (startswith (py "-Infinity") (nextchar :: r));
    [finish_constant room 9%nat|].
  stopped.
Qed.

(** The exceptions of the decoder. *)
Lemma raise_errmsg_raises room e :
  raise_errmsg room = ScanRaise e ->
  e = JSONDecodeError \/ limit_error e = true.
Proof.
  destruct (raise_errmsg_cases room) as [-> | ->]; intros H;
    injection H as <-; auto.
Qed.

Lemma parse_constant_raises room f rest e :
  parse_constant room f rest = ScanRaise e ->
  e = JSONDecodeError \/ limit_error e = true.
Proof.
  destruct (parse_constant_cases room f rest) as [-> | ->]; intros H;
    [injection H as <-; auto | discriminate].
Qed.

Lemma JSONObject_loop_raises scan_value room :
  (forall s e, scan_value s = ScanRaise e ->
               e = JSONDecodeError \/ limit_error e = true) ->
  forall fuel s pairs e,
    JSONObject_loop scan_value room fuel s pairs = ScanRaise e ->
    e = JSONDecodeError \/ limit_error e = true.
Proof.
  intros Hscan. induction fuel as [|fuel IH]; intros s pairs e H;
    [discriminate|].
  cbn [JSONObject_loop] in H.
  destruct (scanstring s) as [[key r]|];
    [|eapply raise_errmsg_raises; exact H].
  destruct (skip_ws r) as [|colon r1];
    [eapply raise_errmsg_raises; exact H|].
  destruct (colon =? 58); [|eapply raise_errmsg_raises; exact H].
  destruct (scan_value (skip_ws r1)) as [value r2| |e'|] eqn:E;
    try discriminate.
  - destruct (skip_ws r2) as [|nextchar r3];
      [eapply raise_errmsg_raises; exact H|].
    destruct (nextchar =? 125); [discriminate|].
    destruct (nextchar =? 44); [|eapply raise_errmsg_raises; exact H].
    destruct (skip_ws r3) as [|q r4];
      [eapply raise_errmsg_raises; exact H|].
    destruct (q =? 34); [|eapply raise_errmsg_raises; exact H].
    eapply IH; exact H.
  - injection H as <-. eapply Hscan; exact E.
Qed.

Lemma JSONArray_loop_raises scan_value room :
  (forall s e, scan_value s = ScanRaise e ->
               e = JSONDecodeError \/ limit_error e = true) ->
  forall fuel s values e,
    JSONArray_loop scan_value room fuel s values = ScanRaise e ->
    e = JSONDecodeError \/ limit_error e = true.
Proof.
  intros Hscan. induction fuel as [|fuel IH]; intros s values e H;
    [discriminate|].
  cbn [JSONArray_loop] in H.
  destruct (scan_value s) as [value r| |e'|] eqn:E; try discriminate.
  - destruct (skip_ws r) as [|nextchar r1];
      [eapply raise_errmsg_raises; exact H|].
    destruct (nextchar =? 93); [discriminate|].
    destruct (nextchar =? 44); [|eapply raise_errmsg_raises; exact H].
    eapply IH; exact H.
  - injection H as <-. eapply Hscan; exact E.
Qed.

Lemma parse_int_raises neg ids e :
  parse_int neg ids = Raise e -> e = ValueError.
Proof.
  unfold parse_int.
  destruct (negb _ && _)%bool; [congruence | discriminate].
Qed.

Lemma match_number_raises s e rest :
  match_number s = Some (Raise e, rest) -> e = ValueError.
Proof.
  unfold match_number.
  destruct (match_integer s) as [[[neg ids] r1]|]; [|discriminate].
  destruct (match_frac r1) as [fds r2].
  destruct (match_exp r2) as [ex r3].
  destruct fds, ex; try discriminate.
  intros H. injection H as H _. eapply parse_int_raises; exact H.
Qed.

(** The scan raises nothing but [JSONDecodeError], [ValueError] and
    [RecursionError]. *)
Lemma scan_once_raises (fuel room : nat) (s : pystr) (e : exn) :
  scan_once fuel room s = ScanRaise e ->
  e = JSONDecodeError \/ limit_error e = true.
Proof.
  revert room s e.
  induction fuel as [|fuel IH]; intros room s e H; [discriminate|].
  cbn [scan_once] in H.
  destruct s as [|nextchar r]; [discriminate|].
  destruct (nextchar =? 34).
  { destruct (scanstring r) as [[str rest]|]; [discriminate|].
    eapply raise_errmsg_raises; exact H. }
  destruct (nextchar =? 123).
  { destruct room as [|room]; [injection H as <-; now right|].
    unfold JSONObject in H.
    destruct (skip_ws r) as [|c r'];
      [eapply raise_errmsg_raises; exact H|].
    destruct (c =? 125); [discriminate|].
    destruct (c =? 34); [|eapply raise_errmsg_raises; exact H].
    eapply JSONObject_loop_raises; [|exact H]. intros; eapply IH; eauto. }
  destruct (nextchar =? 91).
  { destruct room as [|room]; [injection H as <-; now right|].
    unfold JSONArray in H.
    destruct (skip_ws r) as [|c r']; [discriminate|].
    destruct (c =? 93); [discriminate|].
    eapply JSONArray_loop_raises; [|exact H]. intros; eapply IH; eauto. }
  destruct (startswith (py "null") (nextchar :: r)); [discriminate|].
  destruct (startswith (py "true") (nextchar :: r)); [discriminate|].
  destruct (startswith (py "false") (nextchar :: r)); [discriminate|].
  destruct (match_number (nextchar :: r)) as [[[v|e'] rest]|] eqn:E.
  - discriminate.
  - injection H as <-. apply match_number_raises in E. subst. now right.
  - destruct (startswith (py "NaN") (nextchar :: r));
      [eapply parse_constant_raises; exact H|].
    destruct (startswith (py "Infinity") (nextchar :: r));
      [eapply parse_constant_raises; exact H|].
    destruct (startswith (py "-Infinity") (nextchar :: r));
      [eapply parse_constant_raises; exact H | discriminate].
Qed.

Lemma raise_JSONDecodeError_cases below :
  raise_JSONDecodeError below = Raise RecursionError
  \/ raise_JSONDecodeError below = Raise JSONDecodeError.
Proof. unfold raise_JSONDecodeError. destruct (_ <? _)%nat; auto. Qed.

(** [json_loads] returns a value, or raises [JSONDecodeError], or raises
    [ValueError] or [RecursionError]: the fuel of the model is never what
    stops it. *)
Lemma json_loads_total (s : pystr) :
  (exists v, json_loads s = Ret v) \/
  json_loads s = Raise JSONDecodeError \/
  (exists e, limit_error e = true /\ json_loads s = Raise e).
Proof.
  assert (Hraise : forall below r,
            r = raise_JSONDecodeError below ->
            r = Raise JSONDecodeError \/
            (exists e, limit_error e = true /\ r = Raise e)).
  { intros below r ->.
    destruct (raise_JSONDecodeError_cases below) as [-> | ->];
      [right; now exists RecursionError | now left]. }
  unfold json_loads.
  destruct (startswith [65279] s); [right; now apply (Hraise 2%nat)|].
  pose proof (skip_ws_length s) as L.
  destruct (scan_once_finishes (S (List.length s)) recursion_room (skip_ws s))
    as [Hnf _]; [lia|].
  destruct (scan_once (S (List.length s)) recursion_room (skip_ws s))
    as [obj rest| |e|] eqn:E; [| | | contradiction].
  - destruct (skip_ws rest);
      [left; eauto | right; now apply (Hraise 1%nat)].
  - right. now apply (Hraise 0%nat).
  - apply scan_once_raises in E as [-> | He]; [now right; left|].
    right; right. now exists e.
Qed.

(* ===================================================================== *)
(** ** The pattern JSON_RE finds the leftmost, shortest match *)
(* ===================================================================== *)

Lemma through_first_found c body post :
  ~ In c body ->
  through_first c (body ++ c :: post) = Some (body ++ [c]).
Proof.
  induction body as [|x body IH]; intros Hnot; simpl.
  - now rewrite N.eqb_refl.
  - destruct (x =? c) eqn:E.
    + apply N.eqb_eq in E. subst. exfalso. apply Hnot. now left.
    + rewrite IH; [reflexivity|]. intros Hin. apply Hnot. now right.
Qed.

Lemma through_first_absent c s :
  ~ In c s -> through_first c s = None.
Proof.
  induction s as [|x s IH]; intros Hnot; simpl; [reflexivity|].
  destruct (x =? c) eqn:E.
  - apply N.eqb_eq in E. subst. exfalso. apply Hnot. now left.
  - rewrite IH; [reflexivity|]. intros Hin. apply Hnot. now right.
Qed.

Lemma JSON_RE_search_match pre body post :
  ~ In 123 pre -> ~ In 125 body ->
  JSON_RE_search (pre ++ 123 :: body ++ 125 :: post)
  = Some (123 :: body ++ [125]).
Proof.
  intros Hpre Hbody. induction pre as [|x pre IH]; simpl.
  - now rewrite through_first_found.
  - destruct (x =? 123) eqn:E.
    + apply N.eqb_eq in E. subst. exfalso. apply Hpre. now left.
    + apply IH. intros Hin. apply Hpre. now right.
Qed.

Lemma JSON_RE_search_no_match s :
  (forall pre rest, s = pre ++ 123 :: rest -> ~ In 125 rest) ->
  JSON_RE_search s = None.
Proof.
  induction s as [|x s IH]; intros Hno; simpl; [reflexivity|].
  assert (Hs : JSON_RE_search s = None).
  { apply IH. intros pre rest ->. apply (Hno (x :: pre) rest). reflexivity. }
  destruct (x =? 123) eqn:E; [|exact Hs].
  apply N.eqb_eq in E. subst.
  rewrite through_first_absent; [exact Hs|].
  apply (Hno [] s). reflexivity.
Qed.

(* ===================================================================== *)
(** ** The loop of ask_identity_ai *)
(* ===================================================================== *)

Section Loop.

Variable collaborator : nat -> request -> pystr.

Lemma with_calls_app w reqs reqs' :
  with_calls (with_calls w reqs) reqs' = with_calls w (reqs ++ reqs').
Proof.
  unfold with_calls. simpl. now rewrite app_assoc.
Qed.

Lemma attempt_after_call w req i :
  attempt collaborator (with_calls w [req]) req i
  = attempt collaborator w req (S i).
Proof.
  unfold attempt, with_calls. simpl. rewrite length_app. simpl.
  do 3 f_equal. lia.
Qed.

Lemma attempt_first w req :
  attempt collaborator w req 0
  = extract_answer
      (str_strip (collaborator (List.length (chat_calls w)) req)).
Proof.
  unfold attempt. now rewrite Nat.add_0_r.
Qed.

Lemma ask_loop_step n req w :
  ask_loop collaborator (S n) req w =
  match attempt collaborator w req 0 with
  | Ret (Some a) => (Ret (Some a), with_calls w [req])
  | Ret None => ask_loop collaborator n req (with_calls w [req])
  | Raise e => (Raise e, with_calls w [req])
  end.
Proof.
  rewrite attempt_first. cbn [ask_loop]. unfold bind, chat. simpl.
  fold (with_calls w [req]).
  destruct (extract_answer _) as [[a|]|e]; reflexivity.
Qed.

(** What a run of the loop tells about the attempts it made. *)
Lemma ask_loop_spec n :
  forall req w,
    match ask_loop collaborator n req w with
    | (Ret (Some a), w') =>
        exists i, (i < n)%nat /\
          attempt collaborator w req i = Ret (Some a) /\
          (forall j, (j < i)%nat ->
                     attempt collaborator w req j = Ret None) /\
          w' = with_calls w (repeat req (S i))
    | (Ret None, w') =>
        (forall j, (j < n)%nat ->
                   attempt collaborator w req j = Ret None) /\
        w' = with_calls w (repeat req n)
    | (Raise e, w') =>
        exists i, (i < n)%nat /\
          attempt collaborator w req i = Raise e /\
          (forall j, (j < i)%nat ->
                     attempt collaborator w req j = Ret None) /\
          w' = with_calls w (repeat req (S i))
    end.
Proof.
  induction n as [|n IH]; intros req w.
  - simpl. split; [intros j Hj; lia|].
    unfold with_calls. simpl. rewrite app_nil_r. now destruct w.
  - rewrite ask_loop_step.
    destruct (attempt collaborator w req 0) as [[a|]|e] eqn:E0.
    + exists 0%nat. repeat split; [lia | exact E0 | intros j Hj; lia].
    + specialize (IH req (with_calls w [req])).
      destruct (ask_loop collaborator n req (with_calls w [req]))
        as [[[a|]|e] w'].
      * destruct IH as (i & Hi & Ha & Hbefore & ->).
        exists (S i). repeat split.
        -- lia.
        -- now rewrite <- attempt_after_call.
        -- intros [|j] Hj; [exact E0|].
           rewrite <- attempt_after_call. apply Hbefore. lia.
        -- now rewrite with_calls_app.
      * destruct IH as (Hall & ->). split.
        -- intros [|j] Hj; [exact E0|].
           rewrite <- attempt_after_call. apply Hall. lia.
        -- now rewrite with_calls_app.
      * destruct IH as (i & Hi & Ha & Hbefore & ->).
        exists (S i). repeat split.
        -- lia.
        -- now rewrite <- attempt_after_call.
        -- intros [|j] Hj; [exact E0|].
           rewrite <- attempt_after_call. apply Hbefore. lia.
        -- now rewrite with_calls_app.
    + exists 0%nat. repeat split; [lia | exact E0 | intros j Hj; lia].
Qed.

(** The loop never makes more calls than it has iterations, and it
    leaves the session state alone. *)
Lemma ask_loop_calls n req w :
  exists k, (k <= n)%nat /\
    snd (ask_loop collaborator n req w) = with_calls w (repeat req k).
Proof.
  pose proof (ask_loop_spec n req w) as H.
  destruct (ask_loop collaborator n req w) as [[[a|]|e] w']; simpl.
  - destruct H as (i & Hi & _ & _ & ->). exists (S i). split; [lia|easy].
  - destruct H as (_ & ->). exists n. split; [lia|easy].
  - destruct H as (i & Hi & _ & _ & ->). exists (S i). split; [lia|easy].
Qed.

(** The loop does not read the session state. *)
Lemma ask_loop_session n :
  forall req w s,
    ask_loop collaborator n req (with_session w s)
    = (fst (ask_loop collaborator n req w),
       with_session (snd (ask_loop collaborator n req w)) s).
Proof.
  induction n as [|n IH]; intros req w s; [reflexivity|].
  rewrite !ask_loop_step.
  change (attempt collaborator (with_session w s) req 0)
    with (attempt collaborator w req 0).
  destruct (attempt collaborator w req 0) as [[a|]|e]; try reflexivity.
  change (with_calls (with_session w s) [req])
    with (with_session (with_calls w [req]) s).
  apply IH.
Qed.

(** If every attempt falls through, the loop returns [None] after all its
    calls. *)
Lemma ask_loop_all_fail n req w :
  (forall j, (j < n)%nat -> attempt collaborator w req j = Ret None) ->
  ask_loop collaborator n req w = (Ret None, with_calls w (repeat req n)).
Proof.
  intros Hall. pose proof (ask_loop_spec n req w) as H.
  destruct (ask_loop collaborator n req w) as [[[a|]|e] w'].
  - destruct H as (i & Hi & Ha & _). rewrite Hall in Ha by exact Hi.
    discriminate.
  - destruct H as (_ & ->). reflexivity.
  - destruct H as (i & Hi & Ha & _). rewrite Hall in Ha by exact Hi.
    discriminate.
Qed.

(** The loop returns the answer of the first attempt that yields one,
    provided the attempts before it fell through. *)
Lemma ask_loop_first_answer n req w i a :
  (i < n)%nat ->
  attempt collaborator w req i = Ret (Some a) ->
  (forall j, (j < i)%nat -> attempt collaborator w req j = Ret None) ->
  ask_loop collaborator n req w
  = (Ret (Some a), with_calls w (repeat req (S i))).
Proof.
  intros Hi Ha Hbefore. pose proof (ask_loop_spec n req w) as H.
  destruct (ask_loop collaborator n req w) as [[[a'|]|e] w'].
  - destruct H as (i' & Hi' & Ha' & Hbefore' & ->).
    destruct (Nat.lt_trichotomy i i') as [Hlt|[<-|Hgt]].
    + rewrite Hbefore' in Ha by exact Hlt. discriminate.
    + rewrite Ha in Ha'. now injection Ha' as <-.
    + rewrite Hbefore in Ha' by exact Hgt. discriminate.
  - destruct H as (Hall & _). rewrite Hall in Ha by exact Hi. discriminate.
  - destruct H as (i' & Hi' & Ha' & Hbefore' & ->).
    destruct (Nat.lt_trichotomy i i') as [Hlt|[<-|Hgt]].
    + rewrite Hbefore' in Ha by exact Hlt. discriminate.
    + rewrite Ha in Ha'. discriminate.
    + rewrite Hbefore in Ha' by exact Hgt. discriminate.
Qed.

End Loop.

(* ===================================================================== *)
(** ** generate_identity and reset_game *)
(* ===================================================================== *)

Lemma identity_prompt_recognized identity_type custom_details :
  In identity_type identity_types ->
  exists prompt, identity_prompt identity_type custom_details = Some prompt.
Proof.
  unfold identity_types.
  intros [<-|[<-|[<-|[<-|[<-|[]]]]]]; eexists; reflexivity.
Qed.

Lemma identity_prompt_unrecognized identity_type custom_details :
  ~ In identity_type identity_types ->
  identity_prompt identity_type custom_details = None.
Proof.
  intros Hnot. unfold identity_prompt.
  repeat match goal with
         | |- context [str_eqb identity_type ?lit] =>
             rewrite (str_eqb_neq identity_type lit)
               by (intros ->; apply Hnot; unfold identity_types; simpl; tauto)
         end.
  reflexivity.
Qed.

Lemma generate_loop_spec (collaborator : nat -> request -> pystr) n :
  forall prompt raw w,
    generate_loop collaborator n prompt raw w
    = (Ret match n with
           | O => raw
           | S k =>
               Some (str_strip
                       (collaborator (List.length (chat_calls w) + k)%nat
                          (generate_request prompt)))
           end,
       with_calls w (repeat (generate_request prompt) n)).
Proof.
  induction n as [|n IH]; intros prompt raw w.
  - simpl. unfold ret, with_calls. simpl. rewrite app_nil_r.
    now destruct w.
  - cbn [generate_loop]. unfold bind, chat.
    rewrite IH. unfold with_calls. cbn [session_state chat_calls].
    f_equal.
    + destruct n as [|k]; [now rewrite Nat.add_0_r|].
      rewrite length_app. cbn [List.length]. do 4 f_equal. lia.
    + rewrite <- app_assoc. reflexivity.
Qed.

Lemma generate_identity_with_prompt (collaborator : nat -> request -> pystr)
    identity_type custom_details prompt w :
  identity_prompt identity_type custom_details = Some prompt ->
  generate_identity collaborator identity_type custom_details w
  = (Ret (Some (str_strip
                  (collaborator (List.length (chat_calls w) + 2)%nat
                     (generate_request prompt)))),
     with_calls w (repeat (generate_request prompt) 3)).
Proof.
  intros Hp. unfold generate_identity. rewrite Hp.
  unfold bind. rewrite generate_loop_spec. reflexivity.
Qed.

Section Generator.

Variable collaborator : nat -> request -> pystr.

(** C1. For every recognized category tag, [generate_identity] runs its
    loop exactly three times (three calls to the collaborator, each
    assigning [raw] anew) and returns the stripped text of the third
    call, whatever it is; the texts of the first two calls are never
    returned: a collaborator that differs only on them gives the same
    result. *)
Theorem generate_identity_returns_last_attempt :
  forall identity_type custom_details w,
    In identity_type identity_types ->
    exists prompt,
      identity_prompt identity_type custom_details = Some prompt /\
      generate_identity collaborator identity_type custom_details w
      = (Ret (Some (str_strip
                      (collaborator (List.length (chat_calls w) + 2)%nat
                         (generate_request prompt)))),
         with_calls w [generate_request prompt; generate_request prompt;
                       generate_request prompt]) /\
      forall other : nat -> request -> pystr,
        other (List.length (chat_calls w) + 2)%nat (generate_request prompt)
        = collaborator (List.length (chat_calls w) + 2)%nat
            (generate_request prompt) ->
        fst (generate_identity other identity_type custom_details w)
        = fst (generate_identity collaborator identity_type
                 custom_details w).
Proof.
  intros identity_type custom_details w Hin.
  destruct (identity_prompt_recognized identity_type custom_details Hin)
    as [prompt Hp].
  exists prompt. split; [exact Hp|]. split.
  - now rewrite (generate_identity_with_prompt _ _ _ prompt).
  - intros other Hsame.
    rewrite !(generate_identity_with_prompt _ _ _ prompt) by exact Hp.
    simpl. now rewrite Hsame.
Qed.

(** C8. For a category tag outside the five enumerated ones,
    [generate_identity] returns [None] and makes no call to the
    collaborator: the world is left as it was. *)
Theorem generate_identity_unrecognized_category :
  forall identity_type custom_details w,
    ~ In identity_type identity_types ->
    generate_identity collaborator identity_type custom_details w
    = (Ret None, w).
Proof.
  intros identity_type custom_details w Hnot.
  unfold generate_identity.
  now rewrite identity_prompt_unrecognized.
Qed.

(** C5. Whatever the stored category tag and whatever the collaborator
    answers, [reset_game] returns normally and leaves a non-empty
    identity in the session: the generated text when there is one and it
    is not empty, and Albert Einstein when [generate_identity] returned
    [None] (unrecognized category) or the empty text. *)
Theorem reset_game_identity_nonempty :
  forall w,
    let tag :=
      match identity_type (session_state w) with
      | Some t => t
      | None => py "Random Character"
      end in
    let details :=
      match custom_details (session_state w) with
      | Some d => d
      | None => []
      end in
    let generated :=
      fst (generate_identity collaborator tag details w) in
    fst (reset_game collaborator w) = Ret tt /\
    exists name,
      identity (session_state (snd (reset_game collaborator w))) = Some name
      /\ name <> []
      /\ (forall text, generated = Ret (Some text) -> text <> [] ->
                       name = text)
      /\ (generated = Ret None \/ generated = Ret (Some []) ->
          name = py "Albert Einstein").
Proof.
  intros w tag details generated.
  assert (Hrun : reset_game collaborator w
               = let (r, w1) := generate_identity collaborator
                                  tag details w in
                 match r with
                 | Ret new_identity =>
                     (Ret tt,
                      with_session w1
                        (set_messages [ (py "System", welcome_message) ]
                          (set_setup_complete true
                            (set_game_over false
                              (set_question_count 0
                                (set_identity
                                   match new_identity with
                                   | Some (c :: text) => c :: text
                                   | _ => py "Albert Einstein"
                                   end (session_state w1)))))))
                 | Raise e => (Raise e, w1)
                 end).
  { unfold reset_game, bind, session_get.
    subst tag details.
    destruct (identity_type (session_state w));
      destruct (custom_details (session_state w));
      (destruct (generate_identity collaborator _ _ w) as [[[[|c text]|]|e] w1];
       reflexivity). }
  rewrite Hrun. subst generated.
  destruct (identity_prompt tag details) as [prompt|] eqn:Hp.
  - rewrite (generate_identity_with_prompt _ _ _ prompt) by exact Hp.
    simpl fst.
    destruct (str_strip _) as [|c text] eqn:Htext; simpl.
    + split; [reflexivity|]. eexists. split; [reflexivity|].
      split; [discriminate|]. split; [|reflexivity].
      intros text H Hne. injection H as <-. contradiction.
    + split; [reflexivity|]. eexists. split; [reflexivity|].
      split; [discriminate|]. split.
      * intros text' H _. now injection H as <-.
      * intros [H|H]; discriminate.
  - unfold generate_identity. rewrite Hp. simpl.
    split; [reflexivity|]. eexists. split; [reflexivity|].
    split; [discriminate|]. split; [|reflexivity].
    intros text H. discriminate.
Qed.

End Generator.

(* ===================================================================== *)
(** ** The overrides of main *)
(* ===================================================================== *)

Section Overrides.

Variable str_lower : pystr -> pystr.

(** C2. For every validated answer and every player input: if the lowered
    identity occurs in the lowered input, the overrides of [main] leave
    the response Yes!, [is_correct_guess] true and [is_question] false,
    whatever the model returned, also when the response is yes or no and
    the first override has just set [is_question] to true. *)
Theorem identity_override_wins :
  forall identity prompt a,
    str_in (str_lower identity) (str_lower prompt) = true ->
    apply_overrides str_lower identity prompt (Some a)
    = Some {| response := py "Yes!";
              is_question := false;
              is_correct_guess := true |}
    /\ override_identity str_lower identity prompt
         (Some {| response := response a;
                  is_question := true;
                  is_correct_guess := is_correct_guess a |})
       = Some {| response := py "Yes!";
                 is_question := false;
                 is_correct_guess := true |}.
Proof.
  intros identity prompt a Hin.
  unfold apply_overrides, override_yes_no, override_identity.
  split.
  - destruct (str_in_list _ _); now rewrite Hin.
  - now rewrite Hin.
Qed.

(** C6 (amended). For every validated answer whose lowered response is
    yes or no, and every player input in which the lowered identity does
    not occur, the overrides of [main] leave [is_question] true, also
    when the model returned false, and keep the response and
    [is_correct_guess]. *)
Theorem yes_no_override_without_identity :
  forall identity prompt a,
    str_in_list (str_lower (response a)) [ py "yes"; py "no" ] = true ->
    str_in (str_lower identity) (str_lower prompt) = false ->
    apply_overrides str_lower identity prompt (Some a)
    = Some {| response := response a;
              is_question := true;
              is_correct_guess := is_correct_guess a |}.
Proof.
  intros identity prompt a Hyn Hnot.
  unfold apply_overrides, override_yes_no, override_identity.
  now rewrite Hyn, Hnot.
Qed.

End Overrides.

(* ===================================================================== *)
(** ** Decoding an answer *)
(* ===================================================================== *)

Lemma JSONObject_loop_object scan_value room fuel :
  forall s pairs v rest,
    JSONObject_loop scan_value room fuel s pairs = Scanned v rest ->
    exists pairs', v = JObj pairs'.
Proof.
  induction fuel as [|fuel IH]; intros s pairs v rest H; [discriminate|].
  cbn [JSONObject_loop] in H. unfold raise_errmsg in H.
  repeat (break_hyp H; try discriminate).
  - injection H as <- _. eauto.
  - eapply IH. exact H.
Qed.

Lemma JSONObject_object scan_value room fuel s v rest :
  JSONObject scan_value room fuel s = Scanned v rest ->
  exists pairs, v = JObj pairs.
Proof.
  unfold JSONObject, raise_errmsg. intros H.
  repeat (break_hyp H; try discriminate).
  - injection H as <- _. eauto.
  - eapply JSONObject_loop_object. exact H.
Qed.

(** A text that starts with an open brace decodes to a [dict] or not at
    all. *)
Lemma json_loads_braced body v :
  json_loads (123 :: body) = Ret v -> exists pairs, v = JObj pairs.
Proof.
  unfold json_loads. simpl startswith. simpl skip_ws.
  cbn [scan_once]. simpl (123 =? 34). simpl (123 =? 123).
  destruct recursion_room as [|room]; [discriminate|].
  destruct (JSONObject _ _ _ body) as [obj rest| |e|] eqn:E;
    try discriminate.
  - destruct (skip_ws rest) eqn:Erest.
    + intros H. injection H as <-.
      eapply JSONObject_object. exact E.
    + intros H.
      destruct (raise_JSONDecodeError_cases 1) as [Hr|Hr];
        rewrite Hr in H; discriminate.
  - intros H.
    destruct (raise_JSONDecodeError_cases 0) as [Hr|Hr];
      rewrite Hr in H; discriminate.
Qed.

Lemma IdentityAnswer_init_object pairs :
  (exists a, IdentityAnswer_init (JObj pairs) = Ret a)
  \/ IdentityAnswer_init (JObj pairs) = Raise ValidationError.
Proof.
  unfold IdentityAnswer_init.
  destruct (field "response" validate_str pairs);
    destruct (field "is_question" validate_bool pairs);
    destruct (field "is_correct_guess" validate_bool pairs); eauto.
Qed.

(** So the fallback, whose text starts with a brace, returns an answer, or
    raises an exception that its [except] clause catches, or raises what
    [json.loads] raises at the interpreter's limits; it never raises
    [TypeError]. *)
Lemma decode_answer_braced body :
  (exists a, decode_answer (123 :: body) = Ret a)
  \/ (exists e, decode_answer (123 :: body) = Raise e /\
                (caught e = true \/
                 limit_error e = true /\ json_loads (123 :: body) = Raise e)).
Proof.
  unfold decode_answer.
  destruct (json_loads_total (123 :: body))
    as [[v Hv]|[Herr|(e & He & Herr)]].
  - rewrite Hv. destruct (json_loads_braced _ _ Hv) as [pairs ->].
    destruct (IdentityAnswer_init_object pairs) as [[a ->]| ->]; eauto.
  - rewrite Herr. right. eauto.
  - rewrite Herr. right. eauto.
Qed.

Lemma JSON_RE_search_braced s m :
  JSON_RE_search s = Some m -> exists body, m = 123 :: body.
Proof.
  induction s as [|x s IH]; simpl; [discriminate|].
  destruct (x =? 123) eqn:E; [|exact IH].
  destruct (through_first 125 s) as [body|]; [|exact IH].
  intros H. injection H as <-. apply N.eqb_eq in E. subst. eauto.
Qed.

(** An answer that [decode_answer] returns was validated field by field
    from a decoded [dict]. *)
Lemma decode_answer_fields text a :
  decode_answer text = Ret a ->
  exists pairs,
    json_loads text = Ret (JObj pairs) /\
    dict_get (py "response") pairs = Some (JStr (response a)) /\
    (exists v, dict_get (py "is_question") pairs = Some v /\
               validate_bool v = Some (is_question a)) /\
    (exists v, dict_get (py "is_correct_guess") pairs = Some v /\
               validate_bool v = Some (is_correct_guess a)).
Proof.
  unfold decode_answer. intros H.
  destruct (json_loads text) as [data|e]; [|discriminate].
  destruct data; try discriminate.
  exists pairs. split; [reflexivity|].
  unfold IdentityAnswer_init, field in H.
  destruct (dict_get (py "response") pairs) as [vr|]; [|discriminate].
  destruct (validate_str vr) as [r|] eqn:Er; [|discriminate].
  destruct (dict_get (py "is_question") pairs) as [vq|]; [|discriminate].
  destruct (validate_bool vq) as [q|] eqn:Eq; [|discriminate].
  destruct (dict_get (py "is_correct_guess") pairs) as [vg|];
    [|discriminate].
  destruct (validate_bool vg) as [g|] eqn:Eg; [|discriminate].
  injection H as <-. simpl.
  destruct vr; try discriminate. injection Er as ->.
  repeat split; eauto.
Qed.

Lemma extract_answer_Some raw a :
  extract_answer raw = Ret (Some a) ->
  decode_answer raw = Ret a
  \/ exists m, JSON_RE_search raw = Some m /\ decode_answer m = Ret a.
Proof.
  unfold extract_answer. intros H.
  destruct (decode_answer raw) as [a0|e].
  - injection H as <-. now left.
  - destruct (caught e); [|discriminate].
    destruct (JSON_RE_search raw) as [m|]; [|discriminate].
    right. exists m. split; [reflexivity|].
    destruct (decode_answer m) as [a1|e1].
    + now injection H as <-.
    + destruct (caught e1); discriminate.
Qed.

(** When the fast path on the stripped text fails with an exception that
    its [except] clause catches, the attempt turns to the first
    brace-delimited substring, taken lazily (from the first open brace to
    the first closing brace after it): the attempt returns the answer that
    decoding and validating this substring gives, gives up when this raises
    an exception that the second [except] clause catches, and raises any
    other exception of it; it gives up as well when the text has no such
    substring. *)
Lemma extract_answer_fallback raw e :
  decode_answer raw = Raise e -> caught e = true ->
  (forall pre body post,
      raw = pre ++ 123 :: body ++ 125 :: post ->
      ~ In 123 pre -> ~ In 125 body ->
      extract_answer raw =
        match decode_answer (123 :: body ++ [125]) with
        | Ret a => Ret (Some a)
        | Raise e' => if caught e' then Ret None else Raise e'
        end)
  /\ ((forall pre rest, raw = pre ++ 123 :: rest -> ~ In 125 rest) ->
      extract_answer raw = Ret None).
Proof.
  intros Hfast Hcaught. split.
  - intros pre body post -> Hpre Hbody.
    unfold extract_answer. rewrite Hfast, Hcaught.
    now rewrite JSON_RE_search_match by assumption.
  - intros Hnone. unfold extract_answer. rewrite Hfast, Hcaught.
    now rewrite JSON_RE_search_no_match.
Qed.

Section Validator.

Variable collaborator : nat -> request -> pystr.

(** Every answer that [ask_identity_ai] returns was built,
    in one of its attempts, from a decoded JSON object (the whole
    stripped text, or its first brace-delimited substring) that holds
    all three keys, with a JSON string under response, which is the
    answer's response, and under each of the two flags a value that
    Pydantic's lax mode accepts for a [bool] ([validate_bool]: a JSON
    boolean, the integers 0 and 1, the floats 0.0 and 1.0, and the
    strings 0, 1, f, t, n, y, no, yes, off, on, false, true in any letter
    case), which is the answer's flag.  An object that misses a key, or
    holds any other value under it, is not returned as an answer. *)
Theorem answers_are_validated_objects :
  forall user_input identity max_retries temp w a w',
    ask_identity_ai collaborator user_input identity max_retries temp w
    = (Ret (Some a), w') ->
    exists i text pairs,
      (i < Z.to_nat max_retries)%nat /\
      (let raw :=
         str_strip (collaborator (List.length (chat_calls w) + i)%nat
                      (ask_request user_input identity temp)) in
       text = raw \/ JSON_RE_search raw = Some text) /\
      json_loads text = Ret (JObj pairs) /\
      dict_get (py "response") pairs = Some (JStr (response a)) /\
      (exists v, dict_get (py "is_question") pairs = Some v /\
                 validate_bool v = Some (is_question a)) /\
      (exists v, dict_get (py "is_correct_guess") pairs = Some v /\
                 validate_bool v = Some (is_correct_guess a)).
Proof.
  intros user_input identity max_retries temp w a w' Hrun.
  unfold ask_identity_ai in Hrun.
  pose proof (ask_loop_spec collaborator (Z.to_nat max_retries)
                (ask_request user_input identity temp) w) as Hspec.
  rewrite Hrun in Hspec. destruct Hspec as (i & Hi & Ha & _ & _).
  unfold attempt in Ha.
  apply extract_answer_Some in Ha as [Hfast|(m & Hm & Hfallback)].
  - apply decode_answer_fields in Hfast as (pairs & Hp & Hr & Hq & Hg).
    eexists i, _, pairs. repeat split; eauto.
  - apply decode_answer_fields in Hfallback as (pairs & Hp & Hr & Hq & Hg).
    exists i, m, pairs. repeat split; eauto.
Qed.

End Validator.

(* ===================================================================== *)
(** ** A turn of the game *)
(* ===================================================================== *)

Section Turn.

Variable str_lower : pystr -> pystr.
Variable collaborator : nat -> request -> pystr.

(** [ask_identity_ai] run under another session state. *)
Lemma ask_identity_ai_session user_input who retries temp s s' calls :
  ask_identity_ai collaborator user_input who retries temp
    {| session_state := s'; chat_calls := calls |}
  = let run :=
      ask_identity_ai collaborator user_input who retries temp
        {| session_state := s; chat_calls := calls |} in
    (fst run,
     {| session_state := s'; chat_calls := chat_calls (snd run) |}).
Proof.
  unfold ask_identity_ai.
  exact (ask_loop_session collaborator _ _
           {| session_state := s; chat_calls := calls |} s').
Qed.

(** A run of [main] on a set-up game, with a text typed into the chat
    input and no button pressed, is the turn on this text. *)
Lemma main_plays_the_turn widgets w transcript count over c text :
  setup_complete (session_state w) = Some true ->
  messages (session_state w) = Some transcript ->
  question_count (session_state w) = Some count ->
  game_over (session_state w) = Some over ->
  button_give_up widgets = false ->
  button_restart widgets = false ->
  button_new_game_setup widgets = false ->
  chat_input widgets = Some (c :: text) ->
  main str_lower collaborator widgets w
  = play_turn str_lower collaborator (c :: text) w.
Proof.
  destruct w as [s calls].
  destruct s as [ty details idn cnt ov complete ms last].
  simpl. intros -> -> -> -> Hgive Hrestart Hsetup Hinput.
  unfold main, init_state, bind, session_has, session_get, attr, when, ret.
  cbn [session_state setup_complete messages question_count game_over
       negb andb].
  rewrite Hgive, Hinput.
  destruct over; [rewrite Hrestart, Hsetup|]; reflexivity.
Qed.

(** C10. When [ask_identity_ai] returns [None], the turn appends the
    player's message and the one error message to the transcript and
    stops the run; nothing else of the session changes: the question
    counter, the game-over flag and the identity are as before.  This
    holds for every input, also one that contains the identity: the
    overrides are not applied to a missing answer. *)
Theorem failed_turn_only_extends_transcript :
  forall prompt w transcript who,
    messages (session_state w) = Some transcript ->
    identity (session_state w) = Some who ->
    fst (ask_identity_ai collaborator prompt who
           default_max_retries default_temperature w) = Ret None ->
    exists w',
      play_turn str_lower collaborator prompt w = (Raise StopException, w')
      /\ session_state w'
         = set_messages
             (transcript ++ [ (py "You", prompt);
                              (py "System", invalid_json_message) ])
             (session_state w)
      /\ question_count (session_state w')
         = question_count (session_state w)
      /\ game_over (session_state w') = game_over (session_state w)
      /\ identity (session_state w') = identity (session_state w).
Proof.
  intros prompt [s calls] transcript who Hms Hwho Hask.
  destruct s as [ty details idn count over complete ms last].
  simpl in Hms, Hwho. subst ms idn.
  unfold play_turn, bind at 1 2 3.
  unfold messages_append at 1, bind at 1, attr at 1, assign at 1.
  cbn [session_state messages set_messages chat_calls identity].
  unfold attr at 1. cbn [session_state identity set_messages].
  rewrite (ask_identity_ai_session prompt who _ _
             {| identity_type := ty; custom_details := details;
                identity := Some who; question_count := count;
                game_over := over; setup_complete := complete;
                messages := Some transcript; last_answer := last |}).
  cbv zeta.
  destruct (ask_identity_ai collaborator prompt who _ _ _) as [r w2].
  simpl in Hask. subst r. cbn [fst snd].
  eexists. split.
  { unfold apply_overrides, override_yes_no, override_identity.
    unfold messages_append, bind, attr, assign, st_stop, raise.
    cbn [session_state messages set_messages chat_calls].
    rewrite <- app_assoc. reflexivity. }
  repeat split.
Qed.

(** C9 (amended). In a turn taken while the game is not over, if
    [ask_identity_ai] returns an answer with [is_question] true, the run
    ends in a rerun with the question counter incremented by exactly 1,
    and the transcript extended by exactly one player entry followed by
    exactly one AI entry, holding the response after the overrides;
    when the answer after the overrides is a correct guess, the
    end-of-game System entry follows them and the game is over. *)
Theorem question_turn_counts_once :
  forall prompt w transcript who count a,
    messages (session_state w) = Some transcript ->
    identity (session_state w) = Some who ->
    question_count (session_state w) = Some count ->
    game_over (session_state w) = Some false ->
    fst (ask_identity_ai collaborator prompt who
           default_max_retries default_temperature w) = Ret (Some a) ->
    is_question a = true ->
    exists a' w',
      apply_overrides str_lower who prompt (Some a) = Some a'
      /\ play_turn str_lower collaborator prompt w
         = (Raise RerunException, w')
      /\ question_count (session_state w') = Some (count + 1)%Z
      /\ messages (session_state w')
         = Some (transcript
                 ++ [ (py "You", prompt); (py "AI", response a') ]
                 ++ (if is_correct_guess a'
                     then [ (py "System", end_message who (count + 1)) ]
                     else []))
      /\ game_over (session_state w') = Some (is_correct_guess a')
      /\ identity (session_state w') = Some who.
Proof.
  intros prompt [s calls] transcript who count a Hms Hwho Hcount Hover
    Hask Hq.
  destruct s as [ty details idn cnt over complete ms last].
  simpl in Hms, Hwho, Hcount, Hover. subst ms idn cnt over.
  assert (Hov : exists a',
             apply_overrides str_lower who prompt (Some a) = Some a'
             /\ (is_correct_guess a' = false -> is_question a' = true)).
  { unfold apply_overrides, override_yes_no, override_identity.
    destruct (str_in_list _ _);
      destruct (str_in (str_lower who) (str_lower prompt));
      eexists; (split; [reflexivity|]); simpl; intros; congruence. }
  destruct Hov as (a' & Hov & Hflag).
  exists a'.
  unfold play_turn, bind at 1 2 3.
  unfold messages_append at 1, bind at 1, attr at 1, assign at 1.
  cbn [session_state messages set_messages chat_calls identity].
  unfold attr at 1. cbn [session_state identity set_messages].
  rewrite (ask_identity_ai_session prompt who _ _
             {| identity_type := ty; custom_details := details;
                identity := Some who; question_count := Some count;
                game_over := Some false; setup_complete := complete;
                messages := Some transcript; last_answer := last |}).
  cbv zeta.
  destruct (ask_identity_ai collaborator prompt who _ _ _) as [r w2].
  simpl in Hask. subst r. cbn [fst snd].
  rewrite Hov.
  unfold messages_append, bind, attr, assign, when, st_rerun, raise, ret.
  cbn [session_state messages set_messages chat_calls question_count
       set_question_count identity game_over set_game_over
       set_last_answer].
  destruct (is_correct_guess a') eqn:Hg.
  - cbn [session_state messages set_messages chat_calls question_count
         set_question_count identity game_over set_game_over
         set_last_answer].
    eexists. split; [reflexivity|]. split; [reflexivity|].
    cbn [session_state messages question_count game_over identity].
    repeat split. now rewrite <- !app_assoc.
  - rewrite (Hflag eq_refl).
    cbn [session_state messages set_messages chat_calls question_count
         set_question_count identity game_over set_game_over
         set_last_answer].
    eexists. split; [reflexivity|]. split; [reflexivity|].
    cbn [session_state messages question_count game_over identity].
    repeat split. now rewrite <- !app_assoc.
Qed.

End Turn.

(* ===================================================================== *)
(** * Further properties *)
(* ===================================================================== *)

(* ===================================================================== *)
(** ** More on the pattern JSON_RE *)
(* ===================================================================== *)

Lemma through_first_inv c s body :
  through_first c s = Some body ->
  exists inner post,
    body = inner ++ [c] /\ s = inner ++ c :: post /\ ~ In c inner.
Proof.
  revert body. induction s as [|x s IH]; intros body H; simpl in H;
    [discriminate|].
  destruct (x =? c) eqn:E.
  - apply N.eqb_eq in E. subst x. injection H as <-.
    exists [], s. repeat split. intros [].
  - destruct (through_first c s) as [body'|]; [|discriminate].
    injection H as <-.
    destruct (IH body' eq_refl) as (inner & post & -> & -> & Hnot).
    exists (x :: inner), post. repeat split.
    intros [->|Hin]; [|contradiction].
    now rewrite N.eqb_refl in E.
Qed.

Lemma through_first_none c s :
  through_first c s = None -> ~ In c s.
Proof.
  induction s as [|x s IH]; simpl; intros H; [intros []|].
  destruct (x =? c) eqn:E; [discriminate|].
  destruct (through_first c s); [discriminate|].
  intros [->|Hin]; [now rewrite N.eqb_refl in E | now apply IH].
Qed.

Lemma JSON_RE_search_inv s m :
  JSON_RE_search s = Some m ->
  exists pre body post,
    s = pre ++ 123 :: body ++ 125 :: post /\
    m = 123 :: body ++ [125] /\
    ~ In 123 pre /\ ~ In 125 body.
Proof.
  induction s as [|x s IH]; simpl; intros H; [discriminate|].
  destruct (x =? 123) eqn:E.
  - apply N.eqb_eq in E. subst x.
    destruct (through_first 125 s) as [found|] eqn:Ef.
    + injection H as <-.
      destruct (through_first_inv _ _ _ Ef) as (body & post & -> & -> & Hnot).
      exists [], body, post. repeat split; [intros [] | exact Hnot].
    + apply through_first_none in Ef.
      destruct (IH H) as (pre & body & post & -> & _ & _ & _).
      exfalso. apply Ef. apply in_or_app. right. right.
      apply in_or_app. right. now left.
  - destruct (IH H) as (pre & body & post & -> & -> & Hpre & Hbody).
    exists (x :: pre), body, post. repeat split; [|exact Hbody].
    intros [->|Hin]; [now rewrite N.eqb_refl in E | contradiction].
Qed.

(** [JSON_RE.search] finds a match exactly when the text holds an open
    brace with a closing brace somewhere after it, and the match is then
    the text from the first open brace of the whole text to the first
    closing brace after it: nothing before the match is an open brace, and
    the only closing brace of the match is its last character. *)
Theorem JSON_RE_search_leftmost_shortest :
  forall s m,
    JSON_RE_search s = Some m <->
    exists pre body post,
      s = pre ++ 123 :: body ++ 125 :: post /\
      m = 123 :: body ++ [125] /\
      ~ In 123 pre /\ ~ In 125 body.
Proof.
  intros s m. split.
  - apply JSON_RE_search_inv.
  - intros (pre & body & post & -> & -> & Hpre & Hbody).
    now apply JSON_RE_search_match.
Qed.

(** An object nested in the answer is out of reach of the fallback: the
    match stops at the first closing brace, so it never holds a complete
    object that has another object inside. *)
Lemma JSON_RE_search_one_closing_brace s m :
  JSON_RE_search s = Some m ->
  count_occ N.eq_dec m 125 = 1%nat.
Proof.
  intros H. apply JSON_RE_search_inv in H
    as (pre & body & post & _ & -> & _ & Hbody).
  simpl. rewrite count_occ_app. simpl.
  rewrite (proj1 (count_occ_not_In N.eq_dec body 125) Hbody).
  reflexivity.
Qed.

(* ===================================================================== *)
(** ** More on ask_identity_ai *)
(* ===================================================================== *)

Lemma IdentityAnswer_init_TypeError v e :
  IdentityAnswer_init v = Raise e -> caught e = false ->
  e = TypeError /\ forall pairs, v <> JObj pairs.
Proof.
  intros H Hc.
  destruct v; try (injection H as <-; split; [reflexivity | discriminate]).
  destruct (IdentityAnswer_init_object pairs) as [[a Ha]|Hv].
  - rewrite Ha in H. discriminate.
  - rewrite Hv in H. injection H as <-. discriminate.
Qed.

Lemma limit_error_cases e :
  limit_error e = true -> e = ValueError \/ e = RecursionError.
Proof. destruct e; try discriminate; auto. Qed.

Lemma limit_error_not_caught e : limit_error e = true -> caught e = false.
Proof. destruct e; try discriminate; reflexivity. Qed.

(** An exception of [decode_answer] that the [except] clauses do not catch
    is the [TypeError] of a document that is not an object, or what
    [json.loads] raised at the interpreter's limits. *)
Lemma decode_answer_uncaught text e :
  decode_answer text = Raise e -> caught e = false ->
  (e = TypeError /\
   exists v, json_loads text = Ret v /\ forall pairs, v <> JObj pairs)
  \/ (limit_error e = true /\ json_loads text = Raise e).
Proof.
  unfold decode_answer. intros H Hc.
  destruct (json_loads_total text) as [[v Hv]|[Herr|(e' & He' & Herr)]].
  - rewrite Hv in H.
    destruct (IdentityAnswer_init_TypeError _ _ H Hc) as [-> Hnot].
    left. split; [reflexivity|]. now exists v.
  - rewrite Herr in H. injection H as <-. discriminate.
  - rewrite Herr in H. injection H as <-. right. now split.
Qed.

(** The body of the loop lets three exceptions through: the [TypeError] of
    a stripped text that is a document but not an object, on the fast path
    only, and the [ValueError] and [RecursionError] of [json.loads], on the
    fast path or, once the fast path has failed with a caught exception, on
    the first brace-delimited substring. *)
Lemma extract_answer_raises raw e :
  extract_answer raw = Raise e ->
  (e = TypeError /\
   exists v, json_loads raw = Ret v /\ forall pairs, v <> JObj pairs)
  \/ (limit_error e = true /\
      (json_loads raw = Raise e \/
       exists m, JSON_RE_search raw = Some m /\ json_loads m = Raise e)).
Proof.
  unfold extract_answer. intros H.
  destruct (decode_answer raw) as [a|e0] eqn:Efast; [discriminate|].
  destruct (caught e0) eqn:Hc.
  - destruct (JSON_RE_search raw) as [m|] eqn:Em; [|discriminate].
    destruct (JSON_RE_search_braced _ _ Em) as [body ->].
    destruct (decode_answer_braced body)
      as [[a Ha]|(e' & He & [Hc'|[Hl Hloads]])].
    + rewrite Ha in H. discriminate.
    + rewrite He, Hc' in H. discriminate.
    + rewrite He, (limit_error_not_caught _ Hl) in H. injection H as <-.
      right. split; [exact Hl|]. right. now exists (123 :: body).
  - injection H as <-.
    destruct (decode_answer_uncaught _ _ Efast Hc) as [Htype|[Hl Hloads]].
    + now left.
    + right. split; [exact Hl|]. now left.
Qed.

Lemma extract_answer_falls_through raw :
  (exists e, decode_answer raw = Raise e /\ caught e = true) ->
  (forall m, JSON_RE_search raw = Some m ->
             exists e, decode_answer m = Raise e /\ caught e = true) ->
  extract_answer raw = Ret None.
Proof.
  intros (e & He & Hc) Hfallback. unfold extract_answer.
  rewrite He, Hc.
  destruct (JSON_RE_search raw) as [m|] eqn:Em; [|reflexivity].
  destruct (Hfallback m eq_refl) as (e' & He' & Hc').
  now rewrite He', Hc'.
Qed.

Section ValidatorRuns.

Variable collaborator : nat -> request -> pystr.

(** [ask_identity_ai] calls the collaborator at most [max_retries] times
    (never for a bound of 0 or less), always with the same request, and
    leaves the session state as it was, whatever it returns or raises. *)
Theorem ask_identity_ai_call_bound :
  forall user_input who max_retries temp w,
    exists k,
      (k <= Z.to_nat max_retries)%nat /\
      (Z.of_nat k <= Z.max 0 max_retries)%Z /\
      snd (ask_identity_ai collaborator user_input who max_retries temp w)
      = with_calls w (repeat (ask_request user_input who temp) k).
Proof.
  intros user_input who max_retries temp w. unfold ask_identity_ai.
  destruct (ask_loop_calls collaborator (Z.to_nat max_retries)
              (ask_request user_input who temp) w) as (k & Hk & Hw).
  exists k. repeat split; [exact Hk | lia | exact Hw].
Qed.

(** An exception that leaves [ask_identity_ai] is [TypeError],
    [ValueError] or [RecursionError], never one of the two that the
    [except] clauses name.  It is [TypeError] because the stripped text of
    some attempt is a complete JSON document whose value is not an object;
    it is [ValueError] or [RecursionError] because [json.loads] raised it,
    on the stripped text of some attempt or on the first brace-delimited
    substring of this text. *)
Theorem ask_identity_ai_uncaught_exceptions :
  forall user_input who max_retries temp w e,
    fst (ask_identity_ai collaborator user_input who max_retries temp w)
    = Raise e ->
    exists i,
      (i < Z.to_nat max_retries)%nat /\
      let raw :=
        str_strip (collaborator (List.length (chat_calls w) + i)%nat
                     (ask_request user_input who temp)) in
      (e = TypeError /\
       exists v, json_loads raw = Ret v /\ forall pairs, v <> JObj pairs)
      \/ ((e = ValueError \/ e = RecursionError) /\
          (json_loads raw = Raise e \/
           exists m, JSON_RE_search raw = Some m /\ json_loads m = Raise e)).
Proof.
  intros user_input who max_retries temp w e H.
  unfold ask_identity_ai in H.
  pose proof (ask_loop_spec collaborator (Z.to_nat max_retries)
                (ask_request user_input who temp) w) as Hspec.
  destruct (ask_loop collaborator _ _ w) as [[[a|]|e'] w'];
    simpl in H; try discriminate.
  injection H as ->.
  destruct Hspec as (i & Hi & Ha & _ & _).
  exists i. split; [exact Hi|]. cbv zeta.
  unfold attempt in Ha.
  apply extract_answer_raises in Ha as [Htype|[Hl Hwhere]].
  - now left.
  - right. split; [now apply limit_error_cases | exact Hwhere].
Qed.

(** When every attempt fails in a way the [except] clauses catch (the
    stripped text raises [JSONDecodeError] or [ValidationError], and so
    does its first brace-delimited substring, if it has one),
    [ask_identity_ai] returns [None] after exactly [max_retries] calls. *)
Theorem ask_identity_ai_exhausts_retries :
  forall user_input who max_retries temp w,
    (forall j, (j < Z.to_nat max_retries)%nat ->
       let raw :=
         str_strip (collaborator (List.length (chat_calls w) + j)%nat
                      (ask_request user_input who temp)) in
       (exists e, decode_answer raw = Raise e /\ caught e = true) /\
       (forall m, JSON_RE_search raw = Some m ->
                  exists e, decode_answer m = Raise e /\ caught e = true))
    ->
    ask_identity_ai collaborator user_input who max_retries temp w
    = (Ret None,
       with_calls w (repeat (ask_request user_input who temp)
                       (Z.to_nat max_retries))).
Proof.
  intros user_input who max_retries temp w Hall.
  unfold ask_identity_ai. apply ask_loop_all_fail.
  intros j Hj. unfold attempt.
  destruct (Hall j Hj) as [Hfast Hfallback].
  now apply extract_answer_falls_through.
Qed.

(** [ask_identity_ai] returns the answer of the first attempt that gives
    one and stops calling right there, provided each earlier attempt
    failed in a way the [except] clauses catch: with the answer at attempt
    [i] (from 0) it has made [i + 1] calls. *)
Theorem ask_identity_ai_first_answer_wins :
  forall user_input who max_retries temp w i a,
    (i < Z.to_nat max_retries)%nat ->
    (forall j, (j < i)%nat ->
       extract_answer
         (str_strip (collaborator (List.length (chat_calls w) + j)%nat
                       (ask_request user_input who temp)))
       = Ret None) ->
    extract_answer
      (str_strip (collaborator (List.length (chat_calls w) + i)%nat
                    (ask_request user_input who temp)))
    = Ret (Some a) ->
    ask_identity_ai collaborator user_input who max_retries temp w
    = (Ret (Some a),
       with_calls w (repeat (ask_request user_input who temp) (S i))).
Proof.
  intros user_input who max_retries temp w i a Hi Hbefore Ha.
  unfold ask_identity_ai.
  now apply ask_loop_first_answer.
Qed.

End ValidatorRuns.

(* ===================================================================== *)
(** ** What strip and the substring test do *)
(* ===================================================================== *)

Lemma str_lstrip_split (s : pystr) :
  exists pre, s = pre ++ str_lstrip s /\ forallb isspace pre = true.
Proof.
  induction s as [|c r (pre & Hr & Hpre)]; simpl.
  - now exists [].
  - destruct (isspace c) eqn:E.
    + exists (c :: pre). simpl. rewrite E, Hpre. split; [|reflexivity].
      now rewrite <- Hr.
    + now exists [].
Qed.

Lemma str_lstrip_head (s : pystr) :
  match str_lstrip s with
  | [] => True
  | c :: _ => isspace c = false
  end.
Proof.
  induction s as [|c r IH]; simpl; [exact I|].
  destruct (isspace c) eqn:E; [exact IH | exact E].
Qed.

Lemma str_rstrip_split (s : pystr) :
  exists post, s = str_rstrip s ++ post /\ forallb isspace post = true.
Proof.
  unfold str_rstrip.
  destruct (str_lstrip_split (rev s)) as (pre & Hs & Hpre).
  exists (rev pre). split.
  - rewrite <- rev_app_distr, <- Hs. now rewrite rev_involutive.
  - rewrite forallb_forall in *. intros x Hx. apply Hpre.
    now apply in_rev.
Qed.

Lemma str_rstrip_last (s : pystr) (d : N) :
  str_rstrip s <> [] -> isspace (last (str_rstrip s) d) = false.
Proof.
  unfold str_rstrip. pose proof (str_lstrip_head (rev s)) as H.
  destruct (str_lstrip (rev s)) as [|c t]; [intros Hne; now elim Hne|].
  intros _. simpl. now rewrite last_last.
Qed.

(** [s.strip()] removes white space at both ends and nothing else. *)
Lemma str_strip_spec (s : pystr) :
  exists pre post,
    s = pre ++ str_strip s ++ post /\
    forallb isspace pre = true /\ forallb isspace post = true /\
    stripped (str_strip s).
Proof.
  unfold str_strip.
  destruct (str_lstrip_split s) as (pre & Hs & Hpre).
  destruct (str_rstrip_split (str_lstrip s)) as (post & Hx & Hpost).
  exists pre, post. repeat split; try assumption.
  - now rewrite <- Hx.
  - unfold stripped.
    pose proof (str_lstrip_head s) as Hhead.
    pose proof (str_rstrip_last (str_lstrip s)) as Hlast.
    destruct (str_rstrip (str_lstrip s)) as [|c t] eqn:E; [exact I|].
    split.
    + rewrite Hx in Hhead. exact Hhead.
    + apply Hlast. discriminate.
Qed.

Lemma startswith_app (a post : pystr) : startswith a (a ++ post) = true.
Proof.
  induction a as [|x a IH]; simpl; [reflexivity|].
  now rewrite N.eqb_refl, IH.
Qed.

Lemma startswith_inv (a b : pystr) :
  startswith a b = true -> exists post, b = a ++ post.
Proof.
  revert b. induction a as [|x a IH]; intros b H; simpl in H.
  - now exists b.
  - destruct b as [|y b]; [discriminate|].
    apply andb_true_iff in H as [Hxy Hrest].
    apply N.eqb_eq in Hxy. subst y.
    destruct (IH b Hrest) as [post ->]. now exists post.
Qed.

Lemma str_in_here (a b : pystr) :
  startswith a b = true -> str_in a b = true.
Proof.
  intros H. destruct b; simpl in *; now rewrite H.
Qed.

(** [a in b] holds exactly when [b] is some text, then [a], then some
    text. *)
Lemma str_in_iff (a b : pystr) :
  str_in a b = true <-> exists pre post, b = pre ++ a ++ post.
Proof.
  split.
  - induction b as [|y b IH]; simpl; intros H.
    + rewrite orb_false_r in H. apply startswith_inv in H as [post ->].
      now exists [], post.
    + apply orb_true_iff in H as [H|H].
      * apply startswith_inv in H as [post ->]. now exists [], post.
      * destruct (IH H) as (pre & post & ->). now exists (y :: pre), post.
  - intros (pre & post & ->). induction pre as [|y pre IH].
    + change ([] ++ a ++ post) with (a ++ post).
      apply str_in_here, startswith_app.
    + change ((y :: pre) ++ a ++ post) with (y :: (pre ++ a ++ post)).
      cbn [str_in]. rewrite IH. apply orb_true_r.
Qed.

(* ===================================================================== *)
(** ** More on generate_identity, reset_game, setup_game, init_state *)
(* ===================================================================== *)

(** The player's description reaches the collaborator only for the
    category Custom, and then verbatim, as part of the user message; for
    every other category the prompt is the same whatever the
    description. *)
Theorem custom_details_only_for_custom :
  (forall identity_type details details',
      identity_type <> py "Custom" ->
      identity_prompt identity_type details
      = identity_prompt identity_type details')
  /\ (forall details,
        exists prompt,
          identity_prompt (py "Custom") details = Some prompt /\
          str_in details prompt = true /\
          chat_messages (generate_request prompt)
          = [ (py "system", generator_system_prompt); (py "user", prompt) ]).
Proof.
  split.
  - intros identity_type details details' Hnot.
    unfold identity_prompt.
    rewrite (str_eqb_neq identity_type (py "Custom") Hnot).
    reflexivity.
  - intros details. eexists. split; [reflexivity|]. split; [|reflexivity].
    apply str_in_iff. eexists _, _. reflexivity.
Qed.

Section GeneratorRuns.

Variable collaborator : nat -> request -> pystr.

(** The identity that [generate_identity] returns for a recognized
    category is the third text of the collaborator with the white space at
    its two ends removed and nothing else changed: it neither starts nor
    ends with white space (it may be empty). *)
Theorem generate_identity_strips_only_whitespace :
  forall identity_type custom_details w,
    In identity_type identity_types ->
    exists prompt text pre post,
      identity_prompt identity_type custom_details = Some prompt /\
      fst (generate_identity collaborator identity_type custom_details w)
      = Ret (Some text) /\
      collaborator (List.length (chat_calls w) + 2)%nat
        (generate_request prompt)
      = pre ++ text ++ post /\
      forallb isspace pre = true /\ forallb isspace post = true /\
      stripped text.
Proof.
  intros identity_type custom_details w Hin.
  destruct (identity_prompt_recognized identity_type custom_details Hin)
    as [prompt Hp].
  rewrite (generate_identity_with_prompt _ _ _ prompt) by exact Hp.
  destruct (str_strip_spec
              (collaborator (List.length (chat_calls w) + 2)%nat
                 (generate_request prompt)))
    as (pre & post & Hs & Hpre & Hpost & Hstripped).
  eexists prompt, _, pre, post.
  split; [exact Hp|]. split; [reflexivity|].
  repeat split; assumption.
Qed.

(** What [reset_game] leaves behind, in one equation. *)
Lemma reset_game_outcome w :
  let tag := match identity_type (session_state w) with
             | Some t => t
             | None => py "Random Character"
             end in
  let details := match custom_details (session_state w) with
                 | Some d => d
                 | None => []
                 end in
  exists who,
    reset_game collaborator w
    = (Ret tt,
       {| session_state :=
            {| identity_type := identity_type (session_state w);
               custom_details := custom_details (session_state w);
               identity := Some who;
               question_count := Some 0%Z;
               game_over := Some false;
               setup_complete := Some true;
               messages := Some [ (py "System", welcome_message) ];
               last_answer := last_answer (session_state w) |};
          chat_calls :=
            chat_calls w
            ++ match identity_prompt tag details with
               | Some prompt => repeat (generate_request prompt) 3
               | None => []
               end |})
    /\ who <> [] /\ stripped who.
Proof.
  intros tag details.
  assert (Hfallback : py "Albert Einstein" <> []
                      /\ stripped (py "Albert Einstein"))
    by (split; [discriminate | vm_compute; auto]).
  assert (Hreset :
    forall new_identity reqs,
      generate_identity collaborator tag details w
      = (Ret new_identity, with_calls w reqs) ->
      reset_game collaborator w
      = (Ret tt,
         {| session_state :=
              {| identity_type := identity_type (session_state w);
                 custom_details := custom_details (session_state w);
                 identity := Some match new_identity with
                                  | Some (c :: text) => c :: text
                                  | _ => py "Albert Einstein"
                                  end;
                 question_count := Some 0%Z;
                 game_over := Some false;
                 setup_complete := Some true;
                 messages := Some [ (py "System", welcome_message) ];
                 last_answer := last_answer (session_state w) |};
            chat_calls := chat_calls w ++ reqs |})).
  { intros new_identity reqs Hrun. subst tag details.
    destruct w as [s calls].
    destruct s as [ty det idn cnt ov comp ms la].
    unfold reset_game, bind, session_get.
    cbv beta iota delta [session_state identity_type custom_details] in *.
    destruct ty, det; rewrite Hrun;
      destruct new_identity as [[|c text]|]; reflexivity. }
  destruct (identity_prompt tag details) as [prompt|] eqn:Hp.
  - pose proof (generate_identity_with_prompt collaborator tag details prompt
                  w Hp) as Hrun.
    destruct (str_strip_spec
                (collaborator (List.length (chat_calls w) + 2)%nat
                   (generate_request prompt)))
      as (_ & _ & _ & _ & _ & Hstripped).
    rewrite (Hreset _ _ Hrun).
    destruct (str_strip _) as [|c text].
    + exists (py "Albert Einstein"). split; [reflexivity | exact Hfallback].
    + exists (c :: text).
      split; [reflexivity | split; [discriminate | exact Hstripped]].
  - assert (Hrun : generate_identity collaborator tag details w
                   = (Ret None, with_calls w []))
      by (unfold generate_identity, with_calls; rewrite Hp, app_nil_r;
          now destruct w).
    rewrite (Hreset _ _ Hrun).
    exists (py "Albert Einstein"). split; [reflexivity | exact Hfallback].
Qed.

(** [reset_game] starts a fresh game whatever the session held: it returns
    normally with the counter at 0, the game not over, the set-up complete
    and the transcript made of the welcome message alone; the identity is
    not empty and has no white space at its ends; the stored category, the
    stored description and [last_answer] are kept.  When the stored
    category (Random Character if none is stored) is one of the five
    recognized ones, the collaborator was called exactly three times, each
    time with the request of this category's prompt; when it is not, the
    collaborator was not called at all. *)
Theorem reset_game_starts_fresh_game :
  forall w,
    let run := reset_game collaborator w in
    let s := session_state w in
    let s' := session_state (snd run) in
    let tag := match identity_type s with
               | Some t => t
               | None => py "Random Character"
               end in
    let details := match custom_details s with
                   | Some d => d
                   | None => []
                   end in
    fst run = Ret tt
    /\ question_count s' = Some 0%Z
    /\ game_over s' = Some false
    /\ setup_complete s' = Some true
    /\ messages s' = Some [ (py "System", welcome_message) ]
    /\ (exists who, identity s' = Some who /\ who <> [] /\ stripped who)
    /\ identity_type s' = identity_type s
    /\ custom_details s' = custom_details s
    /\ last_answer s' = last_answer s
    /\ (In tag identity_types ->
        exists prompt,
          identity_prompt tag details = Some prompt /\
          chat_calls (snd run)
          = chat_calls w ++ repeat (generate_request prompt) 3)
    /\ (~ In tag identity_types -> chat_calls (snd run) = chat_calls w).
Proof.
  intros w run s s' tag details. subst run s s'.
  destruct (reset_game_outcome w) as (who & -> & Hne & Hst).
  cbn [fst snd session_state chat_calls question_count game_over
       setup_complete messages identity identity_type custom_details
       last_answer].
  fold tag details.
  repeat split; eauto.
  - intros Hin.
    destruct (identity_prompt_recognized tag details Hin) as [prompt Hp].
    exists prompt. split; [exact Hp|]. now rewrite Hp.
  - intros Hnot.
    rewrite (identity_prompt_unrecognized tag details Hnot).
    apply app_nil_r.
Qed.

(** Setting up a game and resetting it asks the collaborator about the
    category just chosen, not about the one stored before: the three
    calls carry the prompt of the new category and description, which are
    the ones left in the session. *)
Theorem setup_then_reset_uses_new_category :
  forall tag details w,
    In tag identity_types ->
    exists prompt,
      identity_prompt tag details = Some prompt /\
      let run := (setup_game tag details ;; reset_game collaborator) w in
      fst run = Ret tt
      /\ chat_calls (snd run)
         = chat_calls w ++ repeat (generate_request prompt) 3
      /\ identity_type (session_state (snd run)) = Some tag
      /\ custom_details (session_state (snd run)) = Some details.
Proof.
  intros tag details w Hin.
  destruct (identity_prompt_recognized tag details Hin) as [prompt Hp].
  exists prompt. split; [exact Hp|].
  unfold setup_game, bind, assign. cbn [session_state chat_calls].
  destruct (reset_game_outcome
              {| session_state :=
                   set_custom_details details
                     (set_identity_type tag (session_state w));
                 chat_calls := chat_calls w |})
    as (who & -> & _ & _).
  cbn [fst snd session_state chat_calls identity_type
       custom_details set_custom_details set_identity_type].
  rewrite Hp. repeat split.
Qed.

End GeneratorRuns.

(* ===================================================================== *)
(** ** Every way a turn can go *)
(* ===================================================================== *)

Section TurnOutcomes.

Variable str_lower : pystr -> pystr.
Variable collaborator : nat -> request -> pystr.

(** [ask_identity_ai] only adds calls to the world, and [TypeError],
    [ValueError] and [RecursionError] are the only exceptions it lets
    through. *)
Lemma ask_identity_ai_shape user_input who retries temp w :
  exists reqs,
    snd (ask_identity_ai collaborator user_input who retries temp w)
    = with_calls w reqs
    /\ forall e,
         fst (ask_identity_ai collaborator user_input who retries temp w)
         = Raise e ->
         e = TypeError \/ e = ValueError \/ e = RecursionError.
Proof.
  unfold ask_identity_ai.
  pose proof (ask_loop_spec collaborator (Z.to_nat retries)
                (ask_request user_input who temp) w) as Hspec.
  destruct (ask_loop collaborator _ _ w) as [[[a|]|e] w'].
  - destruct Hspec as (i & _ & _ & _ & ->). eexists. split; [reflexivity|].
    intros e H. discriminate.
  - destruct Hspec as (_ & ->). eexists. split; [reflexivity|].
    intros e H. discriminate.
  - destruct Hspec as (i & _ & Ha & _ & ->). eexists. split; [reflexivity|].
    intros e' H. injection H as <-.
    unfold attempt in Ha.
    apply extract_answer_raises in Ha as [[-> _]|[Hl _]]; [now left|].
    right. now apply limit_error_cases.
Qed.

(** The turn, path by path. *)
Lemma play_turn_outcome prompt w transcript who count over :
  messages (session_state w) = Some transcript ->
  identity (session_state w) = Some who ->
  question_count (session_state w) = Some count ->
  game_over (session_state w) = Some over ->
  let run := ask_identity_ai collaborator prompt who
               default_max_retries default_temperature w in
  let s := session_state w in
  let you := (py "You", prompt) in
  play_turn str_lower collaborator prompt w
  = match fst run with
    | Raise e =>
        (Raise e, with_session (snd run) (set_messages (transcript ++ [you]) s))
    | Ret answer =>
        match apply_overrides str_lower who prompt answer with
        | None =>
            (Raise StopException,
             with_session (snd run)
               (set_messages
                  (transcript ++ [ you; (py "System", invalid_json_message) ])
                  s))
        | Some a =>
            if is_correct_guess a then
              (Raise RerunException,
               with_session (snd run)
                 (set_game_over true
                    (set_messages
                       (transcript
                        ++ [ you; (py "AI", response a);
                             (py "System", end_message who (count + 1)) ])
                       (set_question_count (count + 1) s))))
            else if over then
              (Raise RerunException,
               with_session (snd run)
                 (set_messages (transcript ++ [ you; (py "AI", response a) ])
                    s))
            else if is_question a then
              (Raise RerunException,
               with_session (snd run)
                 (set_last_answer a
                    (set_question_count (count + 1)
                       (set_messages
                          (transcript ++ [ you; (py "AI", response a) ]) s))))
            else
              (Ret tt,
               with_session (snd run)
                 (set_messages (transcript ++ [ you; (py "AI", response a) ])
                    s))
        end
    end.
Proof.
  destruct w as [s calls].
  destruct s as [ty details idn cnt ov complete ms last].
  simpl. intros -> -> -> ->.
  unfold play_turn, bind at 1 2 3.
  unfold messages_append at 1, bind at 1, attr at 1, assign at 1.
  cbn [session_state messages set_messages chat_calls identity].
  unfold attr at 1. cbn [session_state identity set_messages].
  rewrite (ask_identity_ai_session collaborator prompt who _ _
             {| identity_type := ty; custom_details := details;
                identity := Some who; question_count := Some count;
                game_over := Some over; setup_complete := complete;
                messages := Some transcript; last_answer := last |}).
  cbv zeta.
  destruct (ask_identity_ai collaborator prompt who _ _ _) as [r w2].
  cbn [fst snd].
  destruct r as [answer|e]; [|reflexivity].
  destruct (apply_overrides str_lower who prompt answer) as [a|].
  - unfold messages_append, bind, attr, assign, when, st_rerun, raise, ret.
    cbn [session_state messages set_messages chat_calls question_count
         set_question_count identity game_over set_game_over
         set_last_answer].
    destruct (is_correct_guess a).
    + cbn [session_state messages set_messages chat_calls question_count
           set_question_count identity game_over set_game_over
           set_last_answer with_session].
      now rewrite <- !app_assoc.
    + destruct over.
      * unfold with_session. cbn. now rewrite <- !app_assoc.
      * destruct (is_question a); unfold with_session; cbn;
          now rewrite <- !app_assoc.
  - unfold messages_append, bind, attr, assign, st_stop, raise.
    cbn [session_state messages set_messages chat_calls with_session].
    now rewrite <- !app_assoc.
Qed.

(** A correct guess ends the game whatever else holds: when the answer
    after the overrides is a correct guess (the model said so, or the input
    holds the identity), the counter goes up by exactly 1, the game is
    over, and the transcript gains the player's entry, the AI's reply and
    the end message that names the identity and the new count; the run
    ends in a rerun.  This is so even when the game was over already. *)
Theorem correct_guess_ends_game :
  forall prompt w transcript who count over a,
    messages (session_state w) = Some transcript ->
    identity (session_state w) = Some who ->
    question_count (session_state w) = Some count ->
    game_over (session_state w) = Some over ->
    fst (ask_identity_ai collaborator prompt who
           default_max_retries default_temperature w) = Ret (Some a) ->
    is_correct_guess a = true
    \/ str_in (str_lower who) (str_lower prompt) = true ->
    exists reply,
      let run := play_turn str_lower collaborator prompt w in
      let s' := session_state (snd run) in
      fst run = Raise RerunException
      /\ question_count s' = Some (count + 1)%Z
      /\ game_over s' = Some true
      /\ messages s'
         = Some (transcript
                 ++ [ (py "You", prompt); (py "AI", reply);
                      (py "System", end_message who (count + 1)) ])
      /\ (str_in (str_lower who) (str_lower prompt) = true ->
          reply = py "Yes!")
      /\ last_answer s' = last_answer (session_state w).
Proof.
  intros prompt w transcript who count over a Hms Hwho Hcount Hover Hask Hguess.
  rewrite (play_turn_outcome prompt w transcript who count over)
    by assumption.
  cbv zeta. rewrite Hask.
  assert (Hov : exists a',
             apply_overrides str_lower who prompt (Some a) = Some a'
             /\ is_correct_guess a' = true
             /\ (str_in (str_lower who) (str_lower prompt) = true ->
                 response a' = py "Yes!")).
  { unfold apply_overrides, override_yes_no, override_identity.
    destruct (str_in_list _ _);
      destruct (str_in (str_lower who) (str_lower prompt)) eqn:Hin;
      eexists; (split; [reflexivity|]); simpl; split;
      try reflexivity; try discriminate;
      destruct Hguess; congruence. }
  destruct Hov as (a' & -> & Hg & Hyes). rewrite Hg.
  exists (response a').
  cbn [fst snd session_state with_session question_count game_over messages
       last_answer set_game_over set_messages set_question_count].
  repeat split. exact Hyes.
Qed.

(** An input that is neither a question of the game nor a correct guess
    costs nothing: while the game is not over, if the answer after the
    overrides has both flags false, the run ends normally, without a
    rerun, the counter and [last_answer] are unchanged, and the transcript
    gains the player's entry and the AI's reply. *)
Theorem turn_without_question_is_free :
  forall prompt w transcript who count a a',
    messages (session_state w) = Some transcript ->
    identity (session_state w) = Some who ->
    question_count (session_state w) = Some count ->
    game_over (session_state w) = Some false ->
    fst (ask_identity_ai collaborator prompt who
           default_max_retries default_temperature w) = Ret (Some a) ->
    apply_overrides str_lower who prompt (Some a) = Some a' ->
    is_correct_guess a' = false ->
    is_question a' = false ->
    let run := play_turn str_lower collaborator prompt w in
    let s' := session_state (snd run) in
    fst run = Ret tt
    /\ s' = set_messages
              (transcript ++ [ (py "You", prompt); (py "AI", response a') ])
              (session_state w).
Proof.
  intros prompt w transcript who count a a' Hms Hwho Hcount Hover Hask Hov
    Hg Hq.
  rewrite (play_turn_outcome prompt w transcript who count false)
    by assumption.
  cbv zeta. rewrite Hask, Hov, Hg, Hq. split; reflexivity.
Qed.

(** Once the game is over the counter is frozen for anything but a correct
    guess: the answer is still fetched and shown (two more entries in the
    transcript), but the run is restarted before the counter is touched,
    also for a question of the game. *)
Theorem turn_after_game_over_is_not_counted :
  forall prompt w transcript who count a a',
    messages (session_state w) = Some transcript ->
    identity (session_state w) = Some who ->
    question_count (session_state w) = Some count ->
    game_over (session_state w) = Some true ->
    fst (ask_identity_ai collaborator prompt who
           default_max_retries default_temperature w) = Ret (Some a) ->
    apply_overrides str_lower who prompt (Some a) = Some a' ->
    is_correct_guess a' = false ->
    let run := play_turn str_lower collaborator prompt w in
    let s' := session_state (snd run) in
    fst run = Raise RerunException
    /\ s' = set_messages
              (transcript ++ [ (py "You", prompt); (py "AI", response a') ])
              (session_state w).
Proof.
  intros prompt w transcript who count a a' Hms Hwho Hcount Hover Hask Hov Hg.
  rewrite (play_turn_outcome prompt w transcript who count true)
    by assumption.
  cbv zeta. rewrite Hask, Hov, Hg. split; reflexivity.
Qed.

(** When [ask_identity_ai] raises (which it does with [TypeError],
    [ValueError] or [RecursionError] only), the exception leaves the turn
    as it is, after the player's entry was added to the transcript: no
    reply and no error message follow it, and nothing else of the session
    changes. *)
Theorem turn_exception_leaves_unanswered_entry :
  forall prompt w transcript who e,
    messages (session_state w) = Some transcript ->
    identity (session_state w) = Some who ->
    fst (ask_identity_ai collaborator prompt who
           default_max_retries default_temperature w) = Raise e ->
    let run := play_turn str_lower collaborator prompt w in
    fst run = Raise e
    /\ (e = TypeError \/ e = ValueError \/ e = RecursionError)
    /\ session_state (snd run)
       = set_messages (transcript ++ [ (py "You", prompt) ])
           (session_state w).
Proof.
  intros prompt [s calls] transcript who e Hms Hwho Hask.
  destruct (ask_identity_ai_shape prompt who default_max_retries
              default_temperature {| session_state := s; chat_calls := calls |})
    as (reqs & _ & Htype).
  pose proof (Htype e Hask) as Hwhich.
  destruct s as [ty details idn cnt ov complete ms last].
  simpl in Hms, Hwho. subst ms idn.
  destruct (ask_identity_ai collaborator prompt who default_max_retries
              default_temperature _) as [r w2] eqn:Erun.
  simpl in Hask. subst r.
  assert (Hrun :
    play_turn str_lower collaborator prompt
      {| session_state :=
           {| identity_type := ty; custom_details := details;
              identity := Some who; question_count := cnt;
              game_over := ov; setup_complete := complete;
              messages := Some transcript; last_answer := last |};
         chat_calls := calls |}
    = (Raise e,
       {| session_state :=
            {| identity_type := ty; custom_details := details;
               identity := Some who; question_count := cnt;
               game_over := ov; setup_complete := complete;
               messages := Some (transcript ++ [ (py "You", prompt) ]);
               last_answer := last |};
          chat_calls := chat_calls w2 |})).
  { unfold play_turn, bind at 1 2 3.
    unfold messages_append at 1, bind at 1, attr at 1, assign at 1.
    cbn [session_state messages set_messages chat_calls identity].
    unfold attr at 1. cbn [session_state identity set_messages].
    rewrite (ask_identity_ai_session collaborator prompt who _ _
               {| identity_type := ty; custom_details := details;
                  identity := Some who; question_count := cnt;
                  game_over := ov; setup_complete := complete;
                  messages := Some transcript; last_answer := last |}).
    rewrite Erun. reflexivity. }
  cbv zeta. rewrite Hrun. split; [reflexivity|]. split; [exact Hwhich|].
  reflexivity.
Qed.

(** A turn on a session without a transcript, or without an identity,
    raises [AttributeError] before the collaborator is called. *)
Theorem turn_needs_transcript_and_identity :
  forall prompt w,
    messages (session_state w) = None
    \/ identity (session_state w) = None ->
    let run := play_turn str_lower collaborator prompt w in
    fst run = Raise AttributeError
    /\ chat_calls (snd run) = chat_calls w.
Proof.
  intros prompt [s calls] H.
  destruct s as [ty details idn cnt ov complete ms last].
  simpl in H.
  unfold play_turn, bind, messages_append, attr, assign.
  cbn [session_state messages identity chat_calls].
  destruct ms as [transcript|].
  - destruct H as [H|H]; [discriminate|]. subst idn.
    cbn [session_state set_messages identity]. split; reflexivity.
  - split; reflexivity.
Qed.

End TurnOutcomes.

(* ===================================================================== *)
(** ** init_state and the screens of main *)
(* ===================================================================== *)

Lemma bind_returned {A B : Type} (m : M A) (k : A -> M B) w a w1 :
  m w = (Ret a, w1) -> bind m k w = k a w1.
Proof.
  intros H. unfold bind. now rewrite H.
Qed.

Section Screens.

Variable str_lower : pystr -> pystr.
Variable collaborator : nat -> request -> pystr.

(** [init_state], case by case. *)
Lemma init_state_cases w :
  init_state collaborator w
  = match setup_complete (session_state w) with
    | None =>
        (Ret tt, with_session w (set_setup_complete false (session_state w)))
    | Some false => (Ret tt, w)
    | Some true =>
        match messages (session_state w) with
        | Some _ => (Ret tt, w)
        | None => reset_game collaborator w
        end
    end.
Proof.
  destruct w as [s calls].
  destruct s as [ty details idn cnt ov complete ms last].
  unfold init_state, bind, session_has, session_get, when, assign, ret.
  cbn [session_state setup_complete messages set_setup_complete negb
       with_session chat_calls].
  destruct complete as [[|]|]; destruct ms; reflexivity.
Qed.

(** [init_state] always returns, leaves [setup_complete] set, does nothing
    when run a second time, and calls the collaborator only for a session
    whose set-up is complete but that has no transcript (which it then
    resets). *)
Theorem init_state_settles :
  forall w,
    let run := init_state collaborator w in
    fst run = Ret tt
    /\ setup_complete (session_state (snd run)) <> None
    /\ init_state collaborator (snd run) = (Ret tt, snd run)
    /\ (setup_complete (session_state w) <> Some true
        \/ messages (session_state w) <> None ->
        chat_calls (snd run) = chat_calls w
        /\ (setup_complete (session_state w) <> None -> snd run = w)).
Proof.
  intros w. cbv zeta.
  destruct (setup_complete (session_state w)) as [[|]|] eqn:Hc;
    [destruct (messages (session_state w)) as [ms|] eqn:Hm | | ].
  - assert (H : init_state collaborator w = (Ret tt, w))
      by (now rewrite init_state_cases, Hc, Hm).
    rewrite H. cbn [fst snd]. rewrite H, Hc.
    repeat split; try reflexivity; discriminate.
  - destruct (reset_game_outcome collaborator w) as (who & Hrun & _).
    cbv zeta in Hrun.
    assert (H : init_state collaborator w
                = (Ret tt, snd (reset_game collaborator w)))
      by (now rewrite init_state_cases, Hc, Hm, Hrun).
    rewrite H, Hrun. cbn [fst snd session_state setup_complete].
    rewrite init_state_cases. cbn [session_state setup_complete messages].
    repeat split; try discriminate;
      destruct H0 as [H0|H0]; now elim H0.
  - assert (H : init_state collaborator w = (Ret tt, w))
      by (now rewrite init_state_cases, Hc).
    rewrite H. cbn [fst snd]. rewrite H, Hc.
    repeat split; try reflexivity; discriminate.
  - assert (H : init_state collaborator w
                = (Ret tt,
                   with_session w
                     (set_setup_complete false (session_state w))))
      by (now rewrite init_state_cases, Hc).
    rewrite H. cbn [fst snd with_session session_state chat_calls
                    set_setup_complete setup_complete].
    rewrite init_state_cases.
    cbn [session_state set_setup_complete setup_complete with_session].
    repeat split; try discriminate. intros H1. now elim H1.
Qed.

(** [main] while the set-up is not complete. *)
Lemma main_at_setup widgets w :
  setup_complete (session_state w) <> Some true ->
  let s0 := match setup_complete (session_state w) with
            | None => set_setup_complete false (session_state w)
            | Some _ => session_state w
            end in
  let tag := selectbox_identity_type widgets in
  let details := if str_eqb tag (py "Custom")
                 then text_area_custom_details widgets else [] in
  main str_lower collaborator widgets w
  = if button_start_game widgets
    then (Raise RerunException,
          snd (reset_game collaborator
                 (with_session w
                    (set_custom_details details (set_identity_type tag s0)))))
    else (Raise StopException, with_session w s0).
Proof.
  destruct w as [s calls].
  intros Hnot s0 tag details.
  change (session_state {| session_state := s; chat_calls := calls |})
    with s in *.
  assert (Hinit : init_state collaborator
                    {| session_state := s; chat_calls := calls |}
                  = (Ret tt, {| session_state := s0; chat_calls := calls |})).
  { rewrite init_state_cases. subst s0. cbn [session_state].
    destruct (setup_complete s) as [[|]|];
      [now elim Hnot | reflexivity | reflexivity]. }
  assert (Hc : setup_complete s0 = Some false).
  { subst s0. destruct (setup_complete s) as [[|]|] eqn:E;
      [now elim Hnot | exact E | reflexivity]. }
  destruct (reset_game_outcome collaborator
              {| session_state :=
                   set_custom_details details (set_identity_type tag s0);
                 chat_calls := calls |}) as (who & Hrun & _).
  cbv zeta in Hrun.
  unfold main. rewrite (bind_returned _ _ _ _ _ Hinit).
  unfold bind at 1, session_get at 1.
  cbv beta iota delta [session_state]. rewrite Hc.
  cbn [negb when]. unfold bind at 1.
  destruct (button_start_game widgets).
  - cbn [when]. unfold setup_game, bind, assign, st_rerun, st_stop, raise.
    cbv beta iota delta [with_session session_state chat_calls].
    fold tag. fold details.
    cbv beta iota delta [with_session session_state chat_calls] in Hrun.
    rewrite Hrun. reflexivity.
  - reflexivity.
Qed.

(** [main] on a session whose set-up is complete but that has no
    transcript: the game is reset, and the run goes on from there. *)
Lemma main_reinit widgets w :
  setup_complete (session_state w) = Some true ->
  messages (session_state w) = None ->
  main str_lower collaborator widgets w
  = main str_lower collaborator widgets (snd (reset_game collaborator w)).
Proof.
  intros Hc Hm.
  destruct (reset_game_outcome collaborator w) as (who & Hrun & _).
  cbv zeta in Hrun.
  assert (H1 : init_state collaborator w
               = (Ret tt, snd (reset_game collaborator w))).
  { rewrite init_state_cases, Hc, Hm, Hrun. reflexivity. }
  assert (H2 : init_state collaborator (snd (reset_game collaborator w))
               = (Ret tt, snd (reset_game collaborator w))).
  { rewrite init_state_cases, Hrun. reflexivity. }
  unfold main.
  now rewrite (bind_returned _ _ _ _ _ H1), (bind_returned _ _ _ _ _ H2).
Qed.

(** [main] on a game that is set up, button by button. *)
Lemma main_in_game widgets w transcript who count over :
  setup_complete (session_state w) = Some true ->
  messages (session_state w) = Some transcript ->
  identity (session_state w) = Some who ->
  question_count (session_state w) = Some count ->
  game_over (session_state w) = Some over ->
  main str_lower collaborator widgets w
  = if button_give_up widgets then
      (Raise RerunException,
       with_session w
         (set_game_over true
            (set_messages
               (transcript ++ [ (py "System", give_up_message who) ])
               (session_state w))))
    else if over && button_restart widgets then
      (Raise RerunException, snd (reset_game collaborator w))
    else if over && button_new_game_setup widgets then
      (Raise RerunException,
       with_session w (set_setup_complete false (session_state w)))
    else
      match chat_input widgets with
      | None | Some [] => (Raise StopException, w)
      | Some (c :: text) => play_turn str_lower collaborator (c :: text) w
      end.
Proof.
  intros Hc Hm Hwho Hcount Hover.
  assert (Hinit : init_state collaborator w = (Ret tt, w))
    by now rewrite init_state_cases, Hc, Hm.
  destruct (reset_game_outcome collaborator w) as (fresh & Hreset & _).
  cbv zeta in Hreset.
  unfold main. rewrite (bind_returned _ _ _ _ _ Hinit).
  destruct w as [s calls].
  destruct s as [ty details idn cnt ov complete ms last].
  simpl in Hc, Hm, Hwho, Hcount, Hover. subst complete ms idn cnt ov.
  unfold bind at 1, session_get at 1.
  cbn [session_state setup_complete negb when].
  unfold bind at 1, ret at 1. unfold bind at 1, attr at 1.
  cbn [session_state question_count].
  unfold bind at 1.
  destruct (button_give_up widgets).
  - unfold when, bind, attr, messages_append, assign, st_rerun, raise.
    cbn [session_state identity messages set_messages chat_calls].
    reflexivity.
  - cbn [when]. unfold ret at 1.
    unfold bind at 1, attr at 1. cbn [session_state messages].
    unfold bind at 1, attr at 1. cbn [session_state game_over].
    unfold bind at 1.
    destruct over.
    + cbn [when andb]. unfold bind at 1, attr at 1.
      cbn [session_state question_count]. unfold bind at 1.
      destruct (button_restart widgets).
      * cbn [when]. unfold bind at 1. rewrite Hreset.
        unfold st_rerun, raise. reflexivity.
      * cbn [when]. unfold ret at 1.
        destruct (button_new_game_setup widgets).
        -- cbn [when]. unfold bind, assign, st_rerun, raise. reflexivity.
        -- cbn [when]. unfold ret at 1.
           destruct (chat_input widgets) as [[|c text]|]; reflexivity.
    + cbn [when andb]. unfold ret at 1.
      destruct (chat_input widgets) as [[|c text]|]; reflexivity.
Qed.

End Screens.

(* ===================================================================== *)
(** ** The buttons of main *)
(* ===================================================================== *)

Section Buttons.

Variable str_lower : pystr -> pystr.
Variable collaborator : nat -> request -> pystr.

(** Before a game is set up, a run without the Start button does nothing
    but record that the set-up is not complete: it stops at the set-up
    screen, a text typed into the chat input is dropped, the other buttons
    are not looked at, and the collaborator is not called. *)
Theorem setup_screen_waits_for_start :
  forall widgets w,
    setup_complete (session_state w) <> Some true ->
    button_start_game widgets = false ->
    main str_lower collaborator widgets w
    = (Raise StopException,
       with_session w
         match setup_complete (session_state w) with
         | None => set_setup_complete false (session_state w)
         | Some _ => session_state w
         end).
Proof.
  intros widgets w Hnot Hstart.
  rewrite main_at_setup by exact Hnot.
  cbv zeta. now rewrite Hstart.
Qed.

(** The Start button stores the selected category and starts a fresh game
    on it, then asks for a rerun.  The description of the text area is
    stored only for the category Custom; for any other category the empty
    description is stored, whatever the text area holds. *)
Theorem start_game_stores_choice :
  forall widgets w,
    setup_complete (session_state w) <> Some true ->
    button_start_game widgets = true ->
    let run := main str_lower collaborator widgets w in
    let s' := session_state (snd run) in
    fst run = Raise RerunException
    /\ identity_type s' = Some (selectbox_identity_type widgets)
    /\ custom_details s'
       = Some (if str_eqb (selectbox_identity_type widgets) (py "Custom")
               then text_area_custom_details widgets else [])
    /\ setup_complete s' = Some true
    /\ question_count s' = Some 0%Z
    /\ game_over s' = Some false
    /\ messages s' = Some [ (py "System", welcome_message) ]
    /\ exists who, identity s' = Some who /\ who <> [].
Proof.
  intros widgets w Hnot Hstart.
  rewrite main_at_setup by exact Hnot.
  cbv zeta. rewrite Hstart.
  destruct (reset_game_outcome collaborator
              (with_session w
                 (set_custom_details
                    (if str_eqb (selectbox_identity_type widgets) (py "Custom")
                     then text_area_custom_details widgets else [])
                    (set_identity_type (selectbox_identity_type widgets)
                       match setup_complete (session_state w) with
                       | None => set_setup_complete false (session_state w)
                       | Some _ => session_state w
                       end))))
    as (who & Hrun & Hne & _).
  cbv zeta in Hrun. rewrite Hrun.
  cbn [fst snd session_state with_session identity_type custom_details
       setup_complete question_count game_over messages identity
       set_custom_details set_identity_type].
  repeat split. now exists who.
Qed.

(** The Give Up button, in a game that is set up: the transcript gains the
    one System message that names the identity, the game is over, the
    counter is unchanged and the collaborator is not called; a text typed
    in the same run is dropped, and so are the two end-of-game buttons. *)
Theorem give_up_reveals_identity :
  forall widgets w transcript who count over,
    setup_complete (session_state w) = Some true ->
    messages (session_state w) = Some transcript ->
    identity (session_state w) = Some who ->
    question_count (session_state w) = Some count ->
    game_over (session_state w) = Some over ->
    button_give_up widgets = true ->
    main str_lower collaborator widgets w
    = (Raise RerunException,
       with_session w
         (set_game_over true
            (set_messages
               (transcript
                ++ [ (py "System",
                      py "You gave up. The identity was **" ++ who
                      ++ py "**.") ])
               (session_state w)))).
Proof.
  intros widgets w transcript who count over Hc Hm Hwho Hcount Hover Hgive.
  rewrite (main_in_game str_lower collaborator widgets w transcript who
             count over) by assumption.
  now rewrite Hgive.
Qed.

(** The Restart button works once the game is over: the game is reset
    (same stored category and description, new identity, counter 0, fresh
    transcript) and a rerun is asked for; a text typed in the same run and
    the New Game Setup button are dropped. *)
Theorem restart_resets_the_game :
  forall widgets w transcript who count,
    setup_complete (session_state w) = Some true ->
    messages (session_state w) = Some transcript ->
    identity (session_state w) = Some who ->
    question_count (session_state w) = Some count ->
    game_over (session_state w) = Some true ->
    button_give_up widgets = false ->
    button_restart widgets = true ->
    main str_lower collaborator widgets w
    = (Raise RerunException, snd (reset_game collaborator w)).
Proof.
  intros widgets w transcript who count Hc Hm Hwho Hcount Hover Hgive Hre.
  rewrite (main_in_game str_lower collaborator widgets w transcript who
             count true) by assumption.
  now rewrite Hgive, Hre.
Qed.

(** The New Game Setup button, once the game is over, only marks the
    set-up as not complete (identity, counter and transcript stay in the
    session) and asks for a rerun; the next run then stops at the set-up
    screen without reading the chat input, unless Start is pressed. *)
Theorem new_game_setup_returns_to_setup_screen :
  forall widgets next w transcript who count,
    setup_complete (session_state w) = Some true ->
    messages (session_state w) = Some transcript ->
    identity (session_state w) = Some who ->
    question_count (session_state w) = Some count ->
    game_over (session_state w) = Some true ->
    button_give_up widgets = false ->
    button_restart widgets = false ->
    button_new_game_setup widgets = true ->
    button_start_game next = false ->
    let w' := with_session w (set_setup_complete false (session_state w)) in
    main str_lower collaborator widgets w = (Raise RerunException, w')
    /\ main str_lower collaborator next w' = (Raise StopException, w').
Proof.
  intros widgets next w transcript who count Hc Hm Hwho Hcount Hover
    Hgive Hre Hnew Hstart w'.
  split.
  - rewrite (main_in_game str_lower collaborator widgets w transcript who
               count true) by assumption.
    now rewrite Hgive, Hre, Hnew.
  - rewrite main_at_setup by (subst w'; discriminate).
    cbv zeta. rewrite Hstart. subst w'. reflexivity.
Qed.

(** While the game is not over, the two end-of-game buttons are not read:
    the run is the same whatever they hold. *)
Lemma end_buttons_ignored_during_game :
  forall widgets w transcript who count restart new_setup,
    setup_complete (session_state w) = Some true ->
    messages (session_state w) = Some transcript ->
    identity (session_state w) = Some who ->
    question_count (session_state w) = Some count ->
    game_over (session_state w) = Some false ->
    main str_lower collaborator widgets w
    = main str_lower collaborator
        {| selectbox_identity_type := selectbox_identity_type widgets;
           text_area_custom_details := text_area_custom_details widgets;
           button_start_game := button_start_game widgets;
           button_give_up := button_give_up widgets;
           button_restart := restart;
           button_new_game_setup := new_setup;
           chat_input := chat_input widgets |} w.
Proof.
  intros widgets w transcript who count restart new_setup Hc Hm Hwho Hcount
    Hover.
  rewrite !(main_in_game str_lower collaborator _ w transcript who
              count false) by assumption.
  reflexivity.
Qed.

(** A run in which nothing is pressed and nothing typed (or the empty text
    is submitted) changes nothing, in a game that is set up: it stops with
    the world as it was. *)
Theorem idle_run_changes_nothing :
  forall widgets w transcript who count over,
    setup_complete (session_state w) = Some true ->
    messages (session_state w) = Some transcript ->
    identity (session_state w) = Some who ->
    question_count (session_state w) = Some count ->
    game_over (session_state w) = Some over ->
    button_give_up widgets = false ->
    button_restart widgets = false ->
    button_new_game_setup widgets = false ->
    chat_input widgets = None \/ chat_input widgets = Some [] ->
    main str_lower collaborator widgets w = (Raise StopException, w).
Proof.
  intros widgets w transcript who count over Hc Hm Hwho Hcount Hover
    Hgive Hre Hnew Hinput.
  rewrite (main_in_game str_lower collaborator widgets w transcript who
             count over) by assumption.
  rewrite Hgive, Hre, Hnew, !andb_false_r.
  destruct Hinput as [-> | ->]; reflexivity.
Qed.

End Buttons.

(* ===================================================================== *)
(** ** What every run of the script keeps *)
(* ===================================================================== *)

Lemma player_entries_app (a b : list (pystr * pystr)) :
  player_entries (a ++ b) = (player_entries a + player_entries b)%nat.
Proof.
  unfold player_entries. now rewrite filter_app, length_app.
Qed.

(** A started game stays one when entries are added to the transcript and
    the counter does not grow by more than the player entries among
    them. *)
Lemma game_started_extend s' who count rest extra count' over' :
  who <> [] ->
  (0 <= count <= Z.of_nat (player_entries rest))%Z ->
  identity s' = Some who ->
  question_count s' = Some count' ->
  (0 <= count' <= count + Z.of_nat (player_entries extra))%Z ->
  game_over s' = Some over' ->
  messages s' = Some ((py "System", welcome_message) :: rest ++ extra) ->
  game_started s'.
Proof.
  intros Hne Hcount Hwho Hc' Hbound Hover Hms.
  exists who, count', over', (rest ++ extra).
  repeat split; try assumption; try lia.
  rewrite player_entries_app. lia.
Qed.

Section Invariant.

Variable str_lower : pystr -> pystr.
Variable collaborator : nat -> request -> pystr.

Lemma reset_game_started w :
  game_started (session_state (snd (reset_game collaborator w)))
  /\ setup_complete (session_state (snd (reset_game collaborator w)))
     = Some true
  /\ question_count (session_state (snd (reset_game collaborator w)))
     = Some 0%Z
  /\ messages (session_state (snd (reset_game collaborator w)))
     = Some [ (py "System", welcome_message) ].
Proof.
  destruct (reset_game_outcome collaborator w) as (who & Hrun & Hne & _).
  cbv zeta in Hrun. rewrite Hrun. cbn [snd session_state].
  repeat split.
  exists who, 0%Z, false, []. repeat split; try assumption; simpl; lia.
Qed.

(** One run on a game that is set up: how it ends, and what it does to the
    counter and to the transcript. *)
Lemma main_in_game_step widgets w who count over rest :
  setup_complete (session_state w) = Some true ->
  identity (session_state w) = Some who ->
  who <> [] ->
  question_count (session_state w) = Some count ->
  (0 <= count <= Z.of_nat (player_entries rest))%Z ->
  game_over (session_state w) = Some over ->
  messages (session_state w)
  = Some ((py "System", welcome_message) :: rest) ->
  let run := main str_lower collaborator widgets w in
  let s' := session_state (snd run) in
  run_ends_well (fst run)
  /\ game_started s'
  /\ ((question_count s' = Some 0%Z
       /\ messages s' = Some [ (py "System", welcome_message) ])
      \/ exists count' extra,
           question_count s' = Some count'
           /\ (count' = count \/ count' = (count + 1)%Z)
           /\ messages s'
              = Some ((py "System", welcome_message) :: rest ++ extra)
           /\ (List.length extra <= 3)%nat
           /\ identity s' = Some who).
Proof.
  intros Hc Hwho Hne Hcount Hbound Hover Hms. cbv zeta.
  rewrite (main_in_game str_lower collaborator widgets w
             ((py "System", welcome_message) :: rest) who count over)
    by assumption.
  destruct (button_give_up widgets).
  { (* give up *)
    cbn [fst snd session_state with_session].
    split; [unfold run_ends_well; tauto|].
    destruct w as [s calls]. destruct s as [ty det idn cnt ov comp ms la].
    simpl in Hc, Hwho, Hcount, Hover, Hms. subst.
    cbn [session_state set_game_over set_messages question_count messages
         identity game_over].
    split.
    - eapply (game_started_extend _ who count rest
                [ (py "System", give_up_message who) ]);
        try eassumption; try reflexivity. simpl. lia.
    - right. exists count, [ (py "System", give_up_message who) ].
      repeat split; auto; simpl; lia. }
  destruct (over && button_restart widgets).
  { (* restart *)
    cbn [fst snd].
    destruct (reset_game_started w) as (Hst & _ & Hq & Hm).
    split; [unfold run_ends_well; tauto|]. split; [exact Hst|]. now left. }
  destruct (over && button_new_game_setup widgets).
  { (* new game setup *)
    cbn [fst snd session_state with_session].
    split; [unfold run_ends_well; tauto|].
    destruct w as [s calls]. destruct s as [ty det idn cnt ov comp ms la].
    simpl in Hc, Hwho, Hcount, Hover, Hms. subst.
    cbn [session_state set_setup_complete question_count messages identity
         game_over].
    split.
    - exists who, count, over, rest. repeat split; auto; lia.
    - right. exists count, []. rewrite app_nil_r.
      repeat split; auto; simpl; lia. }
  destruct (chat_input widgets) as [[|c text]|].
  1, 3: (* nothing typed *)
    cbn [fst snd]; split; [unfold run_ends_well; tauto|];
    split;
    [ exists who, count, over, rest; repeat split; auto; lia
    | right; exists count, []; rewrite app_nil_r;
      repeat split; auto; simpl; lia ].
  (* a turn *)
  rewrite (play_turn_outcome str_lower collaborator (c :: text) w
             ((py "System", welcome_message) :: rest) who count over)
    by assumption.
  cbv zeta.
  destruct (ask_identity_ai_shape collaborator (c :: text) who
              default_max_retries default_temperature w)
    as (reqs & _ & Htype).
  destruct w as [s calls]. destruct s as [ty det idn cnt ov comp ms la].
  simpl in Hc, Hwho, Hcount, Hover, Hms. subst.
  destruct (ask_identity_ai collaborator (c :: text) who _ _ _)
    as [[answer|e] w2].
  - cbn [fst snd].
    destruct (apply_overrides str_lower who (c :: text) answer) as [a|].
    + destruct (is_correct_guess a);
        [|destruct over; [|destruct (is_question a)]];
        cbn [fst snd session_state with_session set_game_over set_messages
             set_question_count set_last_answer question_count messages
             identity game_over];
        (split; [unfold run_ends_well; tauto|]); split.
      * eapply (game_started_extend _ who count rest
                  [ (py "You", c :: text); (py "AI", response a);
                    (py "System", end_message who (count + 1)) ]);
          try eassumption; try reflexivity.
        change (player_entries _) with 1%nat. lia.
      * right. eexists (count + 1)%Z, _.
        repeat split; auto; simpl; lia.
      * eapply (game_started_extend _ who count rest
                  [ (py "You", c :: text); (py "AI", response a) ]);
          try eassumption; try reflexivity.
        change (player_entries _) with 1%nat. lia.
      * right. eexists count, _. repeat split; auto; simpl; lia.
      * eapply (game_started_extend _ who count rest
                  [ (py "You", c :: text); (py "AI", response a) ]);
          try eassumption; try reflexivity.
        change (player_entries _) with 1%nat. lia.
      * right. eexists (count + 1)%Z, _. repeat split; auto; simpl; lia.
      * eapply (game_started_extend _ who count rest
                  [ (py "You", c :: text); (py "AI", response a) ]);
          try eassumption; try reflexivity.
        change (player_entries _) with 1%nat. lia.
      * right. eexists count, _. repeat split; auto; simpl; lia.
    + cbn [fst snd session_state with_session set_messages question_count
           messages identity game_over].
      split; [unfold run_ends_well; tauto|]. split.
      * eapply (game_started_extend _ who count rest
                  [ (py "You", c :: text);
                    (py "System", invalid_json_message) ]);
          try eassumption; try reflexivity.
        change (player_entries _) with 1%nat. lia.
      * right. eexists count, _. repeat split; auto; simpl; lia.
  - cbn [fst snd session_state with_session set_messages question_count
         messages identity game_over].
    split; [unfold run_ends_well;
            destruct (Htype e eq_refl) as [->|[->| ->]]; tauto|].
    split.
    + eapply (game_started_extend _ who count rest
                [ (py "You", c :: text) ]);
        try eassumption; try reflexivity.
      change (player_entries _) with 1%nat. lia.
    + right. eexists count, _. repeat split; auto; simpl; lia.
Qed.

(** In a game that is set up, one run of [main] either resets the game
    (counter 0, transcript back to the welcome message) or keeps the
    identity, leaves the counter as it is or adds exactly 1 to it, and
    only appends to the transcript, at most three entries; it never
    removes or rewrites an entry, and never counts twice. *)
Theorem run_extends_transcript_and_counter :
  forall widgets w who count over rest,
    setup_complete (session_state w) = Some true ->
    identity (session_state w) = Some who ->
    who <> [] ->
    question_count (session_state w) = Some count ->
    (0 <= count <= Z.of_nat (player_entries rest))%Z ->
    game_over (session_state w) = Some over ->
    messages (session_state w)
    = Some ((py "System", welcome_message) :: rest) ->
    let s' := session_state (snd (main str_lower collaborator widgets w)) in
    (question_count s' = Some 0%Z
     /\ messages s' = Some [ (py "System", welcome_message) ])
    \/ exists count' extra,
         question_count s' = Some count'
         /\ (count' = count \/ count' = (count + 1)%Z)
         /\ messages s'
            = Some ((py "System", welcome_message) :: rest ++ extra)
         /\ (List.length extra <= 3)%nat
         /\ identity s' = Some who.
Proof.
  intros widgets w who count over rest Hc Hwho Hne Hcount Hbound Hover Hms.
  exact (proj2 (proj2 (main_in_game_step widgets w who count over rest
                         Hc Hwho Hne Hcount Hbound Hover Hms))).
Qed.

Lemma main_step_invariant widgets w :
  script_invariant (session_state w) ->
  run_ends_well (fst (main str_lower collaborator widgets w))
  /\ script_invariant
       (session_state (snd (main str_lower collaborator widgets w))).
Proof.
  intros Hinv.
  assert (Hgame : forall w0,
            game_started (session_state w0) ->
            setup_complete (session_state w0) = Some true ->
            run_ends_well (fst (main str_lower collaborator widgets w0))
            /\ script_invariant
                 (session_state
                    (snd (main str_lower collaborator widgets w0)))).
  { intros w0 (who & count & over & rest & Hwho & Hne & Hcount & Hbound
               & Hover & Hms) Hc.
    destruct (main_in_game_step widgets w0 who count over rest
                Hc Hwho Hne Hcount Hbound Hover Hms) as (Hend & Hst & _).
    split; [exact Hend | now right]. }
  destruct (setup_complete (session_state w)) as [[|]|] eqn:Hc.
  - destruct (messages (session_state w)) as [ms|] eqn:Hm.
    + destruct Hinv as [Hnone|Hst]; [congruence|]. now apply Hgame.
    + rewrite main_reinit by assumption.
      destruct (reset_game_started w) as (Hst & Hc' & _).
      now apply Hgame.
  - rewrite main_at_setup by (rewrite Hc; discriminate).
    cbv zeta. rewrite Hc. destruct (button_start_game widgets).
    + cbn [fst snd]. split; [unfold run_ends_well; tauto|].
      right. apply reset_game_started.
    + cbn [fst snd with_session session_state].
      split; [unfold run_ends_well; tauto | exact Hinv].
  - rewrite main_at_setup by (rewrite Hc; discriminate).
    cbv zeta. rewrite Hc. destruct (button_start_game widgets).
    + cbn [fst snd]. split; [unfold run_ends_well; tauto|].
      right. apply reset_game_started.
    + cbn [fst snd with_session session_state].
      split; [unfold run_ends_well; tauto|].
      destruct w as [s calls]. destruct s as [ty det idn cnt ov comp ms la].
      destruct Hinv as [Hnone|Hst]; [left; exact Hnone | right; exact Hst].
Qed.

(** One run of [main] keeps the invariant of the script: from a session
    that has no transcript or is that of a started game (identity not
    empty, transcript starting with the welcome message, counter between 0
    and the number of player entries), the run ends by returning, by a
    stop, by a rerun or by an exception that [ask_identity_ai] lets through
    ([TypeError], [ValueError] or [RecursionError]), never by a missing
    key, and leaves such a session. *)
Theorem main_keeps_script_invariant :
  forall widgets w,
    script_invariant (session_state w) ->
    let run := main str_lower collaborator widgets w in
    run_ends_well (fst run)
    /\ script_invariant (session_state (snd run)).
Proof.
  intros widgets w Hinv. exact (main_step_invariant widgets w Hinv).
Qed.

Lemma run_script_invariant inputs :
  forall w,
    script_invariant (session_state w) ->
    script_invariant
      (session_state (run_script str_lower collaborator inputs w)).
Proof.
  induction inputs as [|widgets later IH]; intros w Hinv; [exact Hinv|].
  cbn [run_script]. apply IH. now apply main_step_invariant.
Qed.

(** Starting from the empty session, whatever the widgets return from run
    to run and whatever the collaborator answers, no run of the script
    fails on a missing key of the session state: every run returns, stops,
    asks for a rerun or lets an exception of [ask_identity_ai] through
    ([TypeError], [ValueError] or [RecursionError]), and in every session
    reached the counter is at least 0 and at most the number of player
    entries of the transcript, which starts with the welcome message. *)
Theorem script_never_misses_a_key :
  forall inputs widgets,
    let w := run_script str_lower collaborator inputs
               (world_of empty_session) in
    run_ends_well (fst (main str_lower collaborator widgets w))
    /\ (fst (main str_lower collaborator widgets w)
        <> Raise AttributeError)
    /\ script_invariant (session_state w).
Proof.
  intros inputs widgets w.
  assert (Hinv : script_invariant (session_state w))
    by (apply run_script_invariant; now left).
  destruct (main_step_invariant widgets w Hinv) as [Hend _].
  repeat split; try assumption.
  intros H. unfold run_ends_well in Hend. rewrite H in Hend.
  destruct Hend as [E|[E|[E|[E|[E|E]]]]]; discriminate.
Qed.

End Invariant.

(* ===================================================================== *)
(** ** An identity that lowers to the empty text *)
(* ===================================================================== *)

(** The identity test is a substring test, and the empty text is a
    substring of every text: were the identity empty (after lowering),
    every input with a validated answer would count as the correct guess.
    [reset_game] never stores such an identity. *)
Theorem empty_identity_matches_every_input :
  forall (str_lower : pystr -> pystr) who prompt a,
    str_lower who = [] ->
    apply_overrides str_lower who prompt (Some a)
    = Some {| response := py "Yes!";
              is_question := false;
              is_correct_guess := true |}.
Proof.
  intros str_lower who prompt a Hempty.
  unfold apply_overrides, override_yes_no, override_identity.
  rewrite Hempty.
  assert (Hin : str_in [] (str_lower prompt) = true)
    by (apply str_in_here; reflexivity).
  destruct (str_in_list _ _); now rewrite Hin.
Qed.

End Interpreter.

(* ===================================================================== *)
(** * The script on concrete inputs *)
(* ===================================================================== *)

(** The texts below are decoded by an interpreter with the limits of
    [cpython_defaults]. *)
#[local] Existing Instance cpython_defaults.

(** Membership in a list of literals, refuted by computation. *)
Ltac not_in_literal :=
  let H := fresh in
  intros H; cbv in H;
  repeat (destruct H as [H|H]; [discriminate H|]); exact H.

(* ===================================================================== *)
(** ** Where the code departs from the specification *)
(* ===================================================================== *)

(** C3: the validator raises where the specification promises [None].
    The collaborator answers with the JSON string of the refusal, quotes
    included: [json.loads] returns a [str], unpacking it into
    [IdentityAnswer] raises [TypeError], which the [except] clause does
    not catch, although the text gives no answer on the fast path and
    holds no brace for the fallback; the exception leaves
    [ask_identity_ai] at the first call.  Likewise an empty JSON array in
    the first response keeps the valid object of the second response
    from being returned. *)
Theorem ask_identity_ai_raises_TypeError :
  decode_answer quoted_refusal_text = Raise TypeError
  /\ JSON_RE_search quoted_refusal_text = None
  /\ ask_identity_ai (always quoted_refusal_text)
       (py "Who are you?") (py "Albert Einstein")
       default_max_retries default_temperature (world_of empty_session)
     = (Raise TypeError,
        with_calls (world_of empty_session)
          [ ask_request (py "Who are you?") (py "Albert Einstein")
              default_temperature ])
  /\ decode_answer answer_yes_text
     = Ret {| response := py "yes";
              is_question := true;
              is_correct_guess := false |}
  /\ fst (ask_identity_ai (replay [ py "[]"; answer_yes_text ])
            (py "Who are you?") (py "Albert Einstein")
            default_max_retries default_temperature
            (world_of empty_session))
     = Raise TypeError.
Proof.
  repeat split; vm_compute; reflexivity.
Qed.

(** C4: the fallback is not tried after every failure of the fast path.
    The collaborator answers with the object inside a JSON array:
    [json.loads] returns a [list], unpacking it into [IdentityAnswer]
    raises [TypeError], which the first [except] clause does not catch, so
    the search for a brace-delimited substring is never reached, although
    the pattern finds the object in the text and the object decodes and
    validates to the answer; [ask_identity_ai] raises at the first call.
    Likewise for an object that follows an integer of 4301 digits: there
    [json.loads] raises [ValueError], which is not caught either. *)
Theorem fallback_skipped_after_uncaught_exception :
  decode_answer listed_answer_text = Raise TypeError
  /\ JSON_RE_search listed_answer_text = Some answer_yes_text
  /\ decode_answer answer_yes_text
     = Ret {| response := py "yes";
              is_question := true;
              is_correct_guess := false |}
  /\ extract_answer listed_answer_text = Raise TypeError
  /\ ask_identity_ai (always listed_answer_text)
       (py "Are you alive today?") (py "Albert Einstein")
       default_max_retries default_temperature (world_of empty_session)
     = (Raise TypeError,
        with_calls (world_of empty_session)
          [ ask_request (py "Are you alive today?") (py "Albert Einstein")
              default_temperature ])
  /\ json_loads (ones 4301 ++ answer_yes_text) = Raise ValueError
  /\ JSON_RE_search (ones 4301 ++ answer_yes_text) = Some answer_yes_text
  /\ extract_answer (ones 4301 ++ answer_yes_text) = Raise ValueError.
Proof.
  repeat split; vm_compute; reflexivity.
Qed.

(** C6, as stated, fails: the response no decodes with [is_question]
    false, its lowered response is no, and yet, the input holding the
    identity, the overrides end with [is_question] false. *)
Lemma yes_no_override_undone_by_identity :
  decode_answer answer_no_text
  = Ret {| response := py "no";
           is_question := false;
           is_correct_guess := false |}
  /\ str_in_list (lower_latin1 (py "no")) [ py "yes"; py "no" ] = true
  /\ apply_overrides lower_latin1 (py "Albert Einstein")
       (py "Is it Albert Einstein?")
       (Some {| response := py "no";
                is_question := false;
                is_correct_guess := false |})
     = Some {| response := py "Yes!";
               is_question := false;
               is_correct_guess := true |}.
Proof.
  repeat split; vm_compute; reflexivity.
Qed.

(** C7: the schema is not enforced strictly.  An object whose flags are
    the number 1 and the string no, neither of them a JSON boolean, is
    returned as an answer with the flags [True] and [False]; the attempt
    does not fail. *)
Lemma lax_mode_accepts_non_boolean_flags :
  json_loads coerced_answer_text
  = Ret (JObj [ (py "response", JStr (py "x"));
                (py "is_question", JInt 1);
                (py "is_correct_guess", JStr (py "no")) ])
  /\ ask_identity_ai (always coerced_answer_text)
       (py "Who are you?") (py "Albert Einstein")
       default_max_retries default_temperature (world_of empty_session)
     = (Ret (Some {| response := py "x";
                     is_question := true;
                     is_correct_guess := false |}),
        with_calls (world_of empty_session)
          [ ask_request (py "Who are you?") (py "Albert Einstein")
              default_temperature ]).
Proof.
  split; vm_compute; reflexivity.
Qed.

(** C9, as stated, fails twice.  When the answer is also a correct guess,
    the transcript gains two entries from the system side, the AI reply
    and the end-of-game message.  When the game is already over, the run
    is restarted before the counter is touched: it stays at 2. *)
Lemma question_turn_extra_entry_or_no_count :
  (let w := world_of (playing false []) in
   let prompt := py "Are you the physicist Einstein?" in
   let run := play_turn lower_latin1 (always congratulation_text) prompt w in
   option_map is_question
     (match fst (ask_identity_ai (always congratulation_text) prompt
                   (py "Albert Einstein") default_max_retries
                   default_temperature w) with
      | Ret answer => answer
      | Raise _ => None
      end) = Some true
   /\ messages (session_state (snd run))
      = Some [ (py "You", prompt);
               (py "AI", py "Yes, you got it!");
               (py "System", end_message (py "Albert Einstein") 3) ])
  /\
  (let w := world_of (playing true []) in
   let prompt := py "Are you alive today?" in
   let run := play_turn lower_latin1 (always answer_yes_text) prompt w in
   option_map is_question
     (match fst (ask_identity_ai (always answer_yes_text) prompt
                   (py "Albert Einstein") default_max_retries
                   default_temperature w) with
      | Ret answer => answer
      | Raise _ => None
      end) = Some true
   /\ question_count (session_state w) = Some 2%Z
   /\ question_count (session_state (snd run)) = Some 2%Z).
Proof.
  repeat split; vm_compute; reflexivity.
Qed.

(* --------------------------------------------------------------------- *)
(** ** Instances of the theorems *)
(* --------------------------------------------------------------------- *)

Lemma generate_identity_returns_last_attempt_witness :
  In (py "Historical Figure") identity_types
  /\ generate_identity
       (replay [ py "Cleopatra"; py "Napoleon"; py " Marie Curie " ])
       (py "Historical Figure") [] (world_of empty_session)
     = (Ret (Some (py "Marie Curie")),
        with_calls (world_of empty_session)
          (repeat (generate_request
                     (join_lines
                        [ py "Generate a historical figure identity for a guessing game. Choose someone significant from ";
                          py "any time period in history. The player will try to guess who this is through yes/no questions." ]))
             3)).
Proof.
  assert (Hin : In (py "Historical Figure") identity_types)
    by (right; left; reflexivity).
  split; [exact Hin|].
  destruct (generate_identity_returns_last_attempt
              (replay [ py "Cleopatra"; py "Napoleon"; py " Marie Curie " ])
              (py "Historical Figure") [] (world_of empty_session) Hin)
    as (prompt & Hprompt & Hrun & _).
  rewrite Hrun. vm_compute in Hprompt. injection Hprompt as <-.
  vm_compute. reflexivity.
Defined.

Lemma generate_identity_unrecognized_category_witness :
  ~ In (py "Animal") identity_types
  /\ generate_identity (always (py "Cat")) (py "Animal") []
       (world_of empty_session)
     = (Ret None, world_of empty_session).
Proof.
  assert (Hnot : ~ In (py "Animal") identity_types) by not_in_literal.
  split; [exact Hnot|].
  exact (generate_identity_unrecognized_category (always (py "Cat"))
           (py "Animal") [] (world_of empty_session) Hnot).
Defined.

Lemma identity_override_wins_witness :
  str_in (lower_latin1 (py "Albert Einstein"))
    (lower_latin1 (py "Is it Albert Einstein?")) = true
  /\ apply_overrides lower_latin1 (py "Albert Einstein")
       (py "Is it Albert Einstein?")
       (Some {| response := py "no";
                is_question := true;
                is_correct_guess := false |})
     = Some {| response := py "Yes!";
               is_question := false;
               is_correct_guess := true |}.
Proof.
  assert (Hin : str_in (lower_latin1 (py "Albert Einstein"))
                  (lower_latin1 (py "Is it Albert Einstein?")) = true)
    by (vm_compute; reflexivity).
  split; [exact Hin|].
  exact (proj1 (identity_override_wins lower_latin1 (py "Albert Einstein")
                  (py "Is it Albert Einstein?")
                  {| response := py "no";
                     is_question := true;
                     is_correct_guess := false |} Hin)).
Defined.

Lemma yes_no_override_without_identity_witness :
  decode_answer answer_no_text
  = Ret {| response := py "no";
           is_question := false;
           is_correct_guess := false |}
  /\ str_in_list (lower_latin1 (py "no")) [ py "yes"; py "no" ] = true
  /\ str_in (lower_latin1 (py "Albert Einstein"))
       (lower_latin1 (py "Are you alive today?")) = false
  /\ apply_overrides lower_latin1 (py "Albert Einstein")
       (py "Are you alive today?")
       (Some {| response := py "no";
                is_question := false;
                is_correct_guess := false |})
     = Some {| response := py "no";
               is_question := true;
               is_correct_guess := false |}.
Proof.
  assert (Hyn : str_in_list (lower_latin1 (py "no")) [ py "yes"; py "no" ]
                = true) by (vm_compute; reflexivity).
  assert (Hnot : str_in (lower_latin1 (py "Albert Einstein"))
                   (lower_latin1 (py "Are you alive today?")) = false)
    by (vm_compute; reflexivity).
  split; [vm_compute; reflexivity|].
  split; [exact Hyn|]. split; [exact Hnot|].
  exact (yes_no_override_without_identity lower_latin1
           (py "Albert Einstein") (py "Are you alive today?")
           {| response := py "no";
              is_question := false;
              is_correct_guess := false |} Hyn Hnot).
Defined.

Lemma extract_answer_fallback_witness :
  decode_answer wrapped_answer_text = Raise JSONDecodeError
  /\ caught JSONDecodeError = true
  /\ extract_answer wrapped_answer_text
     = Ret (Some {| response := py "yes";
                    is_question := true;
                    is_correct_guess := false |}).
Proof.
  assert (Hfast : decode_answer wrapped_answer_text = Raise JSONDecodeError)
    by (vm_compute; reflexivity).
  split; [exact Hfast|]. split; [reflexivity|].
  destruct (extract_answer_fallback wrapped_answer_text
              JSONDecodeError Hfast eq_refl) as [Hmatch _].
  rewrite (Hmatch (py "Sure! ")
             (pyq "`response`:`yes`,`is_question`:true,`is_correct_guess`:false")
             (py " Hope that helps.")).
  - vm_compute. reflexivity.
  - vm_compute. reflexivity.
  - not_in_literal.
  - not_in_literal.
Defined.

Lemma answers_are_validated_objects_witness :
  ask_identity_ai (always coerced_answer_text)
    (py "Who are you?") (py "Albert Einstein")
    default_max_retries default_temperature (world_of empty_session)
  = (Ret (Some {| response := py "x";
                  is_question := true;
                  is_correct_guess := false |}),
     with_calls (world_of empty_session)
       [ ask_request (py "Who are you?") (py "Albert Einstein")
           default_temperature ])
  /\ exists i text pairs,
       (i < Z.to_nat default_max_retries)%nat /\
       (let raw :=
          str_strip (always coerced_answer_text (0 + i)%nat
                       (ask_request (py "Who are you?")
                          (py "Albert Einstein") default_temperature)) in
        text = raw \/ JSON_RE_search raw = Some text) /\
       json_loads text = Ret (JObj pairs) /\
       dict_get (py "response") pairs = Some (JStr (py "x")) /\
       (exists v, dict_get (py "is_question") pairs = Some v /\
                  validate_bool v = Some true) /\
       (exists v, dict_get (py "is_correct_guess") pairs = Some v /\
                  validate_bool v = Some false).
Proof.
  assert (Hrun :
    ask_identity_ai (always coerced_answer_text)
      (py "Who are you?") (py "Albert Einstein")
      default_max_retries default_temperature (world_of empty_session)
    = (Ret (Some {| response := py "x";
                    is_question := true;
                    is_correct_guess := false |}),
       with_calls (world_of empty_session)
         [ ask_request (py "Who are you?") (py "Albert Einstein")
             default_temperature ]))
    by (vm_compute; reflexivity).
  split; [exact Hrun|].
  exact (answers_are_validated_objects (always coerced_answer_text)
           _ _ _ _ _ _ _ Hrun).
Defined.

Lemma failed_turn_only_extends_transcript_witness :
  let w := world_of (playing false [ (py "System", welcome_message) ]) in
  let prompt := py "Is it Albert Einstein?" in
  messages (session_state w) = Some [ (py "System", welcome_message) ]
  /\ identity (session_state w) = Some (py "Albert Einstein")
  /\ fst (ask_identity_ai (always refusal_text) prompt
            (py "Albert Einstein") default_max_retries
            default_temperature w) = Ret None
  /\ str_in (lower_latin1 (py "Albert Einstein")) (lower_latin1 prompt)
     = true
  /\ exists w',
       play_turn lower_latin1 (always refusal_text) prompt w
       = (Raise StopException, w')
       /\ session_state w'
          = set_messages
              ([ (py "System", welcome_message) ]
               ++ [ (py "You", prompt);
                    (py "System", invalid_json_message) ])
              (session_state w)
       /\ question_count (session_state w')
          = question_count (session_state w)
       /\ game_over (session_state w') = game_over (session_state w)
       /\ identity (session_state w') = identity (session_state w).
Proof.
  intros w prompt.
  assert (Hask : fst (ask_identity_ai (always refusal_text) prompt
                        (py "Albert Einstein") default_max_retries
                        default_temperature w) = Ret None)
    by (vm_compute; reflexivity).
  split; [reflexivity|]. split; [reflexivity|]. split; [exact Hask|].
  split; [vm_compute; reflexivity|].
  exact (failed_turn_only_extends_transcript lower_latin1
           (always refusal_text) prompt w
           [ (py "System", welcome_message) ] (py "Albert Einstein")
           eq_refl eq_refl Hask).
Defined.

Lemma question_turn_counts_once_witness :
  let w := world_of (playing false [ (py "System", welcome_message) ]) in
  let prompt := py "Are you alive today?" in
  let a := {| response := py "yes";
              is_question := true;
              is_correct_guess := false |} in
  messages (session_state w) = Some [ (py "System", welcome_message) ]
  /\ identity (session_state w) = Some (py "Albert Einstein")
  /\ question_count (session_state w) = Some 2%Z
  /\ game_over (session_state w) = Some false
  /\ fst (ask_identity_ai (always answer_yes_text) prompt
            (py "Albert Einstein") default_max_retries
            default_temperature w) = Ret (Some a)
  /\ is_question a = true
  /\ exists a' w',
       apply_overrides lower_latin1 (py "Albert Einstein") prompt (Some a)
       = Some a'
       /\ play_turn lower_latin1 (always answer_yes_text) prompt w
          = (Raise RerunException, w')
       /\ question_count (session_state w') = Some (2 + 1)%Z
       /\ messages (session_state w')
          = Some ([ (py "System", welcome_message) ]
                  ++ [ (py "You", prompt); (py "AI", response a') ]
                  ++ (if is_correct_guess a'
                      then [ (py "System",
                              end_message (py "Albert Einstein") (2 + 1)) ]
                      else []))
       /\ game_over (session_state w') = Some (is_correct_guess a')
       /\ identity (session_state w') = Some (py "Albert Einstein").
Proof.
  intros w prompt a.
  assert (Hask : fst (ask_identity_ai (always answer_yes_text) prompt
                        (py "Albert Einstein") default_max_retries
                        default_temperature w) = Ret (Some a))
    by (vm_compute; reflexivity).
  do 4 (split; [reflexivity|]). split; [exact Hask|].
  split; [reflexivity|].
  exact (question_turn_counts_once lower_latin1 (always answer_yes_text)
           prompt w [ (py "System", welcome_message) ]
           (py "Albert Einstein") 2%Z a eq_refl eq_refl eq_refl eq_refl
           Hask eq_refl).
Defined.

(* --------------------------------------------------------------------- *)
(** ** The decoder and the model on sample texts *)
(* --------------------------------------------------------------------- *)

Example json_loads_repeated_key :
  json_loads (pyq "{`a`: 1, `a`: [true, null]}")
  = Ret (JObj [ (py "a", JInt 1); (py "a", JArr [ JBool true; JNull ]) ])
  /\ dict_get (py "a") [ (py "a", JInt 1);
                         (py "a", JArr [ JBool true; JNull ]) ]
     = Some (JArr [ JBool true; JNull ]).
Proof. split; vm_compute; reflexivity. Qed.

Example json_loads_numbers :
  json_loads (py "[-0, 12.50e-1, 1E3]")
  = Ret (JArr [ JInt 0; JFloat (FDec false 1250 (-3));
                JFloat (FDec false 1 3) ])
  /\ json_loads (py "01") = Raise JSONDecodeError
  /\ json_loads (py "1.") = Raise JSONDecodeError.
Proof. repeat split; vm_compute; reflexivity. Qed.

Example json_loads_escapes :
  json_loads (pyq "`a\n\u00e9\ud83d\ude00`")
  = Ret (JStr [97; 10; 233; 128512])
  /\ json_loads (pyq "`\x41`") = Raise JSONDecodeError
  /\ json_loads (pyq "`open") = Raise JSONDecodeError.
Proof. repeat split; vm_compute; reflexivity. Qed.

Example json_loads_extra_data :
  json_loads (pyq "{`a`: 1} {`b`: 2}") = Raise JSONDecodeError
  /\ json_loads [] = Raise JSONDecodeError
  /\ json_loads refusal_text = Raise JSONDecodeError.
Proof. repeat split; vm_compute; reflexivity. Qed.

(** An integer literal of up to 4300 digits is converted, one of 4301
    raises [ValueError] where it is scanned, before any later error of the
    text is met; a float literal has no such limit. *)
Example json_loads_long_integers :
  json_loads (ones 4300) = Ret (JInt (Z.of_N (digits_value (ones 4300))))
  /\ json_loads (ones 4301) = Raise ValueError
  /\ json_loads (45 :: ones 4301) = Raise ValueError
  /\ json_loads (ones 4301 ++ py " x") = Raise ValueError
  /\ json_loads (py "[x, " ++ ones 4301) = Raise JSONDecodeError
  /\ json_loads (ones 4301 ++ py ".5")
     = Ret (JFloat (FDec false (digits_value (ones 4301 ++ py "5")) (-1)))
  /\ json_loads long_integer_text = Raise ValueError.
Proof. repeat split; vm_compute; reflexivity. Qed.

(** With room for 993 levels, arrays nested 993 deep are decoded and the
    994th open bracket raises [RecursionError], whatever follows it; three
    levels below the limit a [JSONDecodeError] of the scanner can no longer
    be raised, and [RecursionError] takes its place. *)
Example json_loads_deep_nesting :
  json_loads (nested_arrays 2) = Ret (JArr [ JArr [] ])
  /\ (exists v, json_loads (nested_arrays 993) = Ret v)
  /\ json_loads (nested_arrays 994) = Raise RecursionError
  /\ json_loads (repeat 91 994 ++ py "x") = Raise RecursionError
  /\ json_loads (repeat 91 993 ++ py "x") = Raise JSONDecodeError
  /\ json_loads (py "x" ++ repeat 91 1100) = Raise JSONDecodeError
  /\ json_loads (repeat 91 990 ++ py "1 x") = Raise JSONDecodeError
  /\ json_loads (repeat 91 991 ++ py "1 x") = Raise RecursionError.
Proof.
  repeat split; try (vm_compute; reflexivity).
  eexists. vm_compute. reflexivity.
Qed.

(** The text Sure!, an object, Hope that helps. yields the answer of the
    embedded object, after one call. *)
Example wrapped_answer_is_recovered :
  decode_answer wrapped_answer_text = Raise JSONDecodeError
  /\ JSON_RE_search wrapped_answer_text = Some answer_yes_text
  /\ ask_identity_ai (always wrapped_answer_text)
       (py "Are you alive today?") (py "Albert Einstein")
       default_max_retries default_temperature (world_of empty_session)
     = (Ret (Some {| response := py "yes";
                     is_question := true;
                     is_correct_guess := false |}),
        with_calls (world_of empty_session)
          [ ask_request (py "Are you alive today?") (py "Albert Einstein")
              default_temperature ]).
Proof. repeat split; vm_compute; reflexivity. Qed.

(** The fallback lets the two exceptions through as well: the first
    brace-delimited substring holds an integer of 4301 digits, or arrays
    nested 1100 deep. *)
Example extract_answer_limits :
  decode_answer wrapped_long_integer_text = Raise JSONDecodeError
  /\ JSON_RE_search wrapped_long_integer_text = Some long_integer_text
  /\ extract_answer wrapped_long_integer_text = Raise ValueError
  /\ decode_answer (pyq "x{`a`:" ++ repeat 91 1100 ++ py "}")
     = Raise JSONDecodeError
  /\ extract_answer (pyq "x{`a`:" ++ repeat 91 1100 ++ py "}")
     = Raise RecursionError.
Proof. repeat split; vm_compute; reflexivity. Qed.

Example IdentityAnswer_init_examples :
  IdentityAnswer_init (JObj [ (py "response", JStr (py "hm"));
                              (py "is_question", JBool false) ])
  = Raise ValidationError
  /\ IdentityAnswer_init (JObj [ (py "response", JInt 3);
                                 (py "is_question", JBool false);
                                 (py "is_correct_guess", JBool false) ])
     = Raise ValidationError
  /\ IdentityAnswer_init (JObj [ (py "response", JStr (py "hm"));
                                 (py "is_question", JStr (py "maybe"));
                                 (py "is_correct_guess", JBool false) ])
     = Raise ValidationError
  /\ IdentityAnswer_init (JObj [ (py "response", JStr (py "hm"));
                                 (py "is_question", JInt 2);
                                 (py "is_correct_guess", JNull) ])
     = Raise ValidationError
  /\ IdentityAnswer_init (JObj [ (py "response", JStr (py "hm"));
                                 (py "is_question", JStr (py "TRUE"));
                                 (py "is_correct_guess",
                                  JFloat (FDec false 0 0));
                                 (py "note", JNull) ])
     = Ret {| response := py "hm";
              is_question := true;
              is_correct_guess := false |}
  /\ IdentityAnswer_init (JArr []) = Raise TypeError.
Proof. repeat split; vm_compute; reflexivity. Qed.

(** The scenario of a first question: the game is started on the category
    Historical Figure, the third text of the collaborator becomes the
    identity, and the question Are you alive today? brings the counter
    from 0 to 1 and two entries to the transcript. *)
Example first_question_scenario :
  let collaborator :=
    replay [ py "Cleopatra"; py "Napoleon"; py " Marie Curie ";
             answer_yes_text ] in
  let start :=
    {| selectbox_identity_type := py "Historical Figure";
       text_area_custom_details := [];
       button_start_game := true;
       button_give_up := false;
       button_restart := false;
       button_new_game_setup := false;
       chat_input := None |} in
  let ask :=
    {| selectbox_identity_type := py "Historical Figure";
       text_area_custom_details := [];
       button_start_game := false;
       button_give_up := false;
       button_restart := false;
       button_new_game_setup := false;
       chat_input := Some (py "Are you alive today?") |} in
  let run1 := main lower_latin1 collaborator start (world_of empty_session) in
  let run2 := main lower_latin1 collaborator ask (snd run1) in
  fst run1 = Raise RerunException
  /\ identity (session_state (snd run1)) = Some (py "Marie Curie")
  /\ question_count (session_state (snd run1)) = Some 0%Z
  /\ messages (session_state (snd run1))
     = Some [ (py "System", welcome_message) ]
  /\ fst run2 = Raise RerunException
  /\ question_count (session_state (snd run2)) = Some 1%Z
  /\ messages (session_state (snd run2))
     = Some [ (py "System", welcome_message);
              (py "You", py "Are you alive today?");
              (py "AI", py "yes") ]
  /\ List.length (chat_calls (snd run2)) = 4%nat.
Proof. repeat split; vm_compute; reflexivity. Qed.

(* ===================================================================== *)
(** ** Instances of the further theorems *)
(* ===================================================================== *)

Lemma JSON_RE_search_leftmost_shortest_witness :
  (exists pre body post,
      py "a{b{c}d}e" = pre ++ 123 :: body ++ 125 :: post /\
      py "{b{c}" = 123 :: body ++ [125] /\
      ~ In 123 pre /\ ~ In 125 body)
  /\ JSON_RE_search (py "a{b{c}d}e") = Some (py "{b{c}").
Proof.
  assert (H : exists pre body post,
             py "a{b{c}d}e" = pre ++ 123 :: body ++ 125 :: post /\
             py "{b{c}" = 123 :: body ++ [125] /\
             ~ In 123 pre /\ ~ In 125 body).
  { exists (py "a"), (py "b{c"), (py "d}e").
    repeat split; try reflexivity; not_in_literal. }
  split; [exact H|].
  exact (proj2 (JSON_RE_search_leftmost_shortest (py "a{b{c}d}e")
                  (py "{b{c}")) H).
Defined.

Lemma ask_identity_ai_uncaught_exceptions_witness :
  fst (ask_identity_ai (always wrapped_long_integer_text) (py "Who are you?")
         (py "Albert Einstein") default_max_retries default_temperature
         (world_of empty_session))
  = Raise ValueError
  /\ exists i,
       (i < Z.to_nat default_max_retries)%nat /\
       let raw :=
         str_strip (always wrapped_long_integer_text (0 + i)%nat
                      (ask_request (py "Who are you?")
                         (py "Albert Einstein") default_temperature)) in
       (ValueError = TypeError /\
        exists v, json_loads raw = Ret v /\ forall pairs, v <> JObj pairs)
       \/ ((ValueError = ValueError \/ ValueError = RecursionError) /\
           (json_loads raw = Raise ValueError \/
            exists m, JSON_RE_search raw = Some m /\
                      json_loads m = Raise ValueError)).
Proof.
  assert (H : fst (ask_identity_ai (always wrapped_long_integer_text)
                     (py "Who are you?") (py "Albert Einstein")
                     default_max_retries default_temperature
                     (world_of empty_session))
              = Raise ValueError) by (vm_compute; reflexivity).
  split; [exact H|].
  exact (ask_identity_ai_uncaught_exceptions
           (always wrapped_long_integer_text) _ _ _ _ _ _ H).
Defined.

Lemma ask_identity_ai_exhausts_retries_witness :
  (forall j, (j < Z.to_nat default_max_retries)%nat ->
     let raw :=
       str_strip (always (py "I think {maybe} not.") (0 + j)%nat
                    (ask_request (py "Who are you?") (py "Albert Einstein")
                       default_temperature)) in
     (exists e, decode_answer raw = Raise e /\ caught e = true) /\
     (forall m, JSON_RE_search raw = Some m ->
                exists e, decode_answer m = Raise e /\ caught e = true))
  /\ ask_identity_ai (always (py "I think {maybe} not.")) (py "Who are you?")
       (py "Albert Einstein") default_max_retries default_temperature
       (world_of empty_session)
     = (Ret None,
        with_calls (world_of empty_session)
          (repeat (ask_request (py "Who are you?") (py "Albert Einstein")
                     default_temperature) 3)).
Proof.
  assert (H : forall j, (j < Z.to_nat default_max_retries)%nat ->
     let raw :=
       str_strip (always (py "I think {maybe} not.") (0 + j)%nat
                    (ask_request (py "Who are you?") (py "Albert Einstein")
                       default_temperature)) in
     (exists e, decode_answer raw = Raise e /\ caught e = true) /\
     (forall m, JSON_RE_search raw = Some m ->
                exists e, decode_answer m = Raise e /\ caught e = true)).
  { intros j _. split.
    - exists JSONDecodeError. split; vm_compute; reflexivity.
    - intros m Hm. vm_compute in Hm. injection Hm as <-.
      exists JSONDecodeError. split; vm_compute; reflexivity. }
  split; [exact H|].
  exact (ask_identity_ai_exhausts_retries (always (py "I think {maybe} not."))
           (py "Who are you?") (py "Albert Einstein") default_max_retries
           default_temperature (world_of empty_session) H).
Defined.

Lemma ask_identity_ai_first_answer_wins_witness :
  let collaborator := replay [ refusal_text; wrapped_answer_text;
                               answer_no_text ] in
  let req := ask_request (py "Are you alive today?") (py "Albert Einstein")
               default_temperature in
  let a := {| response := py "yes";
              is_question := true;
              is_correct_guess := false |} in
  (1 < Z.to_nat default_max_retries)%nat
  /\ (forall j, (j < 1)%nat ->
        extract_answer (str_strip (collaborator (0 + j)%nat req)) = Ret None)
  /\ extract_answer (str_strip (collaborator (0 + 1)%nat req)) = Ret (Some a)
  /\ ask_identity_ai collaborator (py "Are you alive today?")
       (py "Albert Einstein") default_max_retries default_temperature
       (world_of empty_session)
     = (Ret (Some a), with_calls (world_of empty_session) (repeat req 2)).
Proof.
  intros collaborator req a.
  assert (Hi : (1 < Z.to_nat default_max_retries)%nat)
    by (vm_compute; lia).
  assert (Hbefore : forall j, (j < 1)%nat ->
            extract_answer (str_strip (collaborator (0 + j)%nat req))
            = Ret None).
  { intros [|j] Hj; [vm_compute; reflexivity | lia]. }
  assert (Ha : extract_answer (str_strip (collaborator (0 + 1)%nat req))
               = Ret (Some a)) by (vm_compute; reflexivity).
  split; [exact Hi|]. split; [exact Hbefore|]. split; [exact Ha|].
  exact (ask_identity_ai_first_answer_wins collaborator
           (py "Are you alive today?") (py "Albert Einstein")
           default_max_retries default_temperature (world_of empty_session)
           1%nat a Hi Hbefore Ha).
Defined.

Lemma custom_details_only_for_custom_witness :
  py "Historical Figure" <> py "Custom"
  /\ identity_prompt (py "Historical Figure") (py "a pirate")
     = identity_prompt (py "Historical Figure") [].
Proof.
  assert (H : py "Historical Figure" <> py "Custom") by discriminate.
  split; [exact H|].
  exact (proj1 custom_details_only_for_custom (py "Historical Figure")
           (py "a pirate") [] H).
Defined.

Lemma generate_identity_strips_only_whitespace_witness :
  In (py "Custom") identity_types
  /\ exists prompt text pre post,
       identity_prompt (py "Custom") (py "a pirate") = Some prompt /\
       fst (generate_identity
              (replay [ py "x"; py "y"; py "  Anne Bonny " ])
              (py "Custom") (py "a pirate") (world_of empty_session))
       = Ret (Some text) /\
       replay [ py "x"; py "y"; py "  Anne Bonny " ] (0 + 2)%nat
         (generate_request prompt)
       = pre ++ text ++ post /\
       forallb isspace pre = true /\ forallb isspace post = true /\
       stripped text.
Proof.
  assert (H : In (py "Custom") identity_types)
    by (do 4 right; left; reflexivity).
  split; [exact H|].
  exact (generate_identity_strips_only_whitespace
           (replay [ py "x"; py "y"; py "  Anne Bonny " ])
           (py "Custom") (py "a pirate") (world_of empty_session) H).
Defined.

Lemma setup_then_reset_uses_new_category_witness :
  let w := world_of (playing true []) in
  In (py "Fictional Character") identity_types
  /\ exists prompt,
       identity_prompt (py "Fictional Character") [] = Some prompt /\
       let run := (setup_game (py "Fictional Character") [] ;;
                   reset_game (always (py "Sherlock Holmes"))) w in
       fst run = Ret tt
       /\ chat_calls (snd run)
          = chat_calls w ++ repeat (generate_request prompt) 3
       /\ identity_type (session_state (snd run))
          = Some (py "Fictional Character")
       /\ custom_details (session_state (snd run)) = Some [].
Proof.
  intros w.
  assert (H : In (py "Fictional Character") identity_types)
    by (do 2 right; left; reflexivity).
  split; [exact H|].
  exact (setup_then_reset_uses_new_category (always (py "Sherlock Holmes"))
           (py "Fictional Character") [] w H).
Defined.

Lemma init_state_settles_witness :
  setup_complete (session_state (world_of empty_session)) <> Some true
  /\ chat_calls (snd (init_state (always (py "x")) (world_of empty_session)))
     = []
  /\ setup_complete
       (session_state
          (snd (init_state (always (py "x")) (world_of empty_session))))
     <> None.
Proof.
  assert (H : setup_complete (session_state (world_of empty_session))
              <> Some true) by discriminate.
  split; [exact H|].
  destruct (init_state_settles (always (py "x")) (world_of empty_session))
    as (_ & Hset & _ & Hquiet).
  split; [exact (proj1 (Hquiet (or_introl H))) | exact Hset].
Defined.

Lemma correct_guess_ends_game_witness :
  let w := world_of (playing false [ (py "System", welcome_message) ]) in
  let prompt := py "Is it ALBERT EINSTEIN?" in
  let a := {| response := py "no";
              is_question := false;
              is_correct_guess := false |} in
  messages (session_state w) = Some [ (py "System", welcome_message) ]
  /\ identity (session_state w) = Some (py "Albert Einstein")
  /\ question_count (session_state w) = Some 2%Z
  /\ game_over (session_state w) = Some false
  /\ fst (ask_identity_ai (always answer_no_text) prompt
            (py "Albert Einstein") default_max_retries
            default_temperature w) = Ret (Some a)
  /\ (is_correct_guess a = true
      \/ str_in (lower_latin1 (py "Albert Einstein")) (lower_latin1 prompt)
         = true)
  /\ exists reply,
       let run := play_turn lower_latin1 (always answer_no_text) prompt w in
       let s' := session_state (snd run) in
       fst run = Raise RerunException
       /\ question_count s' = Some (2 + 1)%Z
       /\ game_over s' = Some true
       /\ messages s'
          = Some ([ (py "System", welcome_message) ]
                  ++ [ (py "You", prompt); (py "AI", reply);
                       (py "System",
                        end_message (py "Albert Einstein") (2 + 1)) ])
       /\ (str_in (lower_latin1 (py "Albert Einstein"))
             (lower_latin1 prompt) = true ->
           reply = py "Yes!")
       /\ last_answer s' = last_answer (session_state w).
Proof.
  intros w prompt a.
  assert (Hask : fst (ask_identity_ai (always answer_no_text) prompt
                        (py "Albert Einstein") default_max_retries
                        default_temperature w) = Ret (Some a))
    by (vm_compute; reflexivity).
  assert (Hguess : is_correct_guess a = true
                   \/ str_in (lower_latin1 (py "Albert Einstein"))
                        (lower_latin1 prompt) = true)
    by (right; vm_compute; reflexivity).
  do 4 (split; [reflexivity|]). split; [exact Hask|]. split; [exact Hguess|].
  exact (correct_guess_ends_game lower_latin1 (always answer_no_text)
           prompt w [ (py "System", welcome_message) ]
           (py "Albert Einstein") 2%Z false a
           eq_refl eq_refl eq_refl eq_refl Hask Hguess).
Defined.

Lemma turn_without_question_is_free_witness :
  let w := world_of (playing false [ (py "System", welcome_message) ]) in
  let prompt := py "Tell me a joke" in
  let text := pyq "{`response`:`Please ask a yes/no question.`,`is_question`:false,`is_correct_guess`:false}" in
  let a := {| response := py "Please ask a yes/no question.";
              is_question := false;
              is_correct_guess := false |} in
  fst (ask_identity_ai (always text) prompt (py "Albert Einstein")
         default_max_retries default_temperature w) = Ret (Some a)
  /\ apply_overrides lower_latin1 (py "Albert Einstein") prompt (Some a)
     = Some a
  /\ (let run := play_turn lower_latin1 (always text) prompt w in
      fst run = Ret tt
      /\ session_state (snd run)
         = set_messages
             ([ (py "System", welcome_message) ]
              ++ [ (py "You", prompt); (py "AI", response a) ])
             (session_state w)).
Proof.
  intros w prompt text a.
  assert (Hask : fst (ask_identity_ai (always text) prompt
                        (py "Albert Einstein") default_max_retries
                        default_temperature w) = Ret (Some a))
    by (vm_compute; reflexivity).
  assert (Hov : apply_overrides lower_latin1 (py "Albert Einstein") prompt
                  (Some a) = Some a) by (vm_compute; reflexivity).
  split; [exact Hask|]. split; [exact Hov|].
  exact (turn_without_question_is_free lower_latin1 (always text) prompt w
           [ (py "System", welcome_message) ] (py "Albert Einstein") 2%Z
           a a eq_refl eq_refl eq_refl eq_refl Hask Hov eq_refl eq_refl).
Defined.

Lemma turn_after_game_over_is_not_counted_witness :
  let w := world_of (playing true [ (py "System", welcome_message) ]) in
  let prompt := py "Are you alive today?" in
  let a := {| response := py "yes";
              is_question := true;
              is_correct_guess := false |} in
  game_over (session_state w) = Some true
  /\ fst (ask_identity_ai (always answer_yes_text) prompt
            (py "Albert Einstein") default_max_retries
            default_temperature w) = Ret (Some a)
  /\ apply_overrides lower_latin1 (py "Albert Einstein") prompt (Some a)
     = Some a
  /\ (let run := play_turn lower_latin1 (always answer_yes_text) prompt w in
      fst run = Raise RerunException
      /\ session_state (snd run)
         = set_messages
             ([ (py "System", welcome_message) ]
              ++ [ (py "You", prompt); (py "AI", response a) ])
             (session_state w)).
Proof.
  intros w prompt a.
  assert (Hask : fst (ask_identity_ai (always answer_yes_text) prompt
                        (py "Albert Einstein") default_max_retries
                        default_temperature w) = Ret (Some a))
    by (vm_compute; reflexivity).
  assert (Hov : apply_overrides lower_latin1 (py "Albert Einstein") prompt
                  (Some a) = Some a) by (vm_compute; reflexivity).
  split; [reflexivity|]. split; [exact Hask|]. split; [exact Hov|].
  exact (turn_after_game_over_is_not_counted lower_latin1
           (always answer_yes_text) prompt w
           [ (py "System", welcome_message) ] (py "Albert Einstein") 2%Z
           a a eq_refl eq_refl eq_refl eq_refl Hask Hov eq_refl).
Defined.

Lemma turn_exception_leaves_unanswered_entry_witness :
  let w := world_of (playing false [ (py "System", welcome_message) ]) in
  let prompt := py "Who are you?" in
  fst (ask_identity_ai (always wrapped_long_integer_text) prompt
         (py "Albert Einstein") default_max_retries default_temperature w)
  = Raise ValueError
  /\ (let run := play_turn lower_latin1 (always wrapped_long_integer_text)
                   prompt w in
      fst run = Raise ValueError
      /\ (ValueError = TypeError \/ ValueError = ValueError
          \/ ValueError = RecursionError)
      /\ session_state (snd run)
         = set_messages
             ([ (py "System", welcome_message) ] ++ [ (py "You", prompt) ])
             (session_state w)).
Proof.
  intros w prompt.
  assert (Hask : fst (ask_identity_ai (always wrapped_long_integer_text) prompt
                        (py "Albert Einstein") default_max_retries
                        default_temperature w) = Raise ValueError)
    by (vm_compute; reflexivity).
  split; [exact Hask|].
  exact (turn_exception_leaves_unanswered_entry lower_latin1
           (always wrapped_long_integer_text) prompt w
           [ (py "System", welcome_message) ] (py "Albert Einstein")
           ValueError eq_refl eq_refl Hask).
Defined.

Lemma turn_needs_transcript_and_identity_witness :
  let w := world_of empty_session in
  (messages (session_state w) = None \/ identity (session_state w) = None)
  /\ (let run := play_turn lower_latin1 (always answer_yes_text)
                   (py "Are you alive today?") w in
      fst run = Raise AttributeError
      /\ chat_calls (snd run) = chat_calls w).
Proof.
  intros w.
  assert (H : messages (session_state w) = None
              \/ identity (session_state w) = None)
    by (left; reflexivity).
  split; [exact H|].
  exact (turn_needs_transcript_and_identity lower_latin1
           (always answer_yes_text) (py "Are you alive today?") w H).
Defined.

Lemma empty_identity_matches_every_input_witness :
  lower_latin1 [] = []
  /\ apply_overrides lower_latin1 [] (py "Are you alive today?")
       (Some {| response := py "no";
                is_question := true;
                is_correct_guess := false |})
     = Some {| response := py "Yes!";
               is_question := false;
               is_correct_guess := true |}.
Proof.
  assert (H : lower_latin1 [] = []) by reflexivity.
  split; [exact H|].
  exact (empty_identity_matches_every_input lower_latin1 []
           (py "Are you alive today?")
           {| response := py "no";
              is_question := true;
              is_correct_guess := false |} H).
Defined.

Lemma setup_screen_waits_for_start_witness :
  let widgets :=
    {| selectbox_identity_type := py "Random Character";
       text_area_custom_details := [];
       button_start_game := false;
       button_give_up := true;
       button_restart := false;
       button_new_game_setup := false;
       chat_input := Some (py "Are you alive today?") |} in
  let w := world_of empty_session in
  setup_complete (session_state w) <> Some true
  /\ button_start_game widgets = false
  /\ main lower_latin1 (always answer_yes_text) widgets w
     = (Raise StopException,
        with_session w (set_setup_complete false (session_state w))).
Proof.
  intros widgets w.
  assert (H : setup_complete (session_state w) <> Some true) by discriminate.
  split; [exact H|]. split; [reflexivity|].
  exact (setup_screen_waits_for_start lower_latin1 (always answer_yes_text)
           widgets w H eq_refl).
Defined.

Lemma start_game_stores_choice_witness :
  let widgets :=
    {| selectbox_identity_type := py "Historical Figure";
       text_area_custom_details := py "a pirate";
       button_start_game := true;
       button_give_up := false;
       button_restart := false;
       button_new_game_setup := false;
       chat_input := None |} in
  let w := world_of empty_session in
  let run := main lower_latin1 (always (py "Cleopatra")) widgets w in
  let s' := session_state (snd run) in
  setup_complete (session_state w) <> Some true
  /\ button_start_game widgets = true
  /\ fst run = Raise RerunException
  /\ identity_type s' = Some (py "Historical Figure")
  /\ custom_details s' = Some []
  /\ identity s' = Some (py "Cleopatra").
Proof.
  intros widgets w run s'.
  assert (H : setup_complete (session_state w) <> Some true) by discriminate.
  split; [exact H|]. split; [reflexivity|].
  destruct (start_game_stores_choice lower_latin1 (always (py "Cleopatra"))
              widgets w H eq_refl)
    as (Hend & Hty & Hdet & _).
  split; [exact Hend|]. split; [exact Hty|]. split; [exact Hdet|].
  vm_compute. reflexivity.
Defined.

Lemma give_up_reveals_identity_witness :
  let widgets :=
    {| selectbox_identity_type := py "Random Character";
       text_area_custom_details := [];
       button_start_game := false;
       button_give_up := true;
       button_restart := true;
       button_new_game_setup := false;
       chat_input := Some (py "Are you alive today?") |} in
  let w := world_of (playing false [ (py "System", welcome_message) ]) in
  setup_complete (session_state w) = Some true
  /\ button_give_up widgets = true
  /\ main lower_latin1 (always answer_yes_text) widgets w
     = (Raise RerunException,
        with_session w
          (set_game_over true
             (set_messages
                ([ (py "System", welcome_message) ]
                 ++ [ (py "System",
                       py "You gave up. The identity was **"
                       ++ py "Albert Einstein" ++ py "**.") ])
                (session_state w)))).
Proof.
  intros widgets w.
  split; [reflexivity|]. split; [reflexivity|].
  exact (give_up_reveals_identity lower_latin1 (always answer_yes_text)
           widgets w [ (py "System", welcome_message) ]
           (py "Albert Einstein") 2%Z false
           eq_refl eq_refl eq_refl eq_refl eq_refl eq_refl).
Defined.

Lemma restart_resets_the_game_witness :
  let widgets :=
    {| selectbox_identity_type := py "Random Character";
       text_area_custom_details := [];
       button_start_game := false;
       button_give_up := false;
       button_restart := true;
       button_new_game_setup := true;
       chat_input := Some (py "Are you alive today?") |} in
  let w := world_of (playing true [ (py "System", welcome_message) ]) in
  setup_complete (session_state w) = Some true
  /\ game_over (session_state w) = Some true
  /\ button_give_up widgets = false
  /\ button_restart widgets = true
  /\ main lower_latin1 (always (py "Cleopatra")) widgets w
     = (Raise RerunException, snd (reset_game (always (py "Cleopatra")) w)).
Proof.
  intros widgets w.
  do 4 (split; [reflexivity|]).
  exact (restart_resets_the_game lower_latin1 (always (py "Cleopatra"))
           widgets w [ (py "System", welcome_message) ]
           (py "Albert Einstein") 2%Z
           eq_refl eq_refl eq_refl eq_refl eq_refl eq_refl eq_refl).
Defined.

Lemma new_game_setup_returns_to_setup_screen_witness :
  let widgets :=
    {| selectbox_identity_type := py "Random Character";
       text_area_custom_details := [];
       button_start_game := false;
       button_give_up := false;
       button_restart := false;
       button_new_game_setup := true;
       chat_input := None |} in
  let next :=
    {| selectbox_identity_type := py "Random Character";
       text_area_custom_details := [];
       button_start_game := false;
       button_give_up := false;
       button_restart := false;
       button_new_game_setup := false;
       chat_input := Some (py "Are you alive today?") |} in
  let w := world_of (playing true [ (py "System", welcome_message) ]) in
  let w' := with_session w (set_setup_complete false (session_state w)) in
  game_over (session_state w) = Some true
  /\ button_new_game_setup widgets = true
  /\ button_start_game next = false
  /\ main lower_latin1 (always answer_yes_text) widgets w
     = (Raise RerunException, w')
  /\ main lower_latin1 (always answer_yes_text) next w'
     = (Raise StopException, w').
Proof.
  intros widgets next w w'.
  do 3 (split; [reflexivity|]).
  exact (new_game_setup_returns_to_setup_screen lower_latin1
           (always answer_yes_text) widgets next w
           [ (py "System", welcome_message) ] (py "Albert Einstein") 2%Z
           eq_refl eq_refl eq_refl eq_refl eq_refl eq_refl eq_refl eq_refl
           eq_refl).
Defined.

Lemma idle_run_changes_nothing_witness :
  let widgets := idle_widgets (py "Random Character") [] in
  let w := world_of (playing false [ (py "System", welcome_message) ]) in
  setup_complete (session_state w) = Some true
  /\ button_give_up widgets = false
  /\ (chat_input widgets = None \/ chat_input widgets = Some [])
  /\ main lower_latin1 (always answer_yes_text) widgets w
     = (Raise StopException, w).
Proof.
  intros widgets w.
  assert (H : chat_input widgets = None \/ chat_input widgets = Some [])
    by (left; reflexivity).
  do 2 (split; [reflexivity|]). split; [exact H|].
  exact (idle_run_changes_nothing lower_latin1 (always answer_yes_text)
           widgets w [ (py "System", welcome_message) ]
           (py "Albert Einstein") 2%Z false
           eq_refl eq_refl eq_refl eq_refl eq_refl eq_refl eq_refl eq_refl
           H).
Defined.

Lemma run_extends_transcript_and_counter_witness :
  let earlier :=
    [ (py "You", py "Are you a scientist?"); (py "AI", py "yes");
      (py "You", py "Are you French?"); (py "AI", py "no") ] in
  let w := world_of (playing false
                       ((py "System", welcome_message) :: earlier)) in
  let widgets :=
    {| selectbox_identity_type := py "Random Character";
       text_area_custom_details := [];
       button_start_game := false;
       button_give_up := false;
       button_restart := false;
       button_new_game_setup := false;
       chat_input := Some (py "Are you alive today?") |} in
  let s' := session_state
              (snd (main lower_latin1 (always answer_no_text) widgets w)) in
  py "Albert Einstein" <> []
  /\ (0 <= 2 <= Z.of_nat (player_entries earlier))%Z
  /\ ((question_count s' = Some 0%Z
       /\ messages s' = Some [ (py "System", welcome_message) ])
      \/ exists count' extra,
           question_count s' = Some count'
           /\ (count' = 2%Z \/ count' = (2 + 1)%Z)
           /\ messages s'
              = Some ((py "System", welcome_message) :: earlier ++ extra)
           /\ (List.length extra <= 3)%nat
           /\ identity s' = Some (py "Albert Einstein")).
Proof.
  intros earlier w widgets s'.
  assert (Hne : py "Albert Einstein" <> []) by discriminate.
  assert (Hbound : (0 <= 2 <= Z.of_nat (player_entries earlier))%Z)
    by (vm_compute; split; discriminate).
  split; [exact Hne|]. split; [exact Hbound|].
  exact (run_extends_transcript_and_counter lower_latin1
           (always answer_no_text) widgets w (py "Albert Einstein") 2%Z
           false earlier eq_refl eq_refl Hne eq_refl Hbound eq_refl eq_refl).
Defined.

Lemma main_keeps_script_invariant_witness :
  let widgets :=
    {| selectbox_identity_type := py "Custom";
       text_area_custom_details := py "a pirate";
       button_start_game := true;
       button_give_up := false;
       button_restart := false;
       button_new_game_setup := false;
       chat_input := None |} in
  let w := world_of empty_session in
  let run := main lower_latin1 (always (py "Anne Bonny")) widgets w in
  script_invariant (session_state w)
  /\ run_ends_well (fst run)
  /\ script_invariant (session_state (snd run)).
Proof.
  intros widgets w run.
  assert (H : script_invariant (session_state w)) by (left; reflexivity).
  split; [exact H|].
  exact (main_keeps_script_invariant lower_latin1 (always (py "Anne Bonny"))
           widgets w H).
Defined.
